(** * LLMSession (Node.js): Automator, BrowserManager and ChatGPTProvider

    A shallow embedding of the TypeScript sources

    - [Automator]        (init, processPrompt, processChain, close),
    - [BrowserManager]   (start, saveSession, stop, isAuthenticated),
    - [ChatGPTProvider]  (login, handleDialogs, sendPrompt),

    together with the properties their specification states about them.

    The browser-automation driver (Playwright), the file system and the
    one-time-passcode callback are outside the repository.  Every call to
    them is an operation of a call tree ([IO]); an environment ([Env])
    answers each operation, given the history of the run, with a value or
    with a rejection, and the run records every call and every log message
    in a trace.  Object fields that the methods assign ([this.context],
    [this.page], [this.provider], ...) are threaded as explicit state, which
    survives a thrown exception exactly as the fields of a JavaScript object
    do. *)

From Stdlib Require Import Ascii String DecimalString.
From stdpp Require Import base option list strings gmap.

Open Scope string_scope.
Open Scope list_scope.

(* ===================================================================== *)
(** * JavaScript strings *)
(* ===================================================================== *)

(** Strings are sequences of code units; [includes] and [replace] only
    compare code units, so the alphabet is immaterial. *)
Module JsString.

(** The double quote, used inside the default selectors. *)
Definition dq : string := String (Ascii.ascii_of_nat 34) EmptyString.

Fixpoint skip (n : nat) (s : string) : string :=
  match n, s with
  | O, _ => s
  | S n', String _ s' => skip n' s'
  | S _, EmptyString => EmptyString
  end.

(** [split_first pat s] cuts [s] around the first (leftmost) occurrence of
    [pat]: the text before it and the text after it. *)
Fixpoint split_first (pat s : string) : option (string * string) :=
  if String.prefix pat s then Some ("", skip (String.length pat) s)
  else match s with
       | EmptyString => None
       | String c s' =>
           match split_first pat s' with
           | Some (before, after) => Some (String c before, after)
           | None => None
           end
       end.

(** [String.prototype.includes(searchString)]. *)
Definition includes (s pat : string) : bool :=
  match split_first pat s with Some _ => true | None => false end.

(** ECMAScript [GetSubstitution] for a string pattern (no captures, no
    named groups): in the replacement text [$$] is a dollar sign, [$&] the
    matched text, [$`] the text before the match and [$'] the text after
    it; every other [$] stands for itself. *)
Fixpoint getSubstitution (matched before after template : string) : string :=
  match template with
  | EmptyString => EmptyString
  | String c rest =>
      if Ascii.eqb c "$"%char then
        match rest with
        | EmptyString => String c EmptyString
        | String d rest' =>
            if Ascii.eqb d "$"%char then
              String "$"%char (getSubstitution matched before after rest')
            else if Ascii.eqb d "&"%char then
              matched +:+ getSubstitution matched before after rest'
            else if Ascii.eqb d "`"%char then
              before +:+ getSubstitution matched before after rest'
            else if Ascii.eqb d "'"%char then
              after +:+ getSubstitution matched before after rest'
            else String c (getSubstitution matched before after rest)
        end
      else String c (getSubstitution matched before after rest)
  end.

(** [String.prototype.replace(pattern, replacement)] with a string pattern
    and a string replacement: only the first occurrence is replaced. *)
Definition replace (s pat replacement : string) : string :=
  match split_first pat s with
  | None => s
  | Some (before, after) =>
      before +:+ getSubstitution pat before after replacement +:+ after
  end.

(** [String(n)] for a non-negative integer. *)
Definition of_nat (n : nat) : string := NilEmpty.string_of_uint (Nat.to_uint n).

End JsString.

(* ===================================================================== *)
(** * Prompt chains: the templating step of [Automator.processChain] *)
(* ===================================================================== *)

(** A chain element is a literal string or a function of the previous
    response ([string | ((prev: string) => string)]). *)
Inductive PromptItem : Type :=
| Literal (text : string)
| Transform (f : string -> string).

(** Lines 94-106 of the loop body: the prompt that is sent for one item. *)
Definition resolvePrompt (promptItem : PromptItem) (lastResponse : string) : string :=
  match promptItem with
  | Transform f => f lastResponse
  | Literal currentPrompt =>
      if JsString.includes currentPrompt "{}" then
        JsString.replace currentPrompt "{}" lastResponse
      else if JsString.includes currentPrompt "{{}}" then
        JsString.replace currentPrompt "{{}}" lastResponse
      else currentPrompt
  end.

(* ===================================================================== *)
(** * Exceptions *)
(* ===================================================================== *)

(** A thrown value: an [Error] object with its [name] and [message].  The
    sources only ever throw [new Error(...)]; the driver rejects with its
    own error classes ([TimeoutError], ...). *)
Record JsError : Type := mkJsError { name : string; message : string }.

Definition Error (msg : string) : JsError := mkJsError "Error" msg.
Definition TypeError (msg : string) : JsError := mkJsError "TypeError" msg.

(** [`${e}`]: [Error.prototype.toString]. *)
Definition toString (e : JsError) : string :=
  if String.eqb (name e) "" then message e
  else if String.eqb (message e) "" then name e
  else name e +:+ ": " +:+ message e.

(** JavaScript truthiness of an optional string: [undefined] and the empty
    string are falsy. *)
Definition truthy (o : option string) : bool :=
  match o with
  | Some s => negb (String.eqb s "")
  | None => false
  end.

(** [a || b] on optional strings. *)
Definition or_else (a b : option string) : option string :=
  if truthy a then a else b.

(* ===================================================================== *)
(** * Operations of the external collaborators *)
(* ===================================================================== *)

(** Driver objects (contexts, pages, element handles) are opaque. *)
Definition handle : Type := nat.

Record LaunchOptions : Type := mkLaunchOptions {
  lo_headless : bool;
  lo_userAgent : string;
  lo_viewport : nat * nat;
  lo_args : list string
}.

(** One constructor per call the sources make; the index is the type of the
    value the call resolves to.  Every call may instead reject. *)
Inductive Op : Type -> Type :=
(* fs-extra *)
| EnsureDirSync (dir : string) : Op unit
| ExistsSync (path : string) : Op bool
| ReadJSON (path : string) : Op (option string)
(* chromium and BrowserContext *)
| LaunchPersistentContext (userDataDir : string) (opts : LaunchOptions) : Op handle
| AddCookies (ctx : handle) (cookies : string) : Op unit
| Pages (ctx : handle) : Op (list handle)
| NewPage (ctx : handle) : Op handle
| GrantPermissions (ctx : handle) (permissions : list string) : Op unit
| StorageState (ctx : handle) (path : string) : Op unit
| ContextClose (ctx : handle) : Op unit
| BrowserClose (b : handle) : Op unit
(* Page *)
| Goto (pg : handle) (url : string) (waitUntil : option string) : Op unit
| WaitForSelector (pg : handle) (selector : string)
    (state : option string) (timeout : option N) : Op unit
| Click (pg : handle) (selector : string) : Op unit
| Fill (pg : handle) (selector value : string) : Op unit
| IsVisible (pg : handle) (selector : string) : Op bool
| IsDisabled (pg : handle) (selector : string) : Op bool
| WaitForTimeout (pg : handle) (ms : N) : Op unit
| Screenshot (pg : handle) (path : string) : Op unit
| QueryAll (pg : handle) (selector : string) : Op (list handle)
(* ElementHandle *)
| QueryIn (el : handle) (selector : string) : Op (option handle)
| InnerText (el : handle) : Op string
(* the caller's onOtpRequired callback *)
| OnOtpRequired : Op string.

(** [ReadJSON path] resolves to the [cookies] member of the parsed file when
    it is truthy; a file that does not parse rejects.  [Pages] is the
    synchronous [context.pages()]: the source reads it twice in a row with
    no suspension point in between, which is one observation. *)

Inductive Level : Type := info | warn | error | debug.

(** Where a message goes: the logger of the configuration, or [console]. *)
Inductive Sink : Type := CustomLogger | Console.

Inductive Event : Type :=
| EvCall {R : Type} (op : Op R) (res : JsError + R)
| EvLog (sink : Sink) (l : Level) (msg : string).

Definition trace : Type := list Event.

(** The world outside: the answer to an operation, given what has happened
    so far. *)
Definition Env : Type := forall R : Type, trace -> Op R -> JsError + R.

(* ===================================================================== *)
(** * Call trees of a method body *)
(* ===================================================================== *)

(** All loops of the sources are bounded, so the trees are finite.  [Call]
    is an awaited (or synchronous) call that resolves or rejects; [Emit] is
    a logger call, which returns ([console]'s methods do). *)
Inductive IO (X : Type) : Type :=
| Done (x : X)
| Call {R : Type} (op : Op R) (k : JsError + R -> IO X)
| Emit (sink : Sink) (l : Level) (msg : string) (k : IO X).

Arguments Done {X} x.
Arguments Call {X R} op k.
Arguments Emit {X} sink l msg k.

Fixpoint io_bind {X Y : Type} (p : IO X) (f : X -> IO Y) : IO Y :=
  match p with
  | Done x => f x
  | Call op k => Call op (fun res => io_bind (k res) f)
  | Emit sink l msg k => Emit sink l msg (io_bind k f)
  end.

(** Running a tree against an environment: the value and the full trace. *)
Fixpoint run {X : Type} (env : Env) (tr : trace) (p : IO X) : X * trace :=
  match p with
  | Done x => (x, tr)
  | Call op k =>
      let res := env _ tr op in
      run env (tr ++ [EvCall op res]) (k res)
  | Emit sink l msg k => run env (tr ++ [EvLog sink l msg]) k
  end.

(** A method of an object with fields [S]: it receives the fields, performs
    calls, and ends with the (possibly updated) fields and either a thrown
    error or a returned value. *)
Definition M (S A : Type) : Type := S -> IO (S * (JsError + A)).

Definition ret {S A : Type} (a : A) : M S A := fun s => Done (s, inr a).

Definition throw {S A : Type} (e : JsError) : M S A := fun s => Done (s, inl e).

Definition bind {S A B : Type} (m : M S A) (f : A -> M S B) : M S B :=
  fun s => io_bind (m s) (fun sr =>
    match snd sr with
    | inl e => Done (fst sr, inl e)
    | inr a => f a (fst sr)
    end).

(** [try { m } catch (e) { h e }]. *)
Definition try_catch {S A : Type} (m : M S A) (h : JsError -> M S A) : M S A :=
  fun s => io_bind (m s) (fun sr =>
    match snd sr with
    | inl e => h e (fst sr)
    | inr a => Done (fst sr, inr a)
    end).

(** [await op]. *)
Definition await {S R : Type} (op : Op R) : M S R :=
  fun s => Call op (fun res => Done (s, res)).

Definition log {S : Type} (sink : Sink) (l : Level) (msg : string) : M S unit :=
  fun s => Emit sink l msg (Done (s, inr tt)).

Definition get {S : Type} : M S S := fun s => Done (s, inr s).

Definition modify {S : Type} (f : S -> S) : M S unit := fun s => Done (f s, inr tt).

(** A method of a stateless object called from a method of another one. *)
Definition lift {S A : Type} (m : M unit A) : M S A :=
  fun s => io_bind (m tt) (fun sr => Done (s, snd sr)).

Declare Scope js_scope.
Delimit Scope js_scope with js.
Notation "x <- m ;; k" := (bind m (fun x => k))
  (at level 100, m at next level, right associativity) : js_scope.
Notation "m ;; k" := (bind m (fun _ => k))
  (at level 100, right associativity) : js_scope.
Open Scope js_scope.

(* ===================================================================== *)
(** * providers/ChatGPT.ts *)
(* ===================================================================== *)

(** The caller's OTP supplier; what it resolves to is the environment's
    answer to [OnOtpRequired]. *)
Inductive OtpCallback : Type := otpCallback.

Record Credentials : Type := mkCredentials {
  email : option string;
  password : option string;
  method : option string
}.

Module ChatGPTProvider.

Import JsString.

Definition URL : string := "https://chatgpt.com/".

Definition DEFAULT_SELECTORS : gmap string string :=
  list_to_map
    [ ("landing_login_btn", "[data-testid=" +:+ dq +:+ "login-button" +:+ dq +:+ "]");
      ("login_google_btn", "button:has-text(" +:+ dq +:+ "Continue with Google" +:+ dq +:+ ")");
      ("email_input", "#email");
      ("email_continue_btn", "button[type=" +:+ dq +:+ "submit" +:+ dq +:+ "]");
      ("password_input", "input[name=" +:+ dq +:+ "password" +:+ dq +:+ "]");
      ("password_continue_btn", "button[type=" +:+ dq +:+ "submit" +:+ dq +:+ "]");
      ("profile_btn", "[data-testid=" +:+ dq +:+ "accounts-profile-button" +:+ dq +:+ "]");
      ("textarea", "#prompt-textarea");
      ("send_btn", "button[data-testid=" +:+ dq +:+ "send-button" +:+ dq +:+ "]");
      ("stop_btn", "button[data-testid=" +:+ dq +:+ "stop-button" +:+ dq +:+ "]");
      ("assistant_msg", "div[data-message-author-role=" +:+ dq +:+ "assistant" +:+ dq +:+ "]");
      ("upsell_maybe_later", "button:has-text(" +:+ dq +:+ "Maybe later" +:+ dq +:+ ")");
      ("temp_chat_continue", "button:has-text(" +:+ dq +:+ "Continue" +:+ dq +:+ ")");
      ("otp_input", "input[name=" +:+ dq +:+ "code" +:+ dq +:+ "]");
      ("otp_validate", "button[type=" +:+ dq +:+ "submit" +:+ dq +:+ "]") ].

Record t : Type := mk {
  page : handle;
  selectors : gmap string string;
  logger : Sink;
  onOtpRequired : option OtpCallback
}.

(** The constructor: [{ ...DEFAULT_SELECTORS, ...customSelectors }] and
    [logger || console]. *)
Definition new (page : handle) (customSelectors : option (gmap string string))
    (logger : option Sink) (onOtpRequired : option OtpCallback) : t :=
  {| page := page;
     selectors := default ∅ customSelectors ∪ DEFAULT_SELECTORS;
     logger := default Console logger;
     onOtpRequired := onOtpRequired |}.

(** [this.selectors.<key>]. *)
Definition sel (this : t) (key : string) : string :=
  default "" (selectors this !! key).

Definition SEL_PROFILE_BTN (this : t) : string := sel this "profile_btn".

(** Lines 146-160. *)
Definition handleDialogs (this : t) : M unit unit :=
  let pg := page this in
  try_catch
    (v <- await (IsVisible pg (sel this "upsell_maybe_later")) ;;
     if (v : bool) then
       await (Click pg (sel this "upsell_maybe_later")) ;;
       await (WaitForTimeout pg 500%N)
     else ret tt)
    (fun _ => ret tt) ;;
  try_catch
    (v <- await (IsVisible pg ("h2:has-text(" +:+ dq +:+ "Temporary Chat" +:+ dq +:+ ")")) ;;
     if (v : bool) then
       await (Click pg (sel this "temp_chat_continue")) ;;
       await (WaitForTimeout pg 500%N)
     else ret tt)
    (fun _ => ret tt).

(** Lines 75-105: the two credential-entry branches. *)
Definition credentialEntry (this : t) (email password : string)
    (method : option string) : M unit unit :=
  let pg := page this in
  if bool_decide (method = Some "google") then
    log (logger this) info "Logging in via Google..." ;;
    await (WaitForSelector pg (sel this "login_google_btn") None None) ;;
    await (Click pg (sel this "login_google_btn")) ;;
    log (logger this) info "Entering Google email..." ;;
    await (WaitForSelector pg ("input[type=" +:+ dq +:+ "email" +:+ dq +:+ "]") None None) ;;
    await (Fill pg ("input[type=" +:+ dq +:+ "email" +:+ dq +:+ "]") email) ;;
    await (Click pg "#identifierNext >> button") ;;
    log (logger this) info "Entering Google password..." ;;
    await (WaitForSelector pg ("input[type=" +:+ dq +:+ "password" +:+ dq +:+ "]")
             (Some "visible") None) ;;
    await (Fill pg ("input[type=" +:+ dq +:+ "password" +:+ dq +:+ "]") password) ;;
    await (Click pg "#passwordNext >> button")
  else
    log (logger this) info "Entering email..." ;;
    await (WaitForSelector pg (sel this "email_input") None None) ;;
    await (Fill pg (sel this "email_input") email) ;;
    await (Click pg (sel this "email_continue_btn")) ;;
    log (logger this) info "Entering password..." ;;
    await (WaitForSelector pg (sel this "password_input") None None) ;;
    await (Fill pg (sel this "password_input") password) ;;
    await (Click pg (sel this "password_continue_btn")).

(** Lines 116-131: the body of [if (await isVisible(otp_input))]; it always
    leaves the function, by [throw] or by [return true]. *)
Definition otpChallenge (this : t) : M unit bool :=
  let pg := page this in
  log (logger this) warn "OTP verification required." ;;
  match onOtpRequired this with
  | None => throw (Error "OTP required but no onOtpRequired callback provided.")
  | Some _ =>
      otpCode <- await OnOtpRequired ;;
      await (Fill pg (sel this "otp_input") otpCode) ;;
      await (Click pg (sel this "otp_validate")) ;;
      log (logger this) info "OTP submitted. Waiting for authentication..." ;;
      await (WaitForSelector pg (sel this "profile_btn") None (Some 30000%N)) ;;
      log (logger this) info "Login successful." ;;
      ret true
  end.

(** Lines 110-134: [for (let i = 0; i < 30; i++)], by the number of
    iterations left.  [Some b]: the function returned [b] from inside the
    loop; [None]: the loop ran to its end. *)
Fixpoint pollLoop (this : t) (remaining : nat) : M unit (option bool) :=
  match remaining with
  | O => ret None
  | S remaining' =>
      let pg := page this in
      v <- await (IsVisible pg (sel this "profile_btn")) ;;
      if (v : bool) then
        log (logger this) info "Login successful." ;;
        ret (Some true)
      else
        o <- await (IsVisible pg (sel this "otp_input")) ;;
        if (o : bool) then
          b <- otpChallenge this ;;
          ret (Some b)
        else
          await (WaitForTimeout pg 1000%N) ;;
          pollLoop this remaining'
  end.

(** Lines 107-138. *)
Definition awaitResult (this : t) : M unit bool :=
  log (logger this) info "Waiting for authentication or OTP..." ;;
  r <- pollLoop this 30 ;;
  match r with
  | Some b => ret b
  | None =>
      await (WaitForSelector (page this) (sel this "profile_btn") None (Some 30000%N)) ;;
      log (logger this) info "Login successful." ;;
      ret true
  end.

(** Lines 139-143: the [catch] of the credential-entry block. *)
Definition loginFailed (this : t) (e : JsError) : M unit bool :=
  log (logger this) error ("Login failed: " +:+ toString e) ;;
  await (Screenshot (page this) "login_failure_node.png") ;;
  throw e.

(** Lines 48-72: everything before the credential-entry block.  [Some b]:
    the function returned [b] (already logged in); [None]: the landing
    login button was clicked and both credentials are present. *)
Definition reachCredentialEntry (this : t) (credentials : Credentials)
    : M unit (option bool) :=
  let pg := page this in
  log (logger this) info "Starting login process..." ;;
  await (Goto pg URL None) ;;
  handleDialogs this ;;
  already <- try_catch
    (await (WaitForSelector pg (sel this "profile_btn") None (Some 3000%N)) ;;
     log (logger this) info "Already logged in." ;;
     ret (Some true))
    (fun _ => ret None) ;;
  match already with
  | Some b => ret (Some b)
  | None =>
      try_catch
        (log (logger this) info "Clicking 'Log in' from landing page..." ;;
         await (Click pg (sel this "landing_login_btn")))
        (fun e => throw (Error ("Could not find Login button on landing page: "
                                +:+ toString e))) ;;
      if negb (truthy (email credentials)) || negb (truthy (password credentials)) then
        throw (Error "Email and password required")
      else ret None
  end.

(** Lines 47-144. *)
Definition login (this : t) (credentials : Credentials) : M unit bool :=
  entry <- reachCredentialEntry this credentials ;;
  match entry with
  | Some b => ret b
  | None =>
      try_catch
        (credentialEntry this (default "" (email credentials))
           (default "" (password credentials)) (method credentials) ;;
         awaitResult this)
        (loginFailed this)
  end.

(** Lines 165-176: fill the input and click send. *)
Definition submitPrompt (this : t) (prompt : string) : M unit unit :=
  let pg := page this in
  try_catch
    (await (WaitForSelector pg (sel this "textarea") None None) ;;
     await (Fill pg (sel this "textarea") prompt) ;;
     await (WaitForSelector pg (sel this "send_btn") None None) ;;
     d <- await (IsDisabled pg (sel this "send_btn")) ;;
     (if (d : bool) then await (WaitForTimeout pg 500%N) else ret tt) ;;
     await (Click pg (sel this "send_btn")))
    (fun e => throw (Error ("Failed to send prompt: " +:+ toString e))).

(** Lines 178-188: completion detection. *)
Definition awaitCompletion (this : t) : M unit unit :=
  let pg := page this in
  log (logger this) info "Waiting for response..." ;;
  try_catch
    (await (WaitForSelector pg (sel this "stop_btn") None (Some 5000%N)) ;;
     await (WaitForSelector pg (sel this "stop_btn") (Some "hidden") (Some 120000%N)))
    (fun _ =>
       v <- await (IsVisible pg (sel this "send_btn")) ;;
       if (v : bool) then ret tt
       else throw (Error "Timeout waiting for response generation.")).

(** Lines 190-211: extraction of the last assistant message. *)
Definition extractResponse (this : t) : M unit string :=
  let pg := page this in
  try_catch
    (await (WaitForSelector pg (sel this "assistant_msg") None (Some 5000%N)) ;;
     assistantMsgs <- await (QueryAll pg (sel this "assistant_msg")) ;;
     match last assistantMsgs with
     | None => throw (Error "No assistant messages found.")
     | Some lastMsg =>
         markdownDiv <- await (QueryIn lastMsg ".markdown") ;;
         match markdownDiv with
         | Some md => await (InnerText md)
         | None => await (InnerText lastMsg)
         end
     end)
    (fun e =>
       log (logger this) error ("Failed to extract response: " +:+ toString e) ;;
       throw e).

(** Lines 162-212. *)
Definition sendPrompt (this : t) (prompt : string) : M unit string :=
  handleDialogs this ;;
  submitPrompt this prompt ;;
  awaitCompletion this ;;
  extractResponse this.

End ChatGPTProvider.

(* ===================================================================== *)
(** * The Node.js process *)
(* ===================================================================== *)

(** What the sources read from the runtime: [process.platform],
    [os.homedir()], [process.env] and [path.join]. *)
Record NodeProcess : Type := mkNodeProcess {
  platform : string;
  homedir : string;
  env_vars : gmap string string;
  path_join : list string -> string
}.

(* ===================================================================== *)
(** * BrowserManager.ts *)
(* ===================================================================== *)

Module BrowserManager.

Record t : Type := mk {
  userDataDir : string;
  context : option handle;
  page : option handle;
  browser : option handle
}.

Definition set_context (c : option handle) (this : t) : t :=
  mk (userDataDir this) c (page this) (browser this).

Definition set_page (p : option handle) (this : t) : t :=
  mk (userDataDir this) (context this) p (browser this).

(** The constructor: the per-platform data directory; no driver object is
    held yet. *)
Definition new (proc : NodeProcess) : t :=
  let appName := "LLMSession" in
  let home := homedir proc in
  let dir :=
    if String.eqb (platform proc) "win32" then
      path_join proc
        [default (path_join proc [home; "AppData"; "Local"])
           (or_else (env_vars proc !! "LOCALAPPDATA") None)
         ; appName]
    else if String.eqb (platform proc) "darwin" then
      path_join proc [home; "Library"; "Application Support"; appName]
    else
      path_join proc
        [default (path_join proc [home; ".local"; "share"])
           (or_else (env_vars proc !! "XDG_DATA_HOME") None)
         ; appName] in
  mk dir None None None.

Definition userAgent : string :=
  "Mozilla/5.0 (Windows NT 10.0; Win64; x64) AppleWebKit/537.36 (KHTML, like Gecko) Chrome/123.0.0.0 Safari/537.36".

Definition launchArgs : list string :=
  [ "--disable-blink-features=AutomationControlled";
    "--no-sandbox";
    "--disable-infobars";
    "--exclude-switches=enable-automation";
    "--disable-background-timer-throttling";
    "--disable-backgrounding-occluded-windows";
    "--disable-renderer-backgrounding" ].

(** Lines 185-196: the optional, best-effort cookie import. *)
Definition importSession (ctx : handle) (sessionPath : option string) : M t unit :=
  if truthy sessionPath then
    let path := default "" sessionPath in
    present <- await (ExistsSync path) ;;
    if (present : bool) then
      try_catch
        (cookies <- await (ReadJSON path) ;;
         match cookies with
         | Some c => await (AddCookies ctx c)
         | None => ret tt
         end)
        (fun e =>
           log Console error
             ("Failed to load session from " +:+ path +:+ ": " +:+ toString e))
    else ret tt
  else ret tt.

(** Lines 156-205. *)
Definition start (headless : bool) (sessionPath : option string) : M t handle :=
  this <- get ;;
  await (EnsureDirSync (userDataDir this)) ;;
  ctx <- try_catch
    (await (LaunchPersistentContext (userDataDir this)
              (mkLaunchOptions headless userAgent (1280, 720) launchArgs)))
    (fun e =>
       log Console error ("Failed to launch browser: " +:+ toString e) ;;
       throw (Error "Failed to launch browser. Please ensure Playwright is installed via 'npx playwright install'.")) ;;
  modify (set_context (Some ctx)) ;;
  importSession ctx sessionPath ;;
  pages <- await (Pages ctx) ;;
  pg <- match pages with
        | first :: _ => ret first
        | [] => await (NewPage ctx)
        end ;;
  modify (set_page (Some pg)) ;;
  ret pg.

(** Lines 207-211. *)
Definition saveSession (path : string) : M t unit :=
  this <- get ;;
  match context this with
  | Some ctx => await (StorageState ctx path)
  | None => ret tt
  end.

(** Lines 213-220. *)
Definition stop : M t unit :=
  this <- get ;;
  match context this with
  | Some ctx => await (ContextClose ctx)
  | None => ret tt
  end ;;
  match browser this with
  | Some b => await (BrowserClose b)
  | None => ret tt
  end.

(** Lines 222-237. *)
Definition isAuthenticated (url selector : string) : M t bool :=
  this <- get ;;
  match page this with
  | None => throw (Error "Browser not started")
  | Some pg =>
      try_catch
        (await (Goto pg url (Some "domcontentloaded")) ;;
         try_catch
           (await (WaitForSelector pg selector None (Some 5000%N)) ;;
            ret true)
           (fun _ => ret false))
        (fun _ => ret false)
  end.

End BrowserManager.

(* ===================================================================== *)
(** * Automator.ts *)
(* ===================================================================== *)

Record AutomatorConfig : Type := mkAutomatorConfig {
  cfg_selectors : option (gmap string string);
  cfg_logger : option Sink;
  cfg_onOtpRequired : option OtpCallback
}.

Module Automator.

Record t : Type := mk {
  browserManager : option BrowserManager.t;
  provider : option ChatGPTProvider.t;
  providerName : string;
  headless : bool;
  credentials : option Credentials;
  sessionPath : option string;
  config : AutomatorConfig;
  logger : Sink
}.

Definition set_browserManager (bm : option BrowserManager.t) (this : t) : t :=
  mk bm (provider this) (providerName this) (headless this) (credentials this)
     (sessionPath this) (config this) (logger this).

Definition set_provider (p : option ChatGPTProvider.t) (this : t) : t :=
  mk (browserManager this) p (providerName this) (headless this) (credentials this)
     (sessionPath this) (config this) (logger this).

(** The constructor, with its default arguments. *)
Definition new (provider : option string) (headless : option bool)
    (credentials : option Credentials) (sessionPath : option string)
    (config : option AutomatorConfig) : t :=
  let cfg := default (mkAutomatorConfig None None None) config in
  mk None None (default "chatgpt" provider) (default true headless)
     credentials sessionPath cfg (default Console (cfg_logger cfg)).

(** [this.browserManager.<method>(...)]: the method runs on the manager's
    fields and its assignments are kept, also when it throws. *)
Definition onBrowserManager {A : Type} (m : M BrowserManager.t A) : M t A :=
  fun this =>
    match browserManager this with
    | None =>
        Done (this, inl (TypeError "Cannot read properties of undefined"))
    | Some bm =>
        io_bind (m bm) (fun sr =>
          Done (set_browserManager (Some (fst sr)) this, snd sr))
    end.

(** Lines 64-67: constructor arguments first, environment variables
    second; the method defaults to "email". *)
Definition resolveCredentials (proc : NodeProcess) (this : t) : Credentials :=
  mkCredentials
    (or_else (c ← credentials this; email c) (env_vars proc !! "CHATGPT_EMAIL"))
    (or_else (c ← credentials this; password c)
       (env_vars proc !! "CHATGPT_PASSWORD"))
    (or_else (c ← credentials this; method c) (Some "email")).

(** Lines 44-82. *)
Definition init (proc : NodeProcess) : M t unit :=
  modify (set_browserManager (Some (BrowserManager.new proc))) ;;
  this <- get ;;
  page <- onBrowserManager
            (BrowserManager.start (headless this) (sessionPath this)) ;;
  bm <- onBrowserManager get ;;
  match BrowserManager.context bm with
  | Some ctx => await (GrantPermissions ctx ["clipboard-read"; "clipboard-write"])
  | None => ret tt
  end ;;
  (if String.eqb (providerName this) "chatgpt" then
     modify (set_provider
               (Some (ChatGPTProvider.new page (cfg_selectors (config this))
                        (Some (logger this)) (cfg_onOtpRequired (config this)))))
   else throw (Error ("Unknown provider: " +:+ providerName this))) ;;
  this <- get ;;
  match provider this with
  | None => throw (TypeError "Cannot read properties of null")
  | Some prov =>
      authenticated <- onBrowserManager
        (BrowserManager.isAuthenticated ChatGPTProvider.URL
           (ChatGPTProvider.SEL_PROFILE_BTN prov)) ;;
      if negb authenticated then
        log (logger this) info "Not authenticated. Initiating login..." ;;
        let resolved := resolveCredentials proc this in
        if negb (truthy (email resolved)) || negb (truthy (password resolved)) then
          throw (Error "Credentials not provided. Set CHATGPT_EMAIL and CHATGPT_PASSWORD env vars or pass them to constructor.")
        else
          lift (ChatGPTProvider.login prov resolved) ;;
          if truthy (sessionPath this) then
            onBrowserManager
              (BrowserManager.saveSession (default "" (sessionPath this))) ;;
            log (logger this) info
              ("Session saved to " +:+ default "" (sessionPath this))
          else ret tt
      else log (logger this) info "Session authenticated."
  end.

(** Lines 84-87. *)
Definition processPrompt (prompt : string) : M t string :=
  this <- get ;;
  match provider this with
  | None => throw (Error "Provider not initialized. Call init() first.")
  | Some prov => lift (ChatGPTProvider.sendPrompt prov prompt)
  end.

(** Lines 93-112: the loop, by the items still to process, with the loop
    variables [i], [responses] and [lastResponse]. *)
Fixpoint processChain_loop (total i : nat) (rest : list PromptItem)
    (responses : list string) (lastResponse : string) : M t (list string) :=
  match rest with
  | [] => ret responses
  | promptItem :: rest' =>
      let currentPrompt := resolvePrompt promptItem lastResponse in
      this <- get ;;
      log (logger this) info
        ("Processing prompt " +:+ JsString.of_nat (i + 1) +:+ "/"
         +:+ JsString.of_nat total +:+ "...") ;;
      response <- processPrompt currentPrompt ;;
      processChain_loop total (i + 1) rest' (responses ++ [response]) response
  end.

(** Lines 89-115. *)
Definition processChain (prompts : list PromptItem) : M t (list string) :=
  processChain_loop (length prompts) 0 prompts [] "".

(** Lines 117-121. *)
Definition close : M t unit :=
  this <- get ;;
  match browserManager this with
  | Some _ => onBrowserManager BrowserManager.stop
  | None => ret tt
  end.

End Automator.

(* ===================================================================== *)
(** * Observations on a trace *)
(* ===================================================================== *)

Definition count (f : Event -> bool) (tr : trace) : nat :=
  length (List.filter f tr).

(** [page.goto]. *)
Definition is_goto (e : Event) : bool :=
  match e with
  | EvCall op _ => match op with Goto _ _ _ => true | _ => false end
  | EvLog _ _ _ => false
  end.

(** Any call on a page or on one of its elements. *)
Definition is_page_call (e : Event) : bool :=
  match e with
  | EvCall op _ =>
      match op with
      | Goto _ _ _ | WaitForSelector _ _ _ _ | Click _ _ | Fill _ _ _
      | IsVisible _ _ | IsDisabled _ _ | WaitForTimeout _ _ | Screenshot _ _
      | QueryAll _ _ | QueryIn _ _ | InnerText _ => true
      | _ => false
      end
  | EvLog _ _ _ => false
  end.

(** [page.click] and [page.fill]. *)
Definition is_input (e : Event) : bool :=
  match e with
  | EvCall op _ => match op with Click _ _ | Fill _ _ _ => true | _ => false end
  | EvLog _ _ _ => false
  end.

Definition is_screenshot (e : Event) : bool :=
  match e with
  | EvCall op _ => match op with Screenshot _ _ => true | _ => false end
  | EvLog _ _ _ => false
  end.

(** The one-second wait of the polling loop. *)
Definition is_poll_wait (e : Event) : bool :=
  match e with
  | EvCall op _ => match op with WaitForTimeout _ ms => N.eqb ms 1000 | _ => false end
  | EvLog _ _ _ => false
  end.

(** A [waitForSelector] with the 30-second bound. *)
Definition is_long_wait (e : Event) : bool :=
  match e with
  | EvCall op _ =>
      match op with
      | WaitForSelector _ _ _ (Some ms) => N.eqb ms 30000
      | _ => false
      end
  | EvLog _ _ _ => false
  end.

Definition is_context_close (e : Event) : bool :=
  match e with
  | EvCall op _ => match op with ContextClose _ => true | _ => false end
  | EvLog _ _ _ => false
  end.

(** A successful [launchPersistentContext]. *)
Definition is_launched (e : Event) : bool :=
  match e with
  | EvCall op (inr _) =>
      match op with LaunchPersistentContext _ _ => true | _ => false end
  | _ => false
  end.

(** A successful [grantPermissions]. *)
Definition is_granted (e : Event) : bool :=
  match e with
  | EvCall op (inr _) =>
      match op with GrantPermissions _ _ => true | _ => false end
  | _ => false
  end.

(** A logger message with exactly this text. *)
Definition is_log (text : string) (e : Event) : bool :=
  match e with
  | EvLog _ _ msg => String.eqb msg text
  | EvCall _ _ => false
  end.

(** The texts typed with [page.fill], in order. *)
Definition fills (tr : trace) : list string :=
  flat_map (fun e =>
    match e with
    | EvCall op _ => match op with Fill _ _ value => [value] | _ => [] end
    | EvLog _ _ _ => []
    end) tr.

(* ===================================================================== *)
(** * The error taxonomy of the specification *)
(* ===================================================================== *)

(** The sources throw plain [Error]s; the specification's error kinds are
    told apart by their messages. *)
Definition ConfigurationError_credentials : JsError :=
  Error "Credentials not provided. Set CHATGPT_EMAIL and CHATGPT_PASSWORD env vars or pass them to constructor.".

Definition UnknownProviderError (providerName : string) : JsError :=
  Error ("Unknown provider: " +:+ providerName).

Definition NotInitializedError : JsError :=
  Error "Provider not initialized. Call init() first.".


Definition OtpUnavailableError : JsError :=
  Error "OTP required but no onOtpRequired callback provided.".

Definition ResponseTimeoutError : JsError :=
  Error "Timeout waiting for response generation.".

Definition BrowserNotStartedError : JsError := Error "Browser not started".

(* ===================================================================== *)
(** * Postconditions and the vocabulary of the statements *)
(* ===================================================================== *)

(** [wp p tr Q]: whatever the environment answers, running [p] after the
    history [tr] ends with a trace and a value that satisfy [Q]. *)
Fixpoint wp {X : Type} (p : IO X) (tr : trace) (Q : trace -> X -> Prop) : Prop :=
  match p with
  | Done x => Q tr x
  | Call op k => forall res, wp (k res) (tr ++ [EvCall op res]) Q
  | Emit sink l msg k => wp k (tr ++ [EvLog sink l msg]) Q
  end.

(** The same for methods: the postcondition sees the trace, the fields and
    the outcome. *)
Definition mwp {S A : Type} (m : M S A) (s : S) (tr : trace)
    (Q : trace -> S -> JsError + A -> Prop) : Prop :=
  wp (m s) tr (fun tr' sr => Q tr' (fst sr) (snd sr)).

(** [returns_only P m]: every value [m] returns satisfies [P]; nothing is
    said about what it throws. *)
Definition returns_only {S A : Type} (P : A -> Prop) (m : M S A) : Prop :=
  forall s tr, mwp m s tr (fun _ _ r =>
    match r with inr a => P a | inl _ => True end).

(** [n] calls in sequence: [await m(); await m(); ...]. *)
Fixpoint times {S : Type} (n : nat) (m : M S unit) : M S unit :=
  match n with
  | O => ret tt
  | S n' => m ;; times n' m
  end.

(** The driver's [close()] calls resolve. *)
Definition driver_close_resolves (env : Env) : Prop :=
  (forall tr ctx, env _ tr (ContextClose ctx) = inr tt)
  /\ (forall tr b, env _ tr (BrowserClose b) = inr tt).

(** The driver calls one [close()] makes: one per driver object held. *)
Definition close_calls (this : Automator.t) : trace :=
  match Automator.browserManager this with
  | None => []
  | Some bm =>
      match BrowserManager.context bm with
      | Some ctx => [EvCall (ContextClose ctx) (inr tt)]
      | None => []
      end ++
      match BrowserManager.browser bm with
      | Some b => [EvCall (BrowserClose b) (inr tt)]
      | None => []
      end
  end.

(** [processChain] in the words of its specification: the items in order,
    each resolved against the immediately preceding response (the empty
    string for the first item) and sent with [processPrompt]; the responses
    are returned in the same order, and the first failure ends the chain.
    [i] counts the items already processed, [total] is the length of the
    whole chain (both only appear in the progress message). *)
Fixpoint chain_in_order (env : Env) (this : Automator.t) (total i : nat)
    (previous : string) (items : list PromptItem) (tr : trace)
    : (JsError + list string) * trace :=
  match items with
  | [] => (inr [], tr)
  | item :: rest =>
      let sent :=
        run env
          (tr ++ [EvLog (Automator.logger this) info
                    ("Processing prompt " +:+ JsString.of_nat (i + 1) +:+ "/"
                     +:+ JsString.of_nat total +:+ "...")])
          (Automator.processPrompt (resolvePrompt item previous) this) in
      match snd (fst sent) with
      | inl e => (inl e, snd sent)
      | inr response =>
          let later :=
            chain_in_order env this total (i + 1) response rest (snd sent) in
          (match fst later with
           | inl e => inl e
           | inr responses => inr (response :: responses)
           end, snd later)
      end
  end.

(** Neither the constructor arguments nor the environment variables supply
    both an email and a password. *)
Definition credentials_missing (proc : NodeProcess) (this : Automator.t) : bool :=
  negb (truthy (email (Automator.resolveCredentials proc this)))
  || negb (truthy (password (Automator.resolveCredentials proc this))).

(** The events of one polling iteration in which neither the profile marker
    nor the OTP input is visible. *)
Definition quiet_poll (this : ChatGPTProvider.t) (tr : trace) : trace :=
  ((tr ++ [EvCall (IsVisible (ChatGPTProvider.page this)
                     (ChatGPTProvider.sel this "profile_btn")) (inr false)])
      ++ [EvCall (IsVisible (ChatGPTProvider.page this)
                    (ChatGPTProvider.sel this "otp_input")) (inr false)])
     ++ [EvCall (WaitForTimeout (ChatGPTProvider.page this) 1000%N) (inr tt)].

Fixpoint polls (this : ChatGPTProvider.t) (k : nat) (tr : trace) : trace :=
  match k with
  | O => tr
  | S k' => polls this k' (quiet_poll this tr)
  end.

(** The events of the iteration that finds the OTP input. *)
Definition otp_detected (this : ChatGPTProvider.t) (tr : trace) : trace :=
  ((tr ++ [EvCall (IsVisible (ChatGPTProvider.page this)
                     (ChatGPTProvider.sel this "profile_btn")) (inr false)])
      ++ [EvCall (IsVisible (ChatGPTProvider.page this)
                    (ChatGPTProvider.sel this "otp_input")) (inr true)])
     ++ [EvLog (ChatGPTProvider.logger this) warn "OTP verification required."].

(** From the history [tr] on, the OTP input becomes visible in iteration [k]
    (counted from 0) of the polling loop: in the [k] iterations before,
    neither it nor the profile marker is visible and the one-second wait
    resolves. *)
Fixpoint otp_shown_at (env : Env) (this : ChatGPTProvider.t) (k : nat)
    (tr : trace) : Prop :=
  let pg := ChatGPTProvider.page this in
  let profile := IsVisible pg (ChatGPTProvider.sel this "profile_btn") in
  let otp := IsVisible pg (ChatGPTProvider.sel this "otp_input") in
  env _ tr profile = inr false /\
  match k with
  | O => env _ (tr ++ [EvCall profile (inr false)]) otp = inr true
  | S k' =>
      env _ (tr ++ [EvCall profile (inr false)]) otp = inr false
      /\ env _ ((tr ++ [EvCall profile (inr false)]) ++ [EvCall otp (inr false)])
           (WaitForTimeout pg 1000%N) = inr tt
      /\ otp_shown_at env this k' (quiet_poll this tr)
  end.

(** Observations that see none of the calls [login] makes before the
    polling loop. *)
Record unobserved_before_polling (f : Event -> bool) : Prop := {
  unobs_log : forall sink l msg, f (EvLog sink l msg) = false;
  unobs_goto : forall pg url w res, f (@EvCall unit (Goto pg url w) res) = false;
  unobs_visible : forall pg s res, f (@EvCall bool (IsVisible pg s) res) = false;
  unobs_click : forall pg s res, f (@EvCall unit (Click pg s) res) = false;
  unobs_fill : forall pg s v res, f (@EvCall unit (Fill pg s v) res) = false;
  unobs_pause : forall pg res, f (@EvCall unit (WaitForTimeout pg 500%N) res) = false;
  unobs_wait : forall pg s st res,
    f (@EvCall unit (WaitForSelector pg s st None) res) = false;
  unobs_short_wait : forall pg s st res,
    f (@EvCall unit (WaitForSelector pg s st (Some 3000%N)) res) = false
}.

(* ===================================================================== *)
(** * Concrete worlds *)
(* ===================================================================== *)

(** Scripted environments, to run the methods on. *)
Module World.

Definition TimeoutError : JsError := mkJsError "TimeoutError" "Timeout exceeded.".

(** A script says which calls reject, which selectors [isVisible] reports
    visible, and what [innerText] reads; every other call resolves to a
    fixed value: context 1, no open page, new page 2, one assistant
    message 3 and its markdown body 4. *)
Record script : Type := mkScript {
  rejects : forall R : Type, trace -> Op R -> bool;
  shows : trace -> string -> bool;
  text : trace -> string
}.

Definition answer (w : script) (tr : trace) {R : Type} (op : Op R) : R :=
  match op in Op R return R with
  | EnsureDirSync _ => tt
  | ExistsSync _ => false
  | ReadJSON _ => None
  | LaunchPersistentContext _ _ => 1
  | AddCookies _ _ => tt
  | Pages _ => []
  | NewPage _ => 2
  | GrantPermissions _ _ => tt
  | StorageState _ _ => tt
  | ContextClose _ => tt
  | BrowserClose _ => tt
  | Goto _ _ _ => tt
  | WaitForSelector _ _ _ _ => tt
  | Click _ _ => tt
  | Fill _ _ _ => tt
  | IsVisible _ selector => shows w tr selector
  | IsDisabled _ _ => false
  | WaitForTimeout _ _ => tt
  | Screenshot _ _ => tt
  | QueryAll _ _ => [3]
  | QueryIn _ _ => Some 4
  | InnerText _ => text w tr
  | OnOtpRequired => "123456"
  end.

Definition play (w : script) : Env :=
  fun R tr op => if rejects w R tr op then inl TimeoutError else inr (answer w tr op).

Definition profile_btn : string :=
  ChatGPTProvider.sel (ChatGPTProvider.new 2 None None None) "profile_btn".
Definition otp_input : string :=
  ChatGPTProvider.sel (ChatGPTProvider.new 2 None None None) "otp_input".
Definition send_btn : string :=
  ChatGPTProvider.sel (ChatGPTProvider.new 2 None None None) "send_btn".
Definition stop_btn : string :=
  ChatGPTProvider.sel (ChatGPTProvider.new 2 None None None) "stop_btn".

(** Does the call wait for this selector? *)
Definition waits_for (selector : string) {R : Type} (op : Op R) : bool :=
  match op with
  | WaitForSelector _ s _ _ => String.eqb s selector
  | _ => false
  end.

(** A session that is already signed in: nothing rejects, the assistant
    answers "mango". *)
Definition signed_in : script :=
  mkScript (fun _ _ _ => false) (fun _ _ => false) (fun _ => "mango").

(** A signed-out session: the profile marker never appears. *)
Definition signed_out : script :=
  mkScript (fun R _ op => waits_for profile_btn op) (fun _ _ => false) (fun _ => "").


(** A signed-out session that asks for a one-time passcode once two polls
    have gone by. *)
Definition otp_after_two_polls : script :=
  mkScript (fun R _ op => waits_for profile_btn op)
    (fun tr selector =>
       String.eqb selector otp_input && Nat.leb 2 (count is_poll_wait tr))
    (fun _ => "").

(** A chat whose generating indicator never shows; the send control is
    visible again ([ready]) or not. *)
Definition no_indicator (ready : bool) : script :=
  mkScript (fun R _ op => waits_for stop_btn op)
    (fun _ selector => String.eqb selector send_btn && ready)
    (fun _ => "mango").

Definition linux : NodeProcess :=
  mkNodeProcess "linux" "/home/user" ∅ (String.concat "/").

(** [new Automator()] and [new Automator("gemini")]. *)
Definition bot : Automator.t := Automator.new None None None None None.
Definition gemini_bot : Automator.t :=
  Automator.new (Some "gemini") None None None None.

Definition chatgpt : ChatGPTProvider.t := ChatGPTProvider.new 2 None None None.

(** A signed-in chat that answers the n-th prompt with "reply n". *)
Definition numbered_replies : script :=
  mkScript (fun _ _ _ => false) (fun _ _ => false)
    (fun tr => "reply " +:+ JsString.of_nat (length (fills tr))).

(** A signed-in session on a driver that rejects [close()] on a context
    that has been closed before. *)
Definition closes_once : Env :=
  fun R tr op =>
    match op in Op R return JsError + R with
    | ContextClose _ =>
        if Nat.leb 1 (count is_context_close tr)
        then inl (Error "Target page, context or browser has been closed")
        else inr tt
    | op' => play signed_in _ tr op'
    end.

End World.

(* ===================================================================== *)
(** * Further observations and scenarios *)
(* ===================================================================== *)

(** Does the text contain a dollar sign? *)
Fixpoint has_dollar (s : string) : bool :=
  match s with
  | EmptyString => false
  | String c s' => Ascii.eqb c "$"%char || has_dollar s'
  end.

(** A call of the caller's OTP supplier. *)
Definition is_otp_call (e : Event) : bool :=
  match e with
  | EvCall op _ => match op with OnOtpRequired => true | _ => false end
  | EvLog _ _ _ => false
  end.

(** [context.storageState]. *)
Definition is_storage_state (e : Event) : bool :=
  match e with
  | EvCall op _ => match op with StorageState _ _ => true | _ => false end
  | EvLog _ _ _ => false
  end.

(** [context.addCookies]. *)
Definition is_add_cookies (e : Event) : bool :=
  match e with
  | EvCall op _ => match op with AddCookies _ _ => true | _ => false end
  | EvLog _ _ _ => false
  end.

(** Any call on the file system, the launcher or the browser context. *)
Definition is_session_call (e : Event) : bool :=
  match e with
  | EvCall op _ =>
      match op with
      | EnsureDirSync _ | ExistsSync _ | ReadJSON _ | LaunchPersistentContext _ _
      | AddCookies _ _ | Pages _ | NewPage _ | GrantPermissions _ _
      | StorageState _ _ | ContextClose _ | BrowserClose _ => true
      | _ => false
      end
  | EvLog _ _ _ => false
  end.

(** Observations that see no call on a page, on an element or of the OTP
    supplier, and no log message. *)
Record unobserved_by_provider (f : Event -> bool) : Prop := {
  up_log : forall sink l msg, f (EvLog sink l msg) = false;
  up_goto : forall pg url w res, f (@EvCall unit (Goto pg url w) res) = false;
  up_wait : forall pg s st t res,
    f (@EvCall unit (WaitForSelector pg s st t) res) = false;
  up_click : forall pg s res, f (@EvCall unit (Click pg s) res) = false;
  up_fill : forall pg s v res, f (@EvCall unit (Fill pg s v) res) = false;
  up_visible : forall pg s res, f (@EvCall bool (IsVisible pg s) res) = false;
  up_disabled : forall pg s res, f (@EvCall bool (IsDisabled pg s) res) = false;
  up_pause : forall pg ms res, f (@EvCall unit (WaitForTimeout pg ms) res) = false;
  up_shot : forall pg path res, f (@EvCall unit (Screenshot pg path) res) = false;
  up_query_all : forall pg s res,
    f (@EvCall (list handle) (QueryAll pg s) res) = false;
  up_query_in : forall el s res,
    f (@EvCall (option handle) (QueryIn el s) res) = false;
  up_text : forall el res, f (@EvCall string (InnerText el) res) = false;
  up_otp : forall res, f (@EvCall string OnOtpRequired res) = false
}.

(** Observations that see none of the calls of [BrowserManager.start]. *)
Record unobserved_by_start (f : Event -> bool) : Prop := {
  us_log : forall sink l msg, f (EvLog sink l msg) = false;
  us_dir : forall d res, f (@EvCall unit (EnsureDirSync d) res) = false;
  us_launch : forall d o res,
    f (@EvCall handle (LaunchPersistentContext d o) res) = false;
  us_exists : forall p res, f (@EvCall bool (ExistsSync p) res) = false;
  us_read : forall p res, f (@EvCall (option string) (ReadJSON p) res) = false;
  us_cookies : forall c k res, f (@EvCall unit (AddCookies c k) res) = false;
  us_pages : forall c res, f (@EvCall (list handle) (Pages c) res) = false;
  us_new_page : forall c res, f (@EvCall handle (NewPage c) res) = false
}.

(** From the history [tr] on, [n] iterations of the polling loop go by with
    neither the profile marker nor the OTP input visible. *)
Fixpoint all_quiet (env : Env) (this : ChatGPTProvider.t) (n : nat)
    (tr : trace) : Prop :=
  let pg := ChatGPTProvider.page this in
  let profile := IsVisible pg (ChatGPTProvider.sel this "profile_btn") in
  let otp := IsVisible pg (ChatGPTProvider.sel this "otp_input") in
  match n with
  | O => True
  | S n' =>
      env _ tr profile = inr false
      /\ env _ (tr ++ [EvCall profile (inr false)]) otp = inr false
      /\ env _ ((tr ++ [EvCall profile (inr false)]) ++ [EvCall otp (inr false)])
           (WaitForTimeout pg 1000%N) = inr tt
      /\ all_quiet env this n' (quiet_poll this tr)
  end.

(** From the history [tr] on, the profile marker becomes visible in
    iteration [k] of the polling loop, after [k] quiet iterations. *)
Fixpoint signed_in_at (env : Env) (this : ChatGPTProvider.t) (k : nat)
    (tr : trace) : Prop :=
  let pg := ChatGPTProvider.page this in
  let profile := IsVisible pg (ChatGPTProvider.sel this "profile_btn") in
  let otp := IsVisible pg (ChatGPTProvider.sel this "otp_input") in
  match k with
  | O => env _ tr profile = inr true
  | S k' =>
      env _ tr profile = inr false
      /\ env _ (tr ++ [EvCall profile (inr false)]) otp = inr false
      /\ env _ ((tr ++ [EvCall profile (inr false)]) ++ [EvCall otp (inr false)])
           (WaitForTimeout pg 1000%N) = inr tt
      /\ signed_in_at env this k' (quiet_poll this tr)
  end.

(** The passcodes the OTP supplier has handed over, in order. *)
Definition otp_codes (tr : trace) : list string :=
  flat_map (fun e =>
    match e with
    | EvCall op res =>
        match op in Op R return JsError + R -> list string with
        | OnOtpRequired => fun res =>
            match res with inr code => [code] | inl _ => [] end
        | _ => fun _ => []
        end res
    | EvLog _ _ _ => []
    end) tr.

(** The e-mail address and the password [login] works with. *)
Definition login_email (c : Credentials) : string := default "" (email c).
Definition login_password (c : Credentials) : string := default "" (password c).

(** What [login] may have typed, and been handed by the OTP supplier,
    between the histories [tr] and [tr']: nothing yet, the e-mail address,
    then the password -- with no passcode obtained -- or all three texts,
    the third being the one passcode the supplier returned. *)
Definition login_typed (c : Credentials) (tr tr' : trace) : Prop :=
  exists typed codes,
    fills tr' = fills tr ++ typed
    /\ otp_codes tr' = otp_codes tr ++ codes
    /\ ((codes = []
         /\ (typed = []
             \/ typed = [login_email c]
             \/ typed = [login_email c; login_password c]))
        \/ exists code,
             codes = [code]
             /\ typed = [login_email c; login_password c; code]).

(** More scripted environments. *)
Module Scenario.

(** A sign-in that completes while the loop polls: the profile marker is
    visible once two polls have gone by. *)
Definition signs_in_after_two_polls : World.script :=
  World.mkScript (fun R _ op => World.waits_for World.profile_btn op)
    (fun tr selector =>
       String.eqb selector World.profile_btn && Nat.leb 2 (count is_poll_wait tr))
    (fun _ => "").

(** A sign-in with a one-time passcode: the OTP input is visible once two
    polls have gone by, and the profile marker appears within the 30-second
    wait (but not within the shorter ones). *)
Definition otp_then_signed_in : World.script :=
  World.mkScript
    (fun R _ op =>
       match op with
       | WaitForSelector _ s _ t =>
           String.eqb s World.profile_btn && negb (bool_decide (t = Some 30000%N))
       | _ => false
       end)
    (fun tr selector =>
       String.eqb selector World.otp_input && Nat.leb 2 (count is_poll_wait tr))
    (fun _ => "").

(** A machine without the browser binaries. *)
Definition no_browser : World.script :=
  World.mkScript
    (fun R _ op => match op with LaunchPersistentContext _ _ => true | _ => false end)
    (fun _ _ => false) (fun _ => "").

(** A world with a session file that does not parse. *)
Definition broken_session_file : Env :=
  fun R tr op =>
    match op in Op R return JsError + R with
    | ExistsSync _ => inr true
    | ReadJSON _ => inl (mkJsError "SyntaxError" "Unexpected end of JSON input")
    | op' => World.play World.signed_in _ tr op'
    end.

(** A world with a session file that holds cookies, and a browser that
    already has a page (5) open. *)
Definition saved_session : Env :=
  fun R tr op =>
    match op in Op R return JsError + R with
    | ExistsSync _ => inr true
    | ReadJSON _ => inr (Some "cookies")
    | Pages _ => inr [5; 6]
    | op' => World.play World.signed_in _ tr op'
    end.

(** A chat whose last assistant message has no markdown body. *)
Definition plain_messages : Env :=
  fun R tr op =>
    match op in Op R return JsError + R with
    | QueryAll _ _ => inr [7; 8; 9]
    | QueryIn _ _ => inr None
    | InnerText el => inr ("message " +:+ JsString.of_nat el)
    | op' => World.play World.signed_in _ tr op'
    end.

(** A chat that is still generating after 120 seconds. *)
Definition slow_generation (ready : bool) : World.script :=
  World.mkScript
    (fun R _ op =>
       match op with
       | WaitForSelector _ s st _ =>
           String.eqb s World.stop_btn && bool_decide (st = Some "hidden")
       | _ => false
       end)
    (fun _ selector => String.eqb selector World.send_btn && ready)
    (fun _ => "mango").

Definition chatgpt_with_otp : ChatGPTProvider.t :=
  ChatGPTProvider.new 2 None None (Some otpCallback).

Definition credentials : Credentials :=
  mkCredentials (Some "test@example.com") (Some "password") None.

Definition bot_with_session : Automator.t :=
  Automator.new None None (Some credentials) (Some "session.json") None.

(** A page whose input box stops working once [n] prompts have been typed. *)
Definition input_breaks_after (n : nat) : World.script :=
  World.mkScript
    (fun R tr op =>
       match op with
       | Fill _ _ _ => Nat.leb n (length (fills tr))
       | _ => false
       end)
    (fun _ _ => false) (fun _ => "mango").

End Scenario.
(* ===================================================================== *)
(** * Reasoning about runs *)
(* ===================================================================== *)

Section RunLemmas.

Context {X : Type}.

Lemma run_bind {Y : Type} (env : Env) (p : IO X) (f : X -> IO Y) (tr : trace) :
  run env tr (io_bind p f) = run env (snd (run env tr p)) (f (fst (run env tr p))).
Proof.
  revert tr; induction p as [x | R op k IH | sink l msg k IH]; intros tr; cbn.
  - reflexivity.
  - apply IH.
  - apply IH.
Qed.

(** The trace only grows. *)
Lemma run_extends (env : Env) (p : IO X) (tr : trace) :
  exists d, snd (run env tr p) = tr ++ d.
Proof.
  revert tr; induction p as [x | R op k IH | sink l msg k IH]; intros tr; cbn.
  - exists []. by rewrite app_nil_r.
  - destruct (IH (env R tr op) (tr ++ [EvCall op (env R tr op)])) as [d Hd].
    exists (EvCall op (env R tr op) :: d). rewrite Hd, <- app_assoc. reflexivity.
  - destruct (IH (tr ++ [EvLog sink l msg])) as [d Hd].
    exists (EvLog sink l msg :: d). rewrite Hd, <- app_assoc. reflexivity.
Qed.

End RunLemmas.

Section WpLemmas.

Context {X : Type}.

Lemma wp_run (env : Env) (p : IO X) (tr : trace) (Q : trace -> X -> Prop) :
  wp p tr Q -> Q (snd (run env tr p)) (fst (run env tr p)).
Proof.
  revert tr; induction p as [x | R op k IH | sink l msg k IH]; intros tr H; cbn in *.
  - exact H.
  - apply IH, H.
  - apply IH, H.
Qed.

Lemma wp_mono (p : IO X) (tr : trace) (Q Q' : trace -> X -> Prop) :
  wp p tr Q -> (forall tr' x, Q tr' x -> Q' tr' x) -> wp p tr Q'.
Proof.
  revert tr; induction p as [x | R op k IH | sink l msg k IH]; intros tr H HQ; cbn in *.
  - by apply HQ.
  - intros res. by apply IH.
  - by apply IH.
Qed.

Lemma wp_io_bind {Y : Type} (p : IO X) (f : X -> IO Y) (tr : trace)
    (Q : trace -> Y -> Prop) :
  wp p tr (fun tr' x => wp (f x) tr' Q) -> wp (io_bind p f) tr Q.
Proof.
  revert tr; induction p as [x | R op k IH | sink l msg k IH]; intros tr H; cbn in *.
  - exact H.
  - intros res. apply IH, H.
  - apply IH, H.
Qed.

End WpLemmas.

Section MwpLemmas.

Context {S : Type}.

Lemma mwp_run {A : Type} (env : Env) (m : M S A) (s : S) (tr : trace)
    (Q : trace -> S -> JsError + A -> Prop) :
  mwp m s tr Q ->
  Q (snd (run env tr (m s))) (fst (fst (run env tr (m s))))
    (snd (fst (run env tr (m s)))).
Proof. intros H. exact (wp_run env _ _ _ H). Qed.

Lemma mwp_mono {A : Type} (m : M S A) (s : S) (tr : trace)
    (Q Q' : trace -> S -> JsError + A -> Prop) :
  mwp m s tr Q -> (forall tr' s' r, Q tr' s' r -> Q' tr' s' r) -> mwp m s tr Q'.
Proof. intros H HQ. eapply wp_mono; [exact H|]. intros tr' x. apply HQ. Qed.

Lemma mwp_ret {A : Type} (a : A) (s : S) (tr : trace) Q :
  Q tr s (inr a) -> mwp (ret a) s tr Q.
Proof. intros H. exact H. Qed.

Lemma mwp_throw {A : Type} (e : JsError) (s : S) (tr : trace)
    (Q : trace -> S -> JsError + A -> Prop) :
  Q tr s (inl e) -> mwp (throw e) s tr Q.
Proof. intros H. exact H. Qed.

Lemma mwp_bind {A B : Type} (m : M S A) (f : A -> M S B) (s : S) (tr : trace)
    (Q : trace -> S -> JsError + B -> Prop) :
  mwp m s tr (fun tr' s' r =>
    match r with
    | inl e => Q tr' s' (inl e)
    | inr a => mwp (f a) s' tr' Q
    end) ->
  mwp (bind m f) s tr Q.
Proof.
  intros H. unfold mwp, bind. apply wp_io_bind.
  eapply wp_mono; [exact H|]. intros tr' [s' [e|a]]; cbn; auto.
Qed.

Lemma mwp_try_catch {A : Type} (m : M S A) (h : JsError -> M S A) (s : S)
    (tr : trace) (Q : trace -> S -> JsError + A -> Prop) :
  mwp m s tr (fun tr' s' r =>
    match r with
    | inl e => mwp (h e) s' tr' Q
    | inr a => Q tr' s' (inr a)
    end) ->
  mwp (try_catch m h) s tr Q.
Proof.
  intros H. unfold mwp, try_catch. apply wp_io_bind.
  eapply wp_mono; [exact H|]. intros tr' [s' [e|a]]; cbn; auto.
Qed.

Lemma mwp_await {R : Type} (op : Op R) (s : S) (tr : trace)
    (Q : trace -> S -> JsError + R -> Prop) :
  (forall res, Q (tr ++ [EvCall op res]) s res) -> mwp (await op) s tr Q.
Proof. intros H res. apply H. Qed.

Lemma mwp_log (sink : Sink) (l : Level) (msg : string) (s : S) (tr : trace)
    (Q : trace -> S -> JsError + unit -> Prop) :
  Q (tr ++ [EvLog sink l msg]) s (inr tt) -> mwp (log sink l msg) s tr Q.
Proof. intros H. exact H. Qed.

Lemma mwp_lift {A : Type} (m : M unit A) (s : S) (tr : trace)
    (Q : trace -> S -> JsError + A -> Prop) :
  mwp m tt tr (fun tr' _ r => Q tr' s r) -> mwp (lift m) s tr Q.
Proof.
  intros H. unfold mwp, lift. apply wp_io_bind.
  eapply wp_mono; [exact H|]. intros tr' [s' r]; cbn; auto.
Qed.

End MwpLemmas.

(** Equations of [run] through the method combinators. *)
Section MrunLemmas.

Context {S : Type} (env : Env).

Lemma run_mbind {A B : Type} (m : M S A) (f : A -> M S B) (s : S) (tr : trace) :
  run env tr (bind m f s) =
  match run env tr (m s) with
  | ((s', inl e), tr') => ((s', inl e), tr')
  | ((s', inr a), tr') => run env tr' (f a s')
  end.
Proof.
  unfold bind. rewrite run_bind.
  destruct (run env tr (m s)) as [[s' [e|a]] tr']; reflexivity.
Qed.

Lemma run_try_catch {A : Type} (m : M S A) (h : JsError -> M S A) (s : S)
    (tr : trace) :
  run env tr (try_catch m h s) =
  match run env tr (m s) with
  | ((s', inl e), tr') => run env tr' (h e s')
  | ((s', inr a), tr') => ((s', inr a), tr')
  end.
Proof.
  unfold try_catch. rewrite run_bind.
  destruct (run env tr (m s)) as [[s' [e|a]] tr']; reflexivity.
Qed.

Lemma run_lift {A : Type} (m : M unit A) (s : S) (tr : trace) :
  run env tr (lift m s) =
  ((s, snd (fst (run env tr (m tt)))), snd (run env tr (m tt))).
Proof. unfold lift. rewrite run_bind. reflexivity. Qed.

End MrunLemmas.

(** Counting through concatenation. *)
Lemma count_app (f : Event -> bool) (tr1 tr2 : trace) :
  count f (tr1 ++ tr2) = count f tr1 + count f tr2.
Proof. unfold count. by rewrite List.filter_app, length_app. Qed.

Lemma fills_app (tr1 tr2 : trace) : fills (tr1 ++ tr2) = fills tr1 ++ fills tr2.
Proof. unfold fills. apply flat_map_app. Qed.

(* ===================================================================== *)
(** * What a method can return *)
(* ===================================================================== *)

Section ReturnsOnly.

Context {S : Type}.

Lemma wp_trivial {X : Type} (p : IO X) (tr : trace) : wp p tr (fun _ _ => True).
Proof.
  revert tr; induction p as [x | R op k IH | sink l msg k IH]; intros tr; cbn; auto.
Qed.

Lemma returns_any {A : Type} (m : M S A) : returns_only (fun _ => True) m.
Proof.
  intros s tr. eapply wp_mono; [apply wp_trivial|].
  intros tr' [s' [e|a]] _; exact I.
Qed.

Lemma returns_ret {A : Type} (P : A -> Prop) (a : A) :
  P a -> returns_only (S:=S) P (ret a).
Proof. intros H s tr. exact H. Qed.

Lemma returns_throw {A : Type} (P : A -> Prop) (e : JsError) :
  returns_only (S:=S) P (throw e).
Proof. intros s tr. exact I. Qed.

Lemma returns_bind {A B : Type} (P0 : A -> Prop) (P : B -> Prop)
    (m : M S A) (f : A -> M S B) :
  returns_only P0 m -> (forall a, P0 a -> returns_only P (f a)) ->
  returns_only P (bind m f).
Proof.
  intros Hm Hf s tr. apply mwp_bind.
  eapply mwp_mono; [apply Hm|]. intros tr' s' [e|a] H; [exact I|].
  by apply Hf.
Qed.

Lemma returns_seq {A B : Type} (P : B -> Prop) (m : M S A) (k : M S B) :
  returns_only P k -> returns_only P (bind m (fun _ => k)).
Proof. intros Hk. apply (returns_bind (fun _ => True)); [apply returns_any|auto]. Qed.

Lemma returns_try_catch {A : Type} (P : A -> Prop) (m : M S A)
    (h : JsError -> M S A) :
  returns_only P m -> (forall e, returns_only P (h e)) ->
  returns_only P (try_catch m h).
Proof.
  intros Hm Hh s tr. apply mwp_try_catch.
  eapply mwp_mono; [apply Hm|]. intros tr' s' [e|a] H; [apply Hh|exact H].
Qed.

End ReturnsOnly.

Lemma otpChallenge_returns_true (this : ChatGPTProvider.t) :
  returns_only (fun b => b = true) (ChatGPTProvider.otpChallenge this).
Proof.
  unfold ChatGPTProvider.otpChallenge. apply returns_seq.
  destruct (ChatGPTProvider.onOtpRequired this); [|apply returns_throw].
  apply (returns_bind (fun _ => True)); [apply returns_any|]. intros otpCode _.
  repeat apply returns_seq. by apply returns_ret.
Qed.

Lemma pollLoop_returns_true (this : ChatGPTProvider.t) (n : nat) :
  returns_only (fun r => r = None \/ r = Some true) (ChatGPTProvider.pollLoop this n).
Proof.
  induction n as [|n IH]; cbn [ChatGPTProvider.pollLoop].
  - apply returns_ret. by left.
  - apply (returns_bind (fun _ => True)); [apply returns_any|]. intros [|] _.
    + apply returns_seq, returns_ret. by right.
    + apply (returns_bind (fun _ => True)); [apply returns_any|]. intros [|] _.
      * eapply returns_bind; [apply otpChallenge_returns_true|].
        intros b ->. apply returns_ret. by right.
      * apply returns_seq, IH.
Qed.

Lemma awaitResult_returns_true (this : ChatGPTProvider.t) :
  returns_only (fun b => b = true) (ChatGPTProvider.awaitResult this).
Proof.
  unfold ChatGPTProvider.awaitResult. apply returns_seq.
  eapply returns_bind; [apply pollLoop_returns_true|].
  intros r [-> | ->].
  - repeat apply returns_seq. by apply returns_ret.
  - by apply returns_ret.
Qed.

Lemma reachCredentialEntry_returns (this : ChatGPTProvider.t) (c : Credentials) :
  returns_only (fun r => r = None \/ r = Some true)
    (ChatGPTProvider.reachCredentialEntry this c).
Proof.
  unfold ChatGPTProvider.reachCredentialEntry. do 3 apply returns_seq.
  apply (returns_bind (fun r => r = None \/ r = Some true)).
  - apply returns_try_catch.
    + do 2 apply returns_seq. apply returns_ret. by right.
    + intros e. apply returns_ret. by left.
  - intros r [-> | ->].
    + apply returns_seq. destruct (_ || _); [apply returns_throw|].
      apply returns_ret. by left.
    + apply returns_ret. by right.
Qed.

Lemma login_returns_true (this : ChatGPTProvider.t) (c : Credentials) :
  returns_only (fun b => b = true) (ChatGPTProvider.login this c).
Proof.
  unfold ChatGPTProvider.login.
  eapply returns_bind; [apply reachCredentialEntry_returns|].
  intros r [-> | ->].
  - apply returns_try_catch.
    + apply returns_seq, awaitResult_returns_true.
    + intros e. unfold ChatGPTProvider.loginFailed.
      do 2 apply returns_seq. apply returns_throw.
  - by apply returns_ret.
Qed.

(** C10.  [login] never returns [false]: in every environment, from every
    history and for every credentials object, its outcome is either the
    value [true] or a thrown error. *)
Theorem login_never_returns_false (env : Env) (this : ChatGPTProvider.t)
    (credentials : Credentials) (tr : trace) :
  let outcome := snd (fst (run env tr (ChatGPTProvider.login this credentials tt))) in
  outcome <> inr false /\ (outcome = inr true \/ exists e, outcome = inl e).
Proof.
  cbn zeta.
  pose proof (mwp_run env _ tt tr _ (login_returns_true this credentials tt tr)) as H.
  cbn beta in H.
  destruct (snd (fst (run env tr (ChatGPTProvider.login this credentials tt))))
    as [e|b].
  - split; [discriminate|]. right. by exists e.
  - subst b. split; [discriminate|]. by left.
Qed.

(* ===================================================================== *)
(** * Templating *)
(* ===================================================================== *)

Lemma prefix_cons (c d : ascii) (p s : string) :
  String.prefix (String c p) (String d s) = true <-> c = d /\ String.prefix p s = true.
Proof.
  cbn. destruct (ascii_dec c d) as [->|Hne].
  - split; [intros H; by split | by intros [_ H]].
  - split; [discriminate | intros [? _]; contradiction].
Qed.

(** Every text that contains [{{}}] contains [{}]. *)
Lemma includes_double_brace (s : string) :
  JsString.includes s "{{}}" = true -> JsString.includes s "{}" = true.
Proof.
  unfold JsString.includes.
  induction s as [|c s IH]; [discriminate|].
  cbn [JsString.split_first].
  destruct (String.prefix "{{}}" (String c s)) eqn:Hp.
  - intros _. clear IH. apply prefix_cons in Hp as [<- Hp].
    destruct s as [|c1 s]; [discriminate|]. apply prefix_cons in Hp as [<- Hp].
    destruct s as [|c2 s]; [discriminate|]. apply prefix_cons in Hp as [<- Hp].
    destruct s as [|c3 s]; [discriminate|reflexivity].
  - destruct (JsString.split_first "{{}}" s) as [[b a]|]; [|discriminate].
    intros _. specialize (IH eq_refl).
    destruct (String.prefix "{}" (String c s)); [reflexivity|].
    destruct (JsString.split_first "{}" s) as [[b' a']|]; [reflexivity|discriminate].
Qed.

(** C1.  On the element ["{{}} is tasty"] with previous response ["mango"]
    the code renders ["{mango} is tasty"], not ["mango is tasty"]: the text
    contains [{}] (inside [{{}}]), so the first branch replaces that
    occurrence.  The same on a whole chain, where the assistant has answered
    "mango" to the first prompt.  And for every literal element the [{{}}]
    branch is dead: the result is that of the [{}] branch, or the text
    itself. *)
Theorem resolvePrompt_double_brace :
  resolvePrompt (Literal "{{}} is tasty") "mango" = "{mango} is tasty"
  /\ resolvePrompt (Literal "{{}} is tasty") "mango" <> "mango is tasty"
  /\ (let env := World.play World.signed_in in
      let started := run env [] (Automator.init World.linux World.bot) in
      fills (snd (run env (snd started)
                    (Automator.processChain
                       [Literal "Name a fruit."; Literal "{{}} is tasty"]
                       (fst (fst started)))))
      = ["Name a fruit."; "{mango} is tasty"])
  /\ forall text lastResponse,
       resolvePrompt (Literal text) lastResponse =
       if JsString.includes text "{}"
       then JsString.replace text "{}" lastResponse
       else text.
Proof.
  split; [reflexivity|]. split; [discriminate|]. split; [by vm_compute|].
  intros text lastResponse. unfold resolvePrompt.
  destruct (JsString.includes text "{}") eqn:H1; [reflexivity|].
  destruct (JsString.includes text "{{}}") eqn:H2; [|reflexivity].
  apply includes_double_brace in H2. congruence.
Qed.

(* ===================================================================== *)
(** * BrowserManager.isAuthenticated *)
(* ===================================================================== *)

(** C8, as stated, fails: on a manager whose browser was never started
    [isAuthenticated] throws. *)
Lemma isAuthenticated_throws_before_start :
  fst (run (World.play World.signed_in) []
         (BrowserManager.isAuthenticated ChatGPTProvider.URL World.profile_btn
            (BrowserManager.new World.linux)))
  = (BrowserManager.new World.linux, inl BrowserNotStartedError).
Proof. reflexivity. Qed.

(** C8, amended.  Once the browser has been started (the page is set),
    [isAuthenticated] never throws and leaves the manager unchanged: it
    returns [true] exactly when the navigation and the 5-second wait for the
    marker both succeed, and [false] when either rejects.  On a manager
    without a page it throws "Browser not started" without any driver
    call. *)
Theorem isAuthenticated_outcome (env : Env) (this : BrowserManager.t)
    (url selector : string) (tr : trace) :
  match BrowserManager.page this with
  | Some pg =>
      let goto := env _ tr (Goto pg url (Some "domcontentloaded")) in
      let wait := env _ (tr ++ [EvCall (Goto pg url (Some "domcontentloaded")) goto])
                    (WaitForSelector pg selector None (Some 5000%N)) in
      fst (run env tr (BrowserManager.isAuthenticated url selector this))
      = (this, inr (match goto, wait with
                    | inr _, inr _ => true
                    | _, _ => false
                    end))
  | None =>
      run env tr (BrowserManager.isAuthenticated url selector this)
      = ((this, inl BrowserNotStartedError), tr)
  end.
Proof.
  unfold BrowserManager.isAuthenticated.
  destruct this as [dir ctx [pg|] br]; cbn; [|reflexivity].
  destruct (env unit tr (Goto pg url (Some "domcontentloaded"))) as [e|[]]; cbn;
    [reflexivity|].
  match goal with |- context [env unit ?t ?o] => destruct (env unit t o) as [e|[]] end;
    reflexivity.
Qed.

(* ===================================================================== *)
(** * Automator.close *)
(* ===================================================================== *)

Lemma close_once (env : Env) (this : Automator.t) (tr : trace) :
  driver_close_resolves env ->
  run env tr (Automator.close this) = ((this, inr tt), tr ++ close_calls this).
Proof.
  intros [Hctx Hbrowser].
  destruct this as [[[dir [ctx|] pg [b|]]|] prov name hl creds sp cfg lg];
    cbn; rewrite ?Hctx; cbn; rewrite ?Hbrowser; cbn;
    rewrite ?app_nil_r, <- ?app_assoc; reflexivity.
Qed.

(** One [close()] on a session store that holds a context (and no browser
    object, as [start] leaves it): the context is handed to the driver, and
    the outcome is the driver's. *)
Lemma close_with_context (env : Env) (this : Automator.t) (bm : BrowserManager.t)
    (ctx : handle) (tr : trace) :
  Automator.browserManager this = Some bm ->
  BrowserManager.context bm = Some ctx ->
  BrowserManager.browser bm = None ->
  run env tr (Automator.close this)
  = ((this, env _ tr (ContextClose ctx)),
     tr ++ [EvCall (ContextClose ctx) (env _ tr (ContextClose ctx))]).
Proof.
  destruct this as [bm0 prov name hl creds sp cfg lg].
  destruct bm as [dir ctx0 pg b]. cbn. intros -> -> ->. cbn.
  by destruct (env _ tr (ContextClose ctx)) as [e|[]].
Qed.

(** C9, as stated, fails: [stop()] keeps the context it has closed, so a
    second [close()] hands it to the driver again, and throws when the
    driver rejects closing a closed context. *)
Lemma second_close_throws :
  let env := World.closes_once in
  let started := run env [] (Automator.init World.linux World.bot) in
  let this := fst (fst started) in
  snd (fst started) = inr tt
  /\ snd (fst (run env (snd started) (Automator.close this))) = inr tt
  /\ snd (fst (run env (snd started) (times 2 Automator.close this)))
     = inl (Error "Target page, context or browser has been closed")
  /\ count is_context_close (snd (run env (snd started) (times 2 Automator.close this)))
     = 2.
Proof. vm_compute. repeat split. Qed.

(** C9, amended.  Where no context (and no browser) was ever created --
    [init()] never ran, or failed before the launch -- any number of
    [close()] calls return without throwing and without a driver call,
    whatever the driver does.  Once the session store holds a context,
    [close()] hands it to the driver's [close()] and returns or throws as
    that call does; the fields are unchanged, the context is kept, and so a
    second [close()] hands the same context to the driver again: it is no
    no-op, and it throws when the driver rejects it.  With a driver whose
    [close()] calls resolve, any number of [close()] calls return, each
    making the same driver calls. *)
Theorem close_safe (env : Env) (this : Automator.t) (tr : trace) :
  (forall n,
     (bm ← Automator.browserManager this; BrowserManager.context bm) = None ->
     (bm ← Automator.browserManager this; BrowserManager.browser bm) = None ->
     run env tr (times n Automator.close this) = ((this, inr tt), tr))
  /\ (forall bm ctx,
        Automator.browserManager this = Some bm ->
        BrowserManager.context bm = Some ctx ->
        BrowserManager.browser bm = None ->
        let closing := ContextClose ctx in
        let tr1 := tr ++ [EvCall closing (env _ tr closing)] in
        run env tr (Automator.close this) = ((this, env _ tr closing), tr1)
        /\ (env _ tr closing = inr tt ->
            run env tr (times 2 Automator.close this)
            = ((this, env _ tr1 closing),
               tr1 ++ [EvCall closing (env _ tr1 closing)])))
  /\ (forall n,
        driver_close_resolves env ->
        let out := run env tr (times n Automator.close this) in
        fst out = (this, inr tt)
        /\ snd out = tr ++ mjoin (replicate n (close_calls this))).
Proof.
  split; [|split].
  - intros n Hctx Hbrowser.
    assert (Hone : forall tr0, run env tr0 (Automator.close this) = ((this, inr tt), tr0)).
    { intros tr0.
      destruct this as [[[dir ctx pg b]|] prov name hl creds sp cfg lg];
        cbn in Hctx, Hbrowser; subst; reflexivity. }
    induction n as [|n IH]; [reflexivity|].
    cbn [times]. by rewrite run_mbind, Hone.
  - intros bm ctx Hbm Hctx Hbrowser. cbv zeta.
    split; [by apply close_with_context with bm|].
    intros Hfirst. cbn [times].
    rewrite run_mbind, (close_with_context env this bm ctx tr) by assumption.
    rewrite Hfirst. rewrite run_mbind.
    rewrite (close_with_context env this bm ctx) by assumption.
    by destruct (env _ (tr ++ [EvCall (ContextClose ctx) (inr tt)]) (ContextClose ctx))
      as [e|[]].
  - intros n Hdriver. cbv zeta.
    assert (Hrun : run env tr (times n Automator.close this)
                   = ((this, inr tt), tr ++ mjoin (replicate n (close_calls this)))).
    { revert tr; induction n as [|n IH]; intros tr.
      - cbn. by rewrite app_nil_r.
      - cbn [times]. rewrite run_mbind, close_once by exact Hdriver.
        rewrite IH. cbn. by rewrite <- app_assoc. }
    by rewrite Hrun.
Qed.

Lemma close_safe_witness :
  let env := World.closes_once in
  let started := run env [] (Automator.init World.linux World.bot) in
  let this := fst (fst started) in
  run env (snd started) (times 2 Automator.close this)
  = ((this, inl (Error "Target page, context or browser has been closed")),
     (snd started ++ [EvCall (ContextClose 1) (inr tt)])
       ++ [EvCall (ContextClose 1)
             (inl (Error "Target page, context or browser has been closed"))]).
Proof.
  exact (proj2
           (proj1 (proj2
              (close_safe World.closes_once
                 (fst (fst (run World.closes_once []
                              (Automator.init World.linux World.bot))))
                 (snd (run World.closes_once []
                         (Automator.init World.linux World.bot)))))
              (BrowserManager.mk
                 (BrowserManager.userDataDir (BrowserManager.new World.linux))
                 (Some 1) (Some 2) None)
              1 eq_refl eq_refl eq_refl)
           eq_refl).
Defined.

(* ===================================================================== *)
(** * Stepping through a method body *)
(* ===================================================================== *)

Section MwpState.

Context {S : Type}.

Lemma mwp_get (s : S) (tr : trace) (Q : trace -> S -> JsError + S -> Prop) :
  Q tr s (inr s) -> mwp get s tr Q.
Proof. intros H. exact H. Qed.

Lemma mwp_modify (f : S -> S) (s : S) (tr : trace)
    (Q : trace -> S -> JsError + unit -> Prop) :
  Q tr (f s) (inr tt) -> mwp (modify f) s tr Q.
Proof. intros H. exact H. Qed.

End MwpState.

Lemma mwp_onBrowserManager {A : Type} (m : M BrowserManager.t A)
    (this : Automator.t) (bm : BrowserManager.t) (tr : trace)
    (Q : trace -> Automator.t -> JsError + A -> Prop) :
  Automator.browserManager this = Some bm ->
  mwp m bm tr (fun tr' bm' r =>
    Q tr' (Automator.set_browserManager (Some bm') this) r) ->
  mwp (Automator.onBrowserManager m) this tr Q.
Proof.
  intros Hbm H. unfold mwp, Automator.onBrowserManager. rewrite Hbm.
  apply wp_io_bind. eapply wp_mono; [exact H|]. intros tr' [bm' r]; cbn; auto.
Qed.

(** One step of symbolic execution: the rule of the construct at the head
    of the method, a case split on every answer of the environment. *)
Ltac mwp_step :=
  lazymatch goal with
  | |- mwp (bind _ _) _ _ _ => apply mwp_bind
  | |- mwp (try_catch _ _) _ _ _ => apply mwp_try_catch
  | |- mwp (await _) _ _ _ => apply mwp_await; intros [?|?]
  | |- mwp (log _ _ _) _ _ _ => apply mwp_log
  | |- mwp (ret _) _ _ _ => apply mwp_ret
  | |- mwp (throw _) _ _ _ => apply mwp_throw
  | |- mwp get _ _ _ => apply mwp_get
  | |- mwp (modify _) _ _ _ => apply mwp_modify
  | |- mwp (lift _) _ _ _ => apply mwp_lift
  | |- mwp (Automator.onBrowserManager _) _ _ _ =>
      eapply mwp_onBrowserManager; [reflexivity|]
  | |- mwp (if ?b then _ else _) _ _ _ => destruct b eqn:?
  | |- mwp (match ?x with _ => _ end) _ _ _ => destruct x eqn:?
  end; cbv beta iota.


(* ===================================================================== *)
(** * Automator.init without credentials: what never happens *)
(* ===================================================================== *)

(** Without credentials [init()] types nothing, clicks nothing and
    navigates at most once, whatever the driver answers. *)
Lemma init_missing_credentials_wp (proc : NodeProcess) (this : Automator.t) :
  credentials_missing proc this = true ->
  mwp (Automator.init proc) this [] (fun tr this' r =>
    count is_input tr = 0
    /\ count is_goto tr <= 1
    /\ (count (is_log "Not authenticated. Initiating login...") tr = 1 ->
        r = inl ConfigurationError_credentials /\ count is_goto tr = 1)
    /\ (r = inr tt -> count (is_log "Session authenticated.") tr = 1)).
Proof.
  intros Hmiss.
  unfold Automator.init, BrowserManager.start, BrowserManager.importSession,
    BrowserManager.isAuthenticated.
  destruct this as [bm0 prov name hl creds sp cfg lg].
  unfold credentials_missing in Hmiss. cbn in Hmiss.
  repeat mwp_step.
  all: cbn in *; try congruence.
  all: repeat split; try (intros; discriminate); auto.
Qed.

(* ===================================================================== *)
(** * ChatGPTProvider.login: the diagnostic screenshot *)
(* ===================================================================== *)

(** The dialog dismissal never throws. *)
Lemma handleDialogs_wp (this : ChatGPTProvider.t) (f : Event -> bool) (tr : trace) :
  (forall pg s res, f (@EvCall bool (IsVisible pg s) res) = false) ->
  (forall pg s res, f (@EvCall unit (Click pg s) res) = false) ->
  (forall pg res, f (@EvCall unit (WaitForTimeout pg 500%N) res) = false) ->
  mwp (ChatGPTProvider.handleDialogs this) tt tr (fun tr' _ r =>
    r = inr tt /\ count f tr' = count f tr).
Proof.
  intros Hv Hc Hw. unfold ChatGPTProvider.handleDialogs.
  repeat mwp_step.
  all: repeat match goal with u : unit |- _ => destruct u end.
  all: split; [reflexivity|].
  all: rewrite ?count_app; unfold count; cbn [List.filter];
       rewrite ?Hv, ?Hc, ?Hw; cbn; lia.
Qed.


Lemma unobserved_poll_wait : unobserved_before_polling is_poll_wait.
Proof. by split. Qed.

Lemma unobserved_long_wait : unobserved_before_polling is_long_wait.
Proof. by split. Qed.

Ltac count_frame H :=
  rewrite ?count_app; unfold count; cbn [List.filter];
  rewrite ?(unobs_log _ H), ?(unobs_goto _ H), ?(unobs_visible _ H),
    ?(unobs_click _ H), ?(unobs_fill _ H), ?(unobs_pause _ H),
    ?(unobs_wait _ H), ?(unobs_short_wait _ H);
  cbn [length List.filter]; rewrite ?Nat.add_0_r; try reflexivity.

Lemma reachCredentialEntry_frame (f : Event -> bool) (this : ChatGPTProvider.t)
    (c : Credentials) (tr : trace) :
  unobserved_before_polling f ->
  mwp (ChatGPTProvider.reachCredentialEntry this c) tt tr (fun tr' _ _ =>
    count f tr' = count f tr).
Proof.
  intros Hf. unfold ChatGPTProvider.reachCredentialEntry.
  mwp_step. mwp_step. mwp_step. mwp_step; [count_frame Hf|].
  mwp_step.
  eapply mwp_mono;
    [apply (handleDialogs_wp this f); intros; apply Hf|].
  intros tr' [] r [-> Hcount]. cbv beta iota.
  repeat mwp_step.
  all: rewrite ?count_app, Hcount; count_frame Hf.
Qed.

Lemma credentialEntry_frame (f : Event -> bool) (this : ChatGPTProvider.t)
    (email password : string) (method : option string) (tr : trace) :
  unobserved_before_polling f ->
  mwp (ChatGPTProvider.credentialEntry this email password method) tt tr
    (fun tr' _ _ => count f tr' = count f tr).
Proof.
  intros Hf. unfold ChatGPTProvider.credentialEntry.
  repeat mwp_step.
  all: count_frame Hf.
Qed.




(* ===================================================================== *)
(** * ChatGPTProvider.sendPrompt: completion detection *)
(* ===================================================================== *)

(** C5.  Suppose the prompt was submitted and the 5-second wait for the
    stop/generating indicator rejects.  Then completion detection succeeds
    exactly when [isVisible] reports the send control visible at that
    moment, and [sendPrompt] goes on to extract the response; when the send
    control is reported not visible, [sendPrompt] fails with
    [ResponseTimeoutError]. *)
Theorem sendPrompt_completion_detection (env : Env) (this : ChatGPTProvider.t)
    (prompt : string) (tr0 tr1 : trace) (e0 : JsError) :
  let pg := ChatGPTProvider.page this in
  let waiting := EvLog (ChatGPTProvider.logger this) info "Waiting for response..." in
  let indicator :=
    WaitForSelector pg (ChatGPTProvider.sel this "stop_btn") None (Some 5000%N) in
  let send_visible := IsVisible pg (ChatGPTProvider.sel this "send_btn") in
  run env tr0
    ((ChatGPTProvider.handleDialogs this ;;
      ChatGPTProvider.submitPrompt this prompt) tt) = ((tt, inr tt), tr1) ->
  env _ (tr1 ++ [waiting]) indicator = inl e0 ->
  let tr2 := (tr1 ++ [waiting]) ++ [EvCall indicator (inl e0)] in
  let visible := env _ tr2 send_visible in
  (fst (run env tr1 (ChatGPTProvider.awaitCompletion this tt)) = (tt, inr tt)
   <-> visible = inr true)
  /\ (visible = inr true ->
      run env tr0 (ChatGPTProvider.sendPrompt this prompt tt)
      = run env (tr2 ++ [EvCall send_visible (inr true)])
          (ChatGPTProvider.extractResponse this tt))
  /\ (visible = inr false ->
      fst (run env tr0 (ChatGPTProvider.sendPrompt this prompt tt))
      = (tt, inl ResponseTimeoutError)).
Proof.
  cbn zeta. intros Hsubmit Hwait.
  assert (Hsend : forall k : M unit string,
    run env tr0 ((ChatGPTProvider.handleDialogs this ;;
                  ChatGPTProvider.submitPrompt this prompt ;; k) tt)
    = run env tr1 (k tt)).
  { intros k. rewrite run_mbind in Hsubmit |- *.
    destruct (run env tr0 (ChatGPTProvider.handleDialogs this tt))
      as [[[] [e|[]]] trd]; [discriminate|].
    rewrite run_mbind. rewrite Hsubmit. reflexivity. }
  unfold ChatGPTProvider.sendPrompt. rewrite Hsend, run_mbind.
  unfold ChatGPTProvider.awaitCompletion. cbn. rewrite Hwait. cbn.
  destruct (env bool _ (IsVisible _ _)) as [e|[|]]; cbn.
  - split; [split; discriminate|]. split; discriminate.
  - split; [split; reflexivity|]. split; [reflexivity|discriminate].
  - split; [split; discriminate|]. split; [discriminate|reflexivity].
Qed.

Lemma sendPrompt_completion_detection_witness :
  fst (run (World.play (World.no_indicator false)) []
         (ChatGPTProvider.sendPrompt World.chatgpt "Name a fruit." tt))
  = (tt, inl ResponseTimeoutError).
Proof.
  refine (proj2 (proj2 (sendPrompt_completion_detection
            (World.play (World.no_indicator false)) World.chatgpt "Name a fruit." []
            (snd (run (World.play (World.no_indicator false)) []
                    ((ChatGPTProvider.handleDialogs World.chatgpt ;;
                      ChatGPTProvider.submitPrompt World.chatgpt "Name a fruit.") tt)))
            World.TimeoutError _ _)) _).
  - reflexivity.
  - reflexivity.
  - reflexivity.
Defined.

(* ===================================================================== *)
(** * ChatGPTProvider.login: the OTP challenge without a supplier *)
(* ===================================================================== *)

Lemma count_polls (this : ChatGPTProvider.t) (k : nat) (tr : trace) :
  count is_poll_wait (polls this k tr) = count is_poll_wait tr + k
  /\ count is_long_wait (polls this k tr) = count is_long_wait tr.
Proof.
  revert tr; induction k as [|k IH]; intros tr; cbn [polls].
  - split; lia.
  - destruct (IH (quiet_poll this tr)) as [-> ->].
    unfold quiet_poll. rewrite !count_app. cbn. lia.
Qed.

Lemma count_otp_detected (this : ChatGPTProvider.t) (tr : trace) :
  count is_poll_wait (otp_detected this tr) = count is_poll_wait tr
  /\ count is_long_wait (otp_detected this tr) = count is_long_wait tr.
Proof. unfold otp_detected. rewrite !count_app. cbn. lia. Qed.

(** The loop stops in the iteration that finds the OTP input. *)
Lemma pollLoop_otp (env : Env) (this : ChatGPTProvider.t) (k n : nat) (tr : trace) :
  ChatGPTProvider.onOtpRequired this = None ->
  k < n ->
  otp_shown_at env this k tr ->
  run env tr (ChatGPTProvider.pollLoop this n tt)
  = ((tt, inl OtpUnavailableError), otp_detected this (polls this k tr)).
Proof.
  intros Hcb. revert n tr; induction k as [|k IH]; intros n tr Hlt Hotp.
  - destruct n as [|n]; [lia|]. destruct Hotp as [Hp Ho].
    cbn [polls ChatGPTProvider.pollLoop]. unfold ChatGPTProvider.otpChallenge.
    rewrite Hcb. cbn. rewrite Hp. cbn. rewrite Ho. reflexivity.
  - destruct n as [|n]; [lia|]. destruct Hotp as (Hp & Ho & Hw & Hrest).
    cbn [polls]. rewrite <- (IH n (quiet_poll this tr)); [|lia|exact Hrest].
    cbn. rewrite Hp. cbn. rewrite Ho. cbn. rewrite Hw. reflexivity.
Qed.

Lemma awaitResult_otp (env : Env) (this : ChatGPTProvider.t) (k : nat) (tr : trace) :
  ChatGPTProvider.onOtpRequired this = None ->
  k < 30 ->
  otp_shown_at env this k
    (tr ++ [EvLog (ChatGPTProvider.logger this) info
              "Waiting for authentication or OTP..."]) ->
  run env tr (ChatGPTProvider.awaitResult this tt)
  = ((tt, inl OtpUnavailableError),
     otp_detected this
       (polls this k
          (tr ++ [EvLog (ChatGPTProvider.logger this) info
                    "Waiting for authentication or OTP..."]))).
Proof.
  intros Hcb Hk Hotp. unfold ChatGPTProvider.awaitResult.
  rewrite run_mbind. cbn [log run fst snd]. rewrite run_mbind.
  rewrite (pollLoop_otp env this k 30 _ Hcb Hk Hotp). reflexivity.
Qed.

Lemma run_loginFailed (env : Env) (this : ChatGPTProvider.t) (e : JsError)
    (tr : trace) :
  let logged :=
    tr ++ [EvLog (ChatGPTProvider.logger this) error
             ("Login failed: " +:+ toString e)] in
  let screenshot := Screenshot (ChatGPTProvider.page this) "login_failure_node.png" in
  run env tr (ChatGPTProvider.loginFailed this e tt)
  = ((tt, inl (match env _ logged screenshot with
               | inl e' => e'
               | inr _ => e
               end)),
     logged ++ [EvCall screenshot (env _ logged screenshot)]).
Proof.
  unfold ChatGPTProvider.loginFailed. cbn.
  destruct (env unit _ (Screenshot _ _)) as [e'|[]]; reflexivity.
Qed.

(** C7.  Suppose no OTP supplier was configured, [login] has reached the
    polling loop, and the OTP input becomes visible in iteration [k] of the
    loop ([k < 30]).  Then the loop throws [OtpUnavailableError] in that very
    iteration; [login] fails, after logging the error and one screenshot
    call, with that error (with the screenshot's own error, should the
    screenshot call reject); and the whole run contains just the [k]
    one-second waits of the iterations before, and no 30-second wait. *)
Theorem otp_without_supplier (env : Env) (this : ChatGPTProvider.t)
    (c : Credentials) (k : nat) (tr_a tr_b : trace) :
  ChatGPTProvider.onOtpRequired this = None ->
  k < 30 ->
  run env [] (ChatGPTProvider.reachCredentialEntry this c tt)
    = ((tt, inr None), tr_a) ->
  run env tr_a
    (ChatGPTProvider.credentialEntry this (default "" (email c))
       (default "" (password c)) (method c) tt) = ((tt, inr tt), tr_b) ->
  let waiting :=
    tr_b ++ [EvLog (ChatGPTProvider.logger this) info
               "Waiting for authentication or OTP..."] in
  otp_shown_at env this k waiting ->
  let detected := otp_detected this (polls this k waiting) in
  let logged :=
    detected ++ [EvLog (ChatGPTProvider.logger this) error
                   ("Login failed: " +:+ toString OtpUnavailableError)] in
  let screenshot := Screenshot (ChatGPTProvider.page this) "login_failure_node.png" in
  let shot := env _ logged screenshot in
  let out := run env [] (ChatGPTProvider.login this c tt) in
  run env tr_b (ChatGPTProvider.awaitResult this tt)
    = ((tt, inl OtpUnavailableError), detected)
  /\ out = ((tt, inl (match shot with
                      | inl e' => e'
                      | inr _ => OtpUnavailableError
                      end)),
            logged ++ [EvCall screenshot shot])
  /\ count is_poll_wait (snd out) = k
  /\ count is_long_wait (snd out) = 0.
Proof.
  cbn zeta. intros Hcb Hk Hreach Hentry Hotp.
  pose proof (awaitResult_otp env this k tr_b Hcb Hk Hotp) as Hawait.
  assert (Hout :
    run env [] (ChatGPTProvider.login this c tt) =
    run env (otp_detected this (polls this k
               (tr_b ++ [EvLog (ChatGPTProvider.logger this) info
                           "Waiting for authentication or OTP..."])))
      (ChatGPTProvider.loginFailed this OtpUnavailableError tt)).
  { unfold ChatGPTProvider.login. rewrite run_mbind, Hreach.
    rewrite run_try_catch, run_mbind, Hentry, Hawait. reflexivity. }
  split; [exact Hawait|]. rewrite Hout, run_loginFailed. cbn zeta.
  pose proof (mwp_run env _ tt [] _
                (reachCredentialEntry_frame _ this c [] unobserved_poll_wait)) as Hp1.
  pose proof (mwp_run env _ tt [] _
                (reachCredentialEntry_frame _ this c [] unobserved_long_wait)) as Hl1.
  pose proof (mwp_run env _ tt tr_a _
                (credentialEntry_frame _ this (default "" (email c))
                   (default "" (password c)) (method c) tr_a unobserved_poll_wait))
    as Hp2.
  pose proof (mwp_run env _ tt tr_a _
                (credentialEntry_frame _ this (default "" (email c))
                   (default "" (password c)) (method c) tr_a unobserved_long_wait))
    as Hl2.
  cbv beta in Hp1, Hl1, Hp2, Hl2.
  rewrite Hreach in Hp1, Hl1. rewrite Hentry in Hp2, Hl2. cbn [fst snd] in *.
  split; [reflexivity|].
  rewrite !count_app.
  destruct (count_otp_detected this (polls this k
         (tr_b ++ [EvLog (ChatGPTProvider.logger this) info
                     "Waiting for authentication or OTP..."]))) as [-> ->].
  destruct (count_polls this k
         (tr_b ++ [EvLog (ChatGPTProvider.logger this) info
                     "Waiting for authentication or OTP..."])) as [-> ->].
  rewrite !count_app, Hp2, Hl2, Hp1, Hl1. cbn. lia.
Qed.

Lemma otp_without_supplier_witness :
  count is_poll_wait
    (snd (run (World.play World.otp_after_two_polls) []
            (ChatGPTProvider.login World.chatgpt
               (mkCredentials (Some "test@example.com") (Some "password") None) tt)))
  = 2
  /\ fst (run (World.play World.otp_after_two_polls) []
            (ChatGPTProvider.login World.chatgpt
               (mkCredentials (Some "test@example.com") (Some "password") None) tt))
     = (tt, inl OtpUnavailableError).
Proof.
  pose (env := World.play World.otp_after_two_polls).
  pose (c := mkCredentials (Some "test@example.com") (Some "password") None).
  pose (tr_a := snd (run env [] (ChatGPTProvider.reachCredentialEntry World.chatgpt c tt))).
  pose (tr_b := snd (run env tr_a
                       (ChatGPTProvider.credentialEntry World.chatgpt
                          "test@example.com" "password" None tt))).
  assert (H := otp_without_supplier env World.chatgpt c 2 tr_a tr_b).
  cbn zeta in H.
  specialize (H eq_refl).
  specialize (H ltac:(lia)).
  specialize (H eq_refl).
  specialize (H eq_refl).
  specialize (H ltac:(vm_compute; repeat split)).
  destruct H as (_ & Hout & Hcount & _).
  split; [exact Hcount|exact (f_equal fst Hout)].
Defined.

(* ===================================================================== *)
(** * Automator.processChain *)
(* ===================================================================== *)

(** Before [init()], [processPrompt] fails without any call. *)
Lemma processPrompt_before_init (env : Env) (this : Automator.t) (prompt : string)
    (tr : trace) :
  Automator.provider this = None ->
  run env tr (Automator.processPrompt prompt this)
  = ((this, inl NotInitializedError), tr).
Proof. intros H. unfold Automator.processPrompt. cbn. rewrite H. reflexivity. Qed.

Ltac fills_frame := rewrite ?fills_app; cbn [fills flat_map]; rewrite ?app_nil_r.

Lemma handleDialogs_fills (this : ChatGPTProvider.t) (tr : trace) :
  mwp (ChatGPTProvider.handleDialogs this) tt tr (fun tr' _ r =>
    r = inr tt /\ fills tr' = fills tr).
Proof.
  unfold ChatGPTProvider.handleDialogs.
  repeat mwp_step.
  all: repeat match goal with u : unit |- _ => destruct u end.
  all: split; [reflexivity|]; fills_frame; reflexivity.
Qed.

(** A [sendPrompt] that returns has typed its prompt, and nothing else. *)
Lemma sendPrompt_fills (this : ChatGPTProvider.t) (prompt : string) (tr : trace) :
  mwp (ChatGPTProvider.sendPrompt this prompt) tt tr (fun tr' _ r =>
    match r with
    | inr _ => fills tr' = fills tr ++ [prompt]
    | inl _ => True
    end).
Proof.
  unfold ChatGPTProvider.sendPrompt. mwp_step.
  eapply mwp_mono; [apply handleDialogs_fills|].
  intros tr1 [] r [-> Hfills]. cbv beta iota.
  unfold ChatGPTProvider.submitPrompt, ChatGPTProvider.awaitCompletion,
    ChatGPTProvider.extractResponse.
  repeat mwp_step.
  all: try exact I.
  all: fills_frame; rewrite Hfills; reflexivity.
Qed.

Lemma processPrompt_fills (this : Automator.t) (prompt : string) (tr : trace) :
  mwp (Automator.processPrompt prompt) this tr (fun tr' this' r =>
    this' = this /\
    match r with
    | inr _ => fills tr' = fills tr ++ [prompt]
    | inl _ => True
    end).
Proof.
  unfold Automator.processPrompt. mwp_step. mwp_step.
  destruct (Automator.provider this) as [prov|]; [|by mwp_step].
  mwp_step. eapply mwp_mono; [apply sendPrompt_fills|].
  intros tr' [] r H. by split.
Qed.

(** The loop of [processChain], with its two accumulators, computes what
    [chain_in_order] says. *)
Lemma processChain_loop_run (env : Env) (rest : list PromptItem) :
  forall (total i : nat) (responses : list string) (lastResponse : string)
         (this : Automator.t) (tr : trace),
  run env tr (Automator.processChain_loop total i rest responses lastResponse this)
  = ((this,
      match fst (chain_in_order env this total i lastResponse rest tr) with
      | inl e => inl e
      | inr new => inr (responses ++ new)
      end),
     snd (chain_in_order env this total i lastResponse rest tr)).
Proof.
  induction rest as [|promptItem rest IH];
    intros total i responses lastResponse this tr.
  - cbn. by rewrite app_nil_r.
  - cbn [Automator.processChain_loop chain_in_order].
    rewrite run_mbind. cbn [get run].
    rewrite run_mbind. cbn [log run].
    rewrite run_mbind.
    pose proof (mwp_run env _ this
                  (tr ++ [EvLog (Automator.logger this) info
                            ("Processing prompt " +:+ JsString.of_nat (i + 1) +:+ "/"
                             +:+ JsString.of_nat total +:+ "...")]) _
                  (processPrompt_fills this (resolvePrompt promptItem lastResponse) _))
      as [Hthis _].
    cbv zeta.
    destruct (run env _ (Automator.processPrompt _ this))
      as [[this1 [e|response]] tr1]. 
    + cbn [fst snd] in *. by subst.
    + cbn [fst snd] in *. subst this1. rewrite IH.
      destruct (fst (chain_in_order env this total (i + 1) response rest tr1));
        [reflexivity|]. by rewrite <- app_assoc.
Qed.

(** What [chain_in_order] returns: one response per item; what it has typed
    by then: the items, each resolved against the response before it. *)
Lemma chain_in_order_returns (env : Env) (this : Automator.t) (total : nat)
    (items : list PromptItem) :
  forall (i : nat) (previous : string) (tr : trace) (responses : list string),
  fst (chain_in_order env this total i previous items tr) = inr responses ->
  length responses = length items
  /\ fills (snd (chain_in_order env this total i previous items tr))
     = fills tr ++ zip_with resolvePrompt items (previous :: responses).
Proof.
  induction items as [|item items IH]; intros i previous tr responses.
  - cbn. intros [= <-]. by rewrite app_nil_r.
  - cbn [chain_in_order]. cbv zeta.
    pose proof (mwp_run env _ this
                  (tr ++ [EvLog (Automator.logger this) info
                            ("Processing prompt " +:+ JsString.of_nat (i + 1) +:+ "/"
                             +:+ JsString.of_nat total +:+ "...")]) _
                  (processPrompt_fills this (resolvePrompt item previous) _))
      as [_ Hsent].
    destruct (run env _ (Automator.processPrompt _ this))
      as [[this1 [e|response]] tr1]; cbn [fst snd] in *; [discriminate|].
    destruct (fst (chain_in_order env this total (i + 1) response items tr1))
      as [e|later] eqn:Hlater; [discriminate|].
    intros [= <-]. apply IH in Hlater as [Hlen Hfills].
    split; [cbn; lia|].
    rewrite Hfills, Hsent. fills_frame. cbn [zip_with]. by rewrite <- app_assoc.
Qed.

(** A chain that fails has a first failing item. *)
Lemma chain_in_order_fails (env : Env) (this : Automator.t) (total : nat)
    (items : list PromptItem) :
  forall (i : nat) (previous : string) (tr : trace) (e : JsError),
  fst (chain_in_order env this total i previous items tr) = inl e ->
  exists done item rest responses,
    items = done ++ item :: rest
    /\ fst (chain_in_order env this total i previous done tr) = inr responses
    /\ let failing :=
         run env
           (snd (chain_in_order env this total i previous done tr)
              ++ [EvLog (Automator.logger this) info
                    ("Processing prompt " +:+ JsString.of_nat (i + length done + 1)
                     +:+ "/" +:+ JsString.of_nat total +:+ "...")])
           (Automator.processPrompt
              (resolvePrompt item (default previous (last responses))) this) in
       snd (fst failing) = inl e
       /\ snd (chain_in_order env this total i previous items tr) = snd failing.
Proof.
  induction items as [|item items IH]; intros i previous tr e.
  - cbn. discriminate.
  - cbn [chain_in_order]. cbv zeta.
    destruct (run env _ (Automator.processPrompt _ this))
      as [[this1 [err|response]] tr1] eqn:Hsent; cbn [fst snd].
    + intros [= ->]. exists [], item, items, []. cbn [app length chain_in_order fst snd last default].
      rewrite Nat.add_0_r, Hsent. by repeat split.
    + destruct (fst (chain_in_order env this total (i + 1) response items tr1))
        as [err|later] eqn:Hlater; [|discriminate].
      intros [= ->]. apply IH in Hlater as (done & it & rest & responses & -> & Hdone & Hfail).
      exists (item :: done), it, rest, (response :: responses).
      split; [reflexivity|].
      cbn [chain_in_order]. cbv zeta. rewrite Hsent. cbn [fst snd]. rewrite Hdone.
      split; [reflexivity|].
      replace (i + length (item :: done) + 1) with (i + 1 + length done + 1)
        by (cbn [length]; lia).
      rewrite last_cons. cbv zeta in Hfail.
      destruct (last responses); exact Hfail.
Qed.

(** C6.  [processChain] does what [chain_in_order] says, for every chain,
    driver and history: the items are processed in list order; each is
    resolved against the response that [processPrompt] returned for the item
    before it -- the empty string for the first -- and sent with
    [processPrompt]; the responses returned are exactly those, one per item,
    in the same order; the first failing item ends the chain with its
    error; the Automator's fields are unchanged.  Hence whenever it returns,
    the prompts typed into the page are the items resolved against the
    returned responses, and it does return when no prompt fails.  A
    function-valued item is applied to the raw previous response and its
    result is sent as it is. *)
Theorem processChain_sequential (env : Env) (this : Automator.t)
    (prompts : list PromptItem) (tr : trace) :
  let out := run env tr (Automator.processChain prompts this) in
  let spec := chain_in_order env this (length prompts) 0 "" prompts tr in
  out = ((this, fst spec), snd spec)
  /\ (forall responses, snd (fst out) = inr responses ->
        fst (fst out) = this
        /\ length responses = length prompts
        /\ fills (snd out)
           = fills tr ++ zip_with resolvePrompt prompts ("" :: responses))
  /\ ((forall tr' prompt, exists response,
         snd (fst (run env tr' (Automator.processPrompt prompt this))) = inr response) ->
      exists responses, snd (fst out) = inr responses)
  /\ (forall f previous, resolvePrompt (Transform f) previous = f previous).
Proof.
  cbv zeta.
  assert (Hrun : run env tr (Automator.processChain prompts this)
                 = ((this, fst (chain_in_order env this (length prompts) 0 "" prompts tr)),
                    snd (chain_in_order env this (length prompts) 0 "" prompts tr))).
  { unfold Automator.processChain. rewrite processChain_loop_run.
    by destruct (fst (chain_in_order _ _ _ _ _ _ _)). }
  split; [exact Hrun|]. split; [|split; [|reflexivity]].
  - rewrite Hrun. cbn [fst snd]. intros responses Hreturned.
    split; [reflexivity|]. by apply chain_in_order_returns in Hreturned.
  - intros Hok. rewrite Hrun. cbn [fst snd].
    clear Hrun. generalize (length prompts) 0 "" tr.
    induction prompts as [|item prompts IH]; intros total i previous tr0.
    + by exists [].
    + cbn [chain_in_order]. cbv zeta.
      destruct (Hok (tr0 ++ [EvLog (Automator.logger this) info
                               ("Processing prompt " +:+ JsString.of_nat (i + 1) +:+ "/"
                                +:+ JsString.of_nat total +:+ "...")])
                  (resolvePrompt item previous)) as [response ->].
      destruct (IH total (i + 1) response
                  (snd (run env (tr0 ++ [EvLog (Automator.logger this) info
                               ("Processing prompt " +:+ JsString.of_nat (i + 1) +:+ "/"
                                +:+ JsString.of_nat total +:+ "...")])
                          (Automator.processPrompt (resolvePrompt item previous) this))))
        as [responses ->].
      by exists (response :: responses).
Qed.

Lemma processChain_sequential_witness :
  let env := World.play World.numbered_replies in
  let started := run env [] (Automator.init World.linux World.bot) in
  let chain :=
    [Literal "Name a fruit."; Literal "What color is {}?";
     Transform (fun previous => "Why " +:+ previous +:+ "?")] in
  let out := run env (snd started) (Automator.processChain chain (fst (fst started))) in
  snd (fst out) = inr ["reply 1"; "reply 2"; "reply 3"]
  /\ fills (snd out) = ["Name a fruit."; "What color is reply 1?"; "Why reply 2?"]
  /\ exists responses, snd (fst out) = inr responses.
Proof.
  pose proof (processChain_sequential
    (World.play World.numbered_replies)
    (fst (fst (run (World.play World.numbered_replies) []
                 (Automator.init World.linux World.bot))))
    [Literal "Name a fruit."; Literal "What color is {}?";
     Transform (fun previous => "Why " +:+ previous +:+ "?")]
    (snd (run (World.play World.numbered_replies) []
            (Automator.init World.linux World.bot)))) as (Hrun & Hsent & Hreturns & _).
  cbv zeta in *.
  split; [exact (f_equal (fun o => snd (fst o)) Hrun)|].
  split.
  - exact (proj2 (proj2 (Hsent ["reply 1"; "reply 2"; "reply 3"]
                           (f_equal (fun o => snd (fst o)) Hrun)))).
  - exists ["reply 1"; "reply 2"; "reply 3"].
    exact (f_equal (fun o => snd (fst o)) Hrun).
Defined.

(* ===================================================================== *)
(** * Templating: the leftmost token and the dollar patterns *)
(* ===================================================================== *)

Lemma append_cons (c : ascii) (a b : string) :
  String c a +:+ b = String c (a +:+ b).
Proof. reflexivity. Qed.

Lemma append_nil (b : string) : "" +:+ b = b.
Proof. reflexivity. Qed.

Lemma prefix_skip (pat s : string) :
  String.prefix pat s = true -> s = pat +:+ JsString.skip (String.length pat) s.
Proof.
  revert s; induction pat as [|c pat IH]; intros s H; [reflexivity|].
  destruct s as [|d s]; [discriminate|].
  apply prefix_cons in H as [-> H]. cbn [String.length JsString.skip].
  rewrite append_cons. f_equal. by apply IH.
Qed.

Lemma prefix_append (pat s : string) : String.prefix pat (pat +:+ s) = true.
Proof.
  induction pat as [|c pat IH]; [by destruct s|].
  rewrite append_cons. apply prefix_cons. by split.
Qed.

Lemma split_first_sound (pat s before after : string) :
  JsString.split_first pat s = Some (before, after) ->
  s = before +:+ pat +:+ after.
Proof.
  revert before after; induction s as [|c s IH]; intros before after H.
  - destruct pat as [|p pat]; [|discriminate]. by injection H as <- <-.
  - cbn [JsString.split_first] in H.
    destruct (String.prefix pat (String c s)) eqn:Hp.
    + injection H as <- <-. by apply prefix_skip.
    + destruct (JsString.split_first pat s) as [[b a]|]; [|discriminate].
      injection H as <- <-. rewrite append_cons. f_equal. by apply IH.
Qed.

Lemma split_first_leftmost (pat s before after : string) :
  JsString.split_first pat s = Some (before, after) ->
  forall before' after', s = before' +:+ pat +:+ after' ->
  String.length before <= String.length before'.
Proof.
  revert before after; induction s as [|c s IH]; intros before after H b' a' Hs.
  - destruct pat as [|p pat]; [|discriminate]. injection H as <- <-. cbn. lia.
  - cbn [JsString.split_first] in H.
    destruct (String.prefix pat (String c s)) eqn:Hp.
    + injection H as <- <-. cbn. lia.
    + destruct (JsString.split_first pat s) as [[b a]|] eqn:Hrec; [|discriminate].
      injection H as <- <-.
      destruct b' as [|d b'].
      * rewrite append_nil in Hs. rewrite Hs, prefix_append in Hp. discriminate.
      * rewrite append_cons in Hs. injection Hs as -> Hs. cbn [String.length].
        specialize (IH b a eq_refl b' a' Hs). lia.
Qed.

Lemma split_first_here (pat s : string) :
  String.prefix pat s = true ->
  JsString.split_first pat s = Some ("", JsString.skip (String.length pat) s).
Proof. intros H. destruct s; cbn [JsString.split_first]; by rewrite H. Qed.

Lemma split_first_complete (pat before after : string) :
  exists b a, JsString.split_first pat (before +:+ pat +:+ after) = Some (b, a).
Proof.
  induction before as [|c before IH].
  - rewrite append_nil, split_first_here by apply prefix_append. eauto.
  - rewrite append_cons. cbn [JsString.split_first].
    destruct (String.prefix pat _); [eauto|].
    destruct IH as (b & a & ->). eauto.
Qed.

(** [includes] finds exactly the texts that contain the pattern. *)
Lemma includes_iff (s pat : string) :
  JsString.includes s pat = true <-> exists before after, s = before +:+ pat +:+ after.
Proof.
  unfold JsString.includes. split.
  - destruct (JsString.split_first pat s) as [[b a]|] eqn:H; [|discriminate].
    intros _. exists b, a. by apply split_first_sound.
  - intros (b & a & ->). by destruct (split_first_complete pat b a) as (b' & a' & ->).
Qed.

Lemma getSubstitution_plain (matched before after r rest : string) :
  has_dollar r = false ->
  JsString.getSubstitution matched before after (r +:+ rest)
  = r +:+ JsString.getSubstitution matched before after rest.
Proof.
  induction r as [|c r IH]; intros H; [reflexivity|].
  cbn in H. apply orb_false_iff in H as [Hc Hr].
  rewrite !append_cons. cbn [JsString.getSubstitution]. rewrite Hc. f_equal. by apply IH.
Qed.

Lemma append_empty_r (s : string) : s +:+ "" = s.
Proof. induction s as [|c s IH]; [reflexivity|]. rewrite append_cons. by f_equal. Qed.

Lemma getSubstitution_no_dollar (matched before after r : string) :
  has_dollar r = false ->
  JsString.getSubstitution matched before after r = r.
Proof.
  intros H. rewrite <- (append_empty_r r) at 1.
  rewrite getSubstitution_plain by exact H. apply append_empty_r.
Qed.

(** X1.  When the previous response contains no dollar sign, a literal
    element with a [{}] token is sent with its leftmost [{}] replaced by the
    response and everything else, later tokens included, as it was. *)
Theorem resolvePrompt_replaces_leftmost_token (text previous before after : string) :
  has_dollar previous = false ->
  JsString.split_first "{}" text = Some (before, after) ->
  text = before +:+ "{}" +:+ after
  /\ (forall before' after', text = before' +:+ "{}" +:+ after' ->
      String.length before <= String.length before')
  /\ resolvePrompt (Literal text) previous = before +:+ previous +:+ after.
Proof.
  intros Hplain Hsplit. split; [by apply split_first_sound|]. split.
  - by apply (split_first_leftmost "{}" text before after).
  - unfold resolvePrompt, JsString.replace, JsString.includes. rewrite Hsplit.
    by rewrite getSubstitution_no_dollar.
Qed.

Lemma resolvePrompt_replaces_leftmost_token_witness :
  resolvePrompt (Literal "Compare {} with {}") "mango" = "Compare mango with {}".
Proof.
  exact (proj2 (proj2 (resolvePrompt_replaces_leftmost_token
           "Compare {} with {}" "mango" "Compare " " with {}" eq_refl eq_refl))).
Defined.

(** X2.  The previous response is not always inserted as it is: in it,
    [replace] reads [$$] as one dollar sign and [$&] as the matched token
    [{}]. *)
Theorem resolvePrompt_dollar_patterns (text r1 r2 before after : string) :
  has_dollar r1 = false ->
  has_dollar r2 = false ->
  JsString.split_first "{}" text = Some (before, after) ->
  resolvePrompt (Literal text) (r1 +:+ "$$" +:+ r2)
    = before +:+ (r1 +:+ "$" +:+ r2) +:+ after
  /\ resolvePrompt (Literal text) (r1 +:+ "$&" +:+ r2)
     = before +:+ (r1 +:+ "{}" +:+ r2) +:+ after.
Proof.
  intros H1 H2 Hsplit.
  unfold resolvePrompt, JsString.replace, JsString.includes. rewrite Hsplit.
  change ("$$" +:+ r2) with (String "$"%char (String "$"%char r2)).
  change ("$&" +:+ r2) with (String "$"%char (String "&"%char r2)).
  rewrite (getSubstitution_plain _ _ _ r1 (String "$"%char (String "$"%char r2)))
    by exact H1.
  rewrite (getSubstitution_plain _ _ _ r1 (String "$"%char (String "&"%char r2)))
    by exact H1.
  cbn [JsString.getSubstitution]. cbn.
  rewrite !getSubstitution_no_dollar by exact H2. split; reflexivity.
Qed.

Lemma resolvePrompt_dollar_patterns_witness :
  resolvePrompt (Literal "Is {} cheap?") "It costs $$5" = "Is It costs $5 cheap?".
Proof.
  exact (proj1 (resolvePrompt_dollar_patterns "Is {} cheap?" "It costs " "5"
                  "Is " " cheap?" eq_refl eq_refl eq_refl)).
Defined.

(* ===================================================================== *)
(** * ChatGPTProvider: dialogs, submission, completion, extraction *)
(* ===================================================================== *)

Lemma mwp_any {S A : Type} (m : M S A) (s : S) (tr : trace)
    (Q : trace -> S -> JsError + A -> Prop) :
  (forall tr' s' r, Q tr' s' r) -> mwp m s tr Q.
Proof.
  intros H. eapply wp_mono; [apply wp_trivial|]. intros tr' [s' r] _. apply H.
Qed.

(** Two postconditions at once. *)
Lemma wp_conj {X : Type} (p : IO X) (tr : trace) (Q1 Q2 : trace -> X -> Prop) :
  wp p tr Q1 -> wp p tr Q2 -> wp p tr (fun tr' x => Q1 tr' x /\ Q2 tr' x).
Proof.
  revert tr; induction p as [x | R op k IH | sink l msg k IH]; intros tr; cbn.
  - by split.
  - intros H1 H2 res. by apply IH.
  - intros H1 H2. by apply IH.
Qed.

Lemma mwp_conj {S A : Type} (m : M S A) (s : S) (tr : trace)
    (Q1 Q2 : trace -> S -> JsError + A -> Prop) :
  mwp m s tr Q1 -> mwp m s tr Q2 ->
  mwp m s tr (fun tr' s' r => Q1 tr' s' r /\ Q2 tr' s' r).
Proof. apply wp_conj. Qed.

Lemma unobserved_provider_before_polling (f : Event -> bool) :
  unobserved_by_provider f -> unobserved_before_polling f.
Proof. intros H. split; intros; apply H. Qed.

Ltac provider_frame H :=
  rewrite ?count_app; unfold count; cbn [List.filter];
  rewrite ?(up_log _ H), ?(up_goto _ H), ?(up_wait _ H), ?(up_click _ H),
    ?(up_fill _ H), ?(up_visible _ H), ?(up_disabled _ H), ?(up_pause _ H),
    ?(up_shot _ H), ?(up_query_all _ H), ?(up_query_in _ H), ?(up_text _ H),
    ?(up_otp _ H);
  cbn [length List.filter]; rewrite ?Nat.add_0_r; try reflexivity.

(** X3.  [handleDialogs] never throws, whatever the page does: a failing
    dismissal is swallowed.  It does not navigate and types nothing. *)
Theorem handleDialogs_never_throws (env : Env) (this : ChatGPTProvider.t)
    (tr : trace) :
  let out := run env tr (ChatGPTProvider.handleDialogs this tt) in
  fst out = (tt, inr tt)
  /\ count is_goto (snd out) = count is_goto tr
  /\ fills (snd out) = fills tr.
Proof.
  cbn zeta.
  pose proof (mwp_run env _ tt tr _
                (handleDialogs_wp this is_goto tr
                   ltac:(reflexivity) ltac:(reflexivity) ltac:(reflexivity))) as [H1 H2].
  pose proof (mwp_run env _ tt tr _ (handleDialogs_fills this tr)) as [_ H3].
  destruct (run env tr (ChatGPTProvider.handleDialogs this tt)) as [[[] r] tr'].
  cbn [fst snd] in *. by subst r.
Qed.

(** X4.  Whatever goes wrong while the prompt is typed and sent,
    [submitPrompt] throws "Failed to send prompt: " followed by the text of
    the driver's error; when it returns, the prompt is the one text it has
    typed. *)
Theorem submitPrompt_wraps_failures (env : Env) (this : ChatGPTProvider.t)
    (prompt : string) (tr : trace) :
  let out := run env tr (ChatGPTProvider.submitPrompt this prompt tt) in
  match snd (fst out) with
  | inr _ => fills (snd out) = fills tr ++ [prompt]
  | inl e =>
      exists pre R (op : Op R) cause,
        snd out = pre ++ [EvCall op (inl cause)]
        /\ e = Error ("Failed to send prompt: " +:+ toString cause)
  end.
Proof.
  cbn zeta.
  apply (mwp_run env (ChatGPTProvider.submitPrompt this prompt) tt tr
           (fun tr' _ r =>
              match r with
              | inr _ => fills tr' = fills tr ++ [prompt]
              | inl e =>
                  exists pre R (op : Op R) cause,
                    tr' = pre ++ [EvCall op (inl cause)]
                    /\ e = Error ("Failed to send prompt: " +:+ toString cause)
              end)).
  unfold ChatGPTProvider.submitPrompt.
  repeat mwp_step.
  all: try (fills_frame; reflexivity).
  all: do 4 eexists; split; reflexivity.
Qed.

(** X5.  Once the stop/generating indicator has appeared, [awaitCompletion]
    returns as soon as it is hidden again, without looking at the send
    control.  If it is still there after 120 seconds, the timeout is treated
    like the indicator never having appeared: the call returns when the send
    control is visible and fails with [ResponseTimeoutError] when it is
    not. *)
Theorem awaitCompletion_after_generation (env : Env) (this : ChatGPTProvider.t)
    (tr : trace) :
  let pg := ChatGPTProvider.page this in
  let stop := ChatGPTProvider.sel this "stop_btn" in
  let appear := WaitForSelector pg stop None (Some 5000%N) in
  let gone := WaitForSelector pg stop (Some "hidden") (Some 120000%N) in
  let send_visible := IsVisible pg (ChatGPTProvider.sel this "send_btn") in
  let tr1 := tr ++ [EvLog (ChatGPTProvider.logger this) info "Waiting for response..."] in
  env _ tr1 appear = inr tt ->
  let tr2 := tr1 ++ [EvCall appear (inr tt)] in
  (env _ tr2 gone = inr tt ->
   run env tr (ChatGPTProvider.awaitCompletion this tt)
   = ((tt, inr tt), tr2 ++ [EvCall gone (inr tt)]))
  /\ (forall e, env _ tr2 gone = inl e ->
      fst (run env tr (ChatGPTProvider.awaitCompletion this tt))
      = (tt, match env _ (tr2 ++ [EvCall gone (inl e)]) send_visible with
             | inl e' => inl e'
             | inr true => inr tt
             | inr false => inl ResponseTimeoutError
             end)).
Proof.
  cbn zeta. intros Happear. unfold ChatGPTProvider.awaitCompletion. split.
  - intros Hgone. cbn. rewrite Happear. cbn. rewrite Hgone. reflexivity.
  - intros e Hgone. cbn. rewrite Happear. cbn. rewrite Hgone. cbn.
    destruct (env bool _ (IsVisible _ _)) as [e'|[|]]; reflexivity.
Qed.

Lemma awaitCompletion_after_generation_witness :
  fst (run (World.play (Scenario.slow_generation true)) []
         (ChatGPTProvider.awaitCompletion World.chatgpt tt))
  = (tt, inr tt).
Proof.
  exact (proj2 (awaitCompletion_after_generation
                  (World.play (Scenario.slow_generation true)) World.chatgpt []
                  eq_refl) World.TimeoutError eq_refl).
Defined.

(** X6.  When assistant messages are on the page, [extractResponse] reads
    the last one: the text of its markdown body if it has one, its own text
    otherwise.  With no message on the page it fails with "No assistant
    messages found.", which it logs first. *)
Theorem extractResponse_reads_last_message (env : Env) (this : ChatGPTProvider.t)
    (tr : trace) (msgs : list handle) :
  let pg := ChatGPTProvider.page this in
  let selector := ChatGPTProvider.sel this "assistant_msg" in
  let wait := WaitForSelector pg selector None (Some 5000%N) in
  env _ tr wait = inr tt ->
  let tr1 := tr ++ [EvCall wait (inr tt)] in
  env _ tr1 (QueryAll pg selector) = inr msgs ->
  let tr2 := tr1 ++ [EvCall (QueryAll pg selector) (inr msgs)] in
  let out := run env tr (ChatGPTProvider.extractResponse this tt) in
  match last msgs with
  | None =>
      out = ((tt, inl (Error "No assistant messages found.")),
             tr2 ++ [EvLog (ChatGPTProvider.logger this) error
                       "Failed to extract response: Error: No assistant messages found."])
  | Some lastMsg =>
      let body := env _ tr2 (QueryIn lastMsg ".markdown") in
      let tr3 := tr2 ++ [EvCall (QueryIn lastMsg ".markdown") body] in
      snd (fst out) =
      match body with
      | inl e => inl e
      | inr (Some md) => env _ tr3 (InnerText md)
      | inr None => env _ tr3 (InnerText lastMsg)
      end
  end.
Proof.
  cbn zeta. intros Hwait Hall. unfold ChatGPTProvider.extractResponse.
  cbn. rewrite Hwait. cbn. rewrite Hall. cbn.
  destruct (last msgs) as [lastMsg|]; cbn; [|reflexivity].
  destruct (env (option handle) _ (QueryIn lastMsg ".markdown")) as [e|[md|]]; cbn;
    [reflexivity| |].
  - destruct (env string _ (InnerText md)) as [e|text]; reflexivity.
  - destruct (env string _ (InnerText lastMsg)) as [e|text]; reflexivity.
Qed.

Lemma extractResponse_reads_last_message_witness :
  snd (fst (run Scenario.plain_messages []
              (ChatGPTProvider.extractResponse World.chatgpt tt)))
  = inr "message 9".
Proof.
  exact (extractResponse_reads_last_message Scenario.plain_messages World.chatgpt []
           [7; 8; 9] eq_refl eq_refl).
Defined.

(** X7.  Every error [extractResponse] throws was logged, as the last thing
    it did, with the text "Failed to extract response: " and the error. *)
Theorem extractResponse_logs_failures (env : Env) (this : ChatGPTProvider.t)
    (tr : trace) :
  let out := run env tr (ChatGPTProvider.extractResponse this tt) in
  forall e, snd (fst out) = inl e ->
  exists pre,
    snd out = pre ++ [EvLog (ChatGPTProvider.logger this) error
                        ("Failed to extract response: " +:+ toString e)].
Proof.
  cbn zeta.
  apply (mwp_run env (ChatGPTProvider.extractResponse this) tt tr
           (fun tr' _ r => forall e, r = inl e ->
              exists pre,
                tr' = pre ++ [EvLog (ChatGPTProvider.logger this) error
                                ("Failed to extract response: " +:+ toString e)])).
  unfold ChatGPTProvider.extractResponse.
  repeat mwp_step.
  all: intros e' He; try discriminate.
  all: injection He as <-; eexists; reflexivity.
Qed.

Lemma extractResponse_logs_failures_witness :
  exists pre,
    snd (run (World.play World.signed_out) []
           (ChatGPTProvider.extractResponse
              (ChatGPTProvider.new 2 (Some {[ "assistant_msg" := World.profile_btn ]})
                 None None) tt))
    = pre ++ [EvLog Console error
                ("Failed to extract response: " +:+ toString World.TimeoutError)].
Proof.
  exact (extractResponse_logs_failures (World.play World.signed_out)
           (ChatGPTProvider.new 2 (Some {[ "assistant_msg" := World.profile_btn ]})
              None None) [] World.TimeoutError eq_refl).
Defined.

(* ===================================================================== *)
(** * ChatGPTProvider.login: the ways through the flow *)
(* ===================================================================== *)

Lemma otp_codes_app (tr1 tr2 : trace) :
  otp_codes (tr1 ++ tr2) = otp_codes tr1 ++ otp_codes tr2.
Proof. unfold otp_codes. apply flat_map_app. Qed.

Lemma run_handleDialogs (env : Env) (this : ChatGPTProvider.t) (tr : trace) :
  run env tr (ChatGPTProvider.handleDialogs this tt)
  = ((tt, inr tt), snd (run env tr (ChatGPTProvider.handleDialogs this tt))).
Proof.
  pose proof (mwp_run env _ tt tr _ (handleDialogs_fills this tr)) as [H _].
  destruct (run env tr (ChatGPTProvider.handleDialogs this tt)) as [[[] r] tr'].
  cbn [fst snd] in *. by subst r.
Qed.

(** X8.  If the profile marker shows within three seconds of opening the
    application, [login] returns [true] at once: it clicks no login button,
    asks for no credentials (they may be absent) and types nothing. *)
Theorem login_already_logged_in (env : Env) (this : ChatGPTProvider.t)
    (c : Credentials) (tr : trace) :
  let pg := ChatGPTProvider.page this in
  let goto := Goto pg ChatGPTProvider.URL None in
  let marker :=
    WaitForSelector pg (ChatGPTProvider.sel this "profile_btn") None (Some 3000%N) in
  let tr1 :=
    tr ++ [EvLog (ChatGPTProvider.logger this) info "Starting login process..."] in
  env _ tr1 goto = inr tt ->
  let tr2 :=
    snd (run env (tr1 ++ [EvCall goto (inr tt)])
           (ChatGPTProvider.handleDialogs this tt)) in
  env _ tr2 marker = inr tt ->
  let out := run env tr (ChatGPTProvider.login this c tt) in
  out = ((tt, inr true),
         (tr2 ++ [EvCall marker (inr tt)])
           ++ [EvLog (ChatGPTProvider.logger this) info "Already logged in."])
  /\ fills (snd out) = fills tr.
Proof.
  cbn zeta. intros Hgoto Hmarker.
  assert (Hout : run env tr (ChatGPTProvider.login this c tt) =
    ((tt, inr true),
     (snd (run env ((tr ++ [EvLog (ChatGPTProvider.logger this) info
                              "Starting login process..."])
                    ++ [EvCall (Goto (ChatGPTProvider.page this) ChatGPTProvider.URL None)
                          (inr tt)])
             (ChatGPTProvider.handleDialogs this tt))
        ++ [EvCall (WaitForSelector (ChatGPTProvider.page this)
                      (ChatGPTProvider.sel this "profile_btn") None (Some 3000%N))
              (inr tt)])
       ++ [EvLog (ChatGPTProvider.logger this) info "Already logged in."])).
  { unfold ChatGPTProvider.login, ChatGPTProvider.reachCredentialEntry.
    rewrite run_mbind. rewrite run_mbind. cbn [log run].
    rewrite run_mbind. cbn [await run]. rewrite Hgoto. cbn [run].
    rewrite run_mbind, run_handleDialogs.
    rewrite run_mbind, run_try_catch, run_mbind. cbn [await run].
    rewrite Hmarker. cbn [run]. rewrite run_mbind. reflexivity. }
  rewrite Hout. split; [reflexivity|]. cbn [snd]. fills_frame.
  pose proof (mwp_run env _ tt _ _ (handleDialogs_fills this
    ((tr ++ [EvLog (ChatGPTProvider.logger this) info "Starting login process..."])
     ++ [EvCall (Goto (ChatGPTProvider.page this) ChatGPTProvider.URL None) (inr tt)])))
    as [_ ->].
  fills_frame. reflexivity.
Qed.

Lemma login_already_logged_in_witness :
  fst (run (World.play World.signed_in) []
         (ChatGPTProvider.login World.chatgpt (mkCredentials None None None) tt))
  = (tt, inr true).
Proof.
  exact (f_equal fst (proj1 (login_already_logged_in (World.play World.signed_in)
                               World.chatgpt (mkCredentials None None None) []
                               eq_refl eq_refl))).
Defined.

Lemma pollLoop_quiet (env : Env) (this : ChatGPTProvider.t) (n : nat) (tr : trace) :
  all_quiet env this n tr ->
  run env tr (ChatGPTProvider.pollLoop this n tt) = ((tt, inr None), polls this n tr).
Proof.
  revert tr; induction n as [|n IH]; intros tr H; [reflexivity|].
  destruct H as (Hp & Ho & Hw & Hrest).
  cbn [polls]. rewrite <- (IH (quiet_poll this tr) Hrest).
  cbn. rewrite Hp. cbn. rewrite Ho. cbn. rewrite Hw. reflexivity.
Qed.

(** X9.  When neither the profile marker nor the OTP input shows during the
    30 polls, [awaitResult] has waited 30 times one second and then makes
    one 30-second wait for the profile marker, whose outcome is its own:
    [true] if the marker appears, the wait's error if it does not. *)
Theorem awaitResult_after_quiet_polls (env : Env) (this : ChatGPTProvider.t)
    (tr : trace) :
  let tr1 := tr ++ [EvLog (ChatGPTProvider.logger this) info
                      "Waiting for authentication or OTP..."] in
  all_quiet env this 30 tr1 ->
  let tr2 := polls this 30 tr1 in
  let final := WaitForSelector (ChatGPTProvider.page this)
                 (ChatGPTProvider.sel this "profile_btn") None (Some 30000%N) in
  let out := run env tr (ChatGPTProvider.awaitResult this tt) in
  fst out = (tt, match env _ tr2 final with inl e => inl e | inr _ => inr true end)
  /\ count is_poll_wait (snd out) = count is_poll_wait tr + 30
  /\ count is_long_wait (snd out) = count is_long_wait tr + 1.
Proof.
  cbn zeta. intros Hquiet. unfold ChatGPTProvider.awaitResult.
  rewrite run_mbind. cbn [log run]. rewrite run_mbind.
  rewrite (pollLoop_quiet env this 30 _ Hquiet).
  destruct (count_polls this 30
              (tr ++ [EvLog (ChatGPTProvider.logger this) info
                        "Waiting for authentication or OTP..."])) as [Hp Hl].
  rewrite count_app in Hp, Hl.
  remember (polls this 30 _) as trq eqn:Htrq. clear Htrq Hquiet.
  rewrite run_mbind. cbn [await run].
  destruct (env unit trq (WaitForSelector _ _ None (Some 30000%N))) as [e|[]];
    cbn [run fst snd].
  - rewrite !count_app. cbn in *. repeat split; lia.
  - rewrite run_mbind. cbn [log ret run fst snd]. rewrite !count_app.
    cbn in *. repeat split; lia.
Qed.

Lemma awaitResult_after_quiet_polls_witness :
  fst (run (World.play World.signed_out) []
         (ChatGPTProvider.awaitResult World.chatgpt tt))
  = (tt, inl World.TimeoutError).
Proof.
  refine (proj1 (awaitResult_after_quiet_polls (World.play World.signed_out)
                   World.chatgpt [] _)).
  vm_compute. repeat split.
Defined.

Lemma pollLoop_signed_in (env : Env) (this : ChatGPTProvider.t) (k n : nat)
    (tr : trace) :
  k < n ->
  signed_in_at env this k tr ->
  run env tr (ChatGPTProvider.pollLoop this n tt)
  = ((tt, inr (Some true)),
     (polls this k tr
        ++ [EvCall (IsVisible (ChatGPTProvider.page this)
                      (ChatGPTProvider.sel this "profile_btn")) (inr true)])
       ++ [EvLog (ChatGPTProvider.logger this) info "Login successful."]).
Proof.
  revert n tr; induction k as [|k IH]; intros n tr Hlt H.
  - destruct n as [|n]; [lia|]. cbn in H. cbn. rewrite H. reflexivity.
  - destruct n as [|n]; [lia|]. destruct H as (Hp & Ho & Hw & Hrest).
    cbn [polls]. rewrite <- (IH n (quiet_poll this tr)); [|lia|exact Hrest].
    cbn. rewrite Hp. cbn. rewrite Ho. cbn. rewrite Hw. reflexivity.
Qed.

(** X10.  When the profile marker becomes visible in iteration [k] of the
    polling loop, [awaitResult] returns [true] in that iteration, after [k]
    one-second waits and without the 30-second wait; the check of the
    profile marker comes first, so the OTP input is not looked at in that
    iteration. *)
Theorem awaitResult_signed_in_while_polling (env : Env) (this : ChatGPTProvider.t)
    (k : nat) (tr : trace) :
  let tr1 := tr ++ [EvLog (ChatGPTProvider.logger this) info
                      "Waiting for authentication or OTP..."] in
  k < 30 ->
  signed_in_at env this k tr1 ->
  let out := run env tr (ChatGPTProvider.awaitResult this tt) in
  out = ((tt, inr true),
         (polls this k tr1
            ++ [EvCall (IsVisible (ChatGPTProvider.page this)
                          (ChatGPTProvider.sel this "profile_btn")) (inr true)])
           ++ [EvLog (ChatGPTProvider.logger this) info "Login successful."])
  /\ count is_poll_wait (snd out) = count is_poll_wait tr + k
  /\ count is_long_wait (snd out) = count is_long_wait tr.
Proof.
  cbn zeta. intros Hk Hin. unfold ChatGPTProvider.awaitResult.
  rewrite run_mbind. cbn [log run]. rewrite run_mbind.
  rewrite (pollLoop_signed_in env this k 30 _ Hk Hin).
  split; [reflexivity|]. cbn [run ret snd].
  destruct (count_polls this k
              (tr ++ [EvLog (ChatGPTProvider.logger this) info
                        "Waiting for authentication or OTP..."])) as [Hp Hl].
  rewrite count_app in Hp, Hl.
  remember (polls this k _) as trq eqn:Htrq. clear Htrq Hin.
  rewrite !count_app. cbn in *. split; lia.
Qed.

Lemma awaitResult_signed_in_while_polling_witness :
  count is_poll_wait
    (snd (run (World.play Scenario.signs_in_after_two_polls) []
            (ChatGPTProvider.awaitResult World.chatgpt tt)))
  = 2.
Proof.
  refine (proj1 (proj2 (awaitResult_signed_in_while_polling
                          (World.play Scenario.signs_in_after_two_polls)
                          World.chatgpt 2 [] _ _))).
  - lia.
  - vm_compute. repeat split.
Defined.

Lemma fills_polls (this : ChatGPTProvider.t) (k : nat) (tr : trace) :
  fills (polls this k tr) = fills tr /\ otp_codes (polls this k tr) = otp_codes tr.
Proof.
  revert tr; induction k as [|k IH]; intros tr; cbn [polls]; [by split|].
  destruct (IH (quiet_poll this tr)) as [-> ->]. unfold quiet_poll.
  rewrite !fills_app, !otp_codes_app. cbn. by rewrite !app_nil_r.
Qed.

Lemma pollLoop_reaches_otp (env : Env) (this : ChatGPTProvider.t) (k n : nat)
    (tr : trace) :
  k < n ->
  otp_shown_at env this k tr ->
  run env tr (ChatGPTProvider.pollLoop this n tt)
  = run env
      ((polls this k tr
          ++ [EvCall (IsVisible (ChatGPTProvider.page this)
                        (ChatGPTProvider.sel this "profile_btn")) (inr false)])
         ++ [EvCall (IsVisible (ChatGPTProvider.page this)
                       (ChatGPTProvider.sel this "otp_input")) (inr true)])
      ((b <- ChatGPTProvider.otpChallenge this ;; ret (Some b)) tt).
Proof.
  revert n tr; induction k as [|k IH]; intros n tr Hlt Hotp.
  - destruct n as [|n]; [lia|]. destruct Hotp as [Hp Ho].
    cbn [polls ChatGPTProvider.pollLoop].
    rewrite run_mbind. cbn [await run]. rewrite Hp. cbn [run].
    rewrite run_mbind. cbn [await run]. rewrite Ho. cbn [run]. reflexivity.
  - destruct n as [|n]; [lia|]. destruct Hotp as (Hp & Ho & Hw & Hrest).
    cbn [polls]. rewrite <- (IH n (quiet_poll this tr)); [|lia|exact Hrest].
    cbn [ChatGPTProvider.pollLoop].
    rewrite run_mbind. cbn [await run]. rewrite Hp. cbn [run].
    rewrite run_mbind. cbn [await run]. rewrite Ho. cbn [run].
    rewrite run_mbind. cbn [await run]. rewrite Hw. cbn [run]. reflexivity.
Qed.

(** X11.  With an OTP supplier configured, the iteration that finds the OTP
    input asks the supplier once, types the passcode it hands over into the
    OTP input, clicks the validate control and makes one 30-second wait for
    the profile marker, whose outcome is the outcome of [awaitResult]; the
    polling does not go on. *)
Theorem otp_with_supplier (env : Env) (this : ChatGPTProvider.t)
    (callback : OtpCallback) (k : nat) (code : string) (tr : trace) :
  let pg := ChatGPTProvider.page this in
  let tr1 := tr ++ [EvLog (ChatGPTProvider.logger this) info
                      "Waiting for authentication or OTP..."] in
  ChatGPTProvider.onOtpRequired this = Some callback ->
  k < 30 ->
  otp_shown_at env this k tr1 ->
  let detected := otp_detected this (polls this k tr1) in
  env _ detected OnOtpRequired = inr code ->
  let asked := detected ++ [EvCall OnOtpRequired (inr code)] in
  let fill := Fill pg (ChatGPTProvider.sel this "otp_input") code in
  env _ asked fill = inr tt ->
  let click := Click pg (ChatGPTProvider.sel this "otp_validate") in
  env _ (asked ++ [EvCall fill (inr tt)]) click = inr tt ->
  let submitted :=
    ((asked ++ [EvCall fill (inr tt)]) ++ [EvCall click (inr tt)])
      ++ [EvLog (ChatGPTProvider.logger this) info
            "OTP submitted. Waiting for authentication..."] in
  let final :=
    WaitForSelector pg (ChatGPTProvider.sel this "profile_btn") None (Some 30000%N) in
  let out := run env tr (ChatGPTProvider.awaitResult this tt) in
  fst out = (tt, match env _ submitted final with inl e => inl e | inr _ => inr true end)
  /\ fills (snd out) = fills tr ++ [code]
  /\ otp_codes (snd out) = otp_codes tr ++ [code]
  /\ count is_poll_wait (snd out) = count is_poll_wait tr + k.
Proof.
  cbn zeta. intros Hcb Hk Hotp Hcode Hfill Hclick.
  unfold ChatGPTProvider.awaitResult.
  rewrite run_mbind. cbn [log run]. rewrite run_mbind.
  rewrite (pollLoop_reaches_otp env this k 30 _ Hk Hotp).
  unfold otp_detected in *.
  destruct (fills_polls this k
              (tr ++ [EvLog (ChatGPTProvider.logger this) info
                        "Waiting for authentication or OTP..."])) as [Hf Hc].
  destruct (count_polls this k
              (tr ++ [EvLog (ChatGPTProvider.logger this) info
                        "Waiting for authentication or OTP..."])) as [Hp _].
  rewrite fills_app in Hf. rewrite otp_codes_app in Hc. rewrite count_app in Hp.
  remember (polls this k _) as trq eqn:Htrq. clear Htrq Hotp.
  unfold ChatGPTProvider.otpChallenge. rewrite Hcb.
  cbn -[count fills otp_codes]. rewrite Hcode.
  cbn -[count fills otp_codes]. rewrite Hfill.
  cbn -[count fills otp_codes]. rewrite Hclick.
  cbn -[count fills otp_codes].
  destruct (env unit _ (WaitForSelector _ _ None (Some 30000%N))) as [e|[]];
    cbn -[count fills otp_codes].
  all: rewrite !fills_app, !otp_codes_app, !count_app.
  all: cbn in *; rewrite ?app_nil_r in *; rewrite Hf, Hc; repeat split; lia.
Qed.

Lemma otp_with_supplier_witness :
  let out := run (World.play Scenario.otp_then_signed_in) []
               (ChatGPTProvider.awaitResult Scenario.chatgpt_with_otp tt) in
  fst out = (tt, inr true) /\ fills (snd out) = ["123456"].
Proof.
  pose proof (otp_with_supplier (World.play Scenario.otp_then_signed_in)
                Scenario.chatgpt_with_otp otpCallback 2 "123456" []) as H.
  cbn zeta in H.
  specialize (H eq_refl ltac:(lia) ltac:(vm_compute; repeat split)
                eq_refl eq_refl eq_refl) as (H1 & H2 & _).
  split; [exact H1|exact H2].
Defined.

(* ===================================================================== *)
(** * ChatGPTProvider: what the flows never do *)
(* ===================================================================== *)

Lemma otpChallenge_frame (f : Event -> bool) (this : ChatGPTProvider.t) (tr : trace) :
  unobserved_by_provider f ->
  mwp (ChatGPTProvider.otpChallenge this) tt tr (fun tr' _ _ =>
    count f tr' = count f tr).
Proof.
  intros Hf. unfold ChatGPTProvider.otpChallenge.
  repeat mwp_step. all: provider_frame Hf.
Qed.

Lemma pollLoop_frame (f : Event -> bool) (this : ChatGPTProvider.t) (n : nat) :
  unobserved_by_provider f ->
  forall tr, mwp (ChatGPTProvider.pollLoop this n) tt tr (fun tr' _ _ =>
    count f tr' = count f tr).
Proof.
  intros Hf. induction n as [|n IH]; intros tr; cbn [ChatGPTProvider.pollLoop].
  - by mwp_step.
  - cbv zeta. mwp_step. mwp_step; [provider_frame Hf|].
    mwp_step; [repeat mwp_step; provider_frame Hf|].
    mwp_step. mwp_step; [provider_frame Hf|].
    mwp_step.
    + mwp_step. eapply mwp_mono; [apply (otpChallenge_frame f this _ Hf)|].
      intros tr' [] [err|ok] Hc; cbv beta iota; [|mwp_step];
        rewrite Hc; provider_frame Hf.
    + mwp_step. mwp_step; [provider_frame Hf|].
      eapply mwp_mono; [apply IH|]. intros tr' [] r Hc. cbv beta.
      rewrite Hc. provider_frame Hf.
Qed.

Lemma login_frame (f : Event -> bool) (this : ChatGPTProvider.t) (c : Credentials)
    (tr : trace) :
  unobserved_by_provider f ->
  mwp (ChatGPTProvider.login this c) tt tr (fun tr' _ _ => count f tr' = count f tr).
Proof.
  intros Hf. unfold ChatGPTProvider.login. mwp_step.
  eapply mwp_mono;
    [apply (reachCredentialEntry_frame f this c tr),
       unobserved_provider_before_polling, Hf|].
  intros tr1 [] [err|[ok|]] H1; cbv beta iota; [exact H1|by mwp_step|].
  mwp_step. mwp_step.
  eapply mwp_mono;
    [apply (credentialEntry_frame f), unobserved_provider_before_polling, Hf|].
  intros tr2 [] [err|[]] H2; cbv beta iota.
  - unfold ChatGPTProvider.loginFailed. repeat mwp_step.
    all: rewrite ?count_app, H2, H1; provider_frame Hf.
  - unfold ChatGPTProvider.awaitResult. mwp_step. mwp_step. mwp_step.
    eapply mwp_mono; [apply (pollLoop_frame f this 30 Hf)|].
    intros tr3 [] r H3. cbv beta.
    assert (Hc : count f tr3 = count f tr).
    { rewrite H3. rewrite count_app, H2, H1. provider_frame Hf. }
    destruct r as [err|[ok|]]; cbv beta iota;
      unfold ChatGPTProvider.loginFailed; repeat mwp_step.
    all: rewrite ?count_app, Hc; provider_frame Hf.
Qed.

Lemma sendPrompt_frame (f : Event -> bool) (this : ChatGPTProvider.t)
    (prompt : string) (tr : trace) :
  unobserved_by_provider f ->
  mwp (ChatGPTProvider.sendPrompt this prompt) tt tr (fun tr' _ _ =>
    count f tr' = count f tr).
Proof.
  intros Hf. unfold ChatGPTProvider.sendPrompt. mwp_step.
  eapply mwp_mono; [apply (handleDialogs_wp this f); intros; apply Hf|].
  intros tr1 [] r [-> H1]. cbv beta iota.
  unfold ChatGPTProvider.submitPrompt, ChatGPTProvider.awaitCompletion,
    ChatGPTProvider.extractResponse.
  repeat mwp_step.
  all: rewrite ?count_app, H1; provider_frame Hf.
Qed.

Lemma unobserved_session_call : unobserved_by_provider is_session_call.
Proof. by split. Qed.

Lemma processChain_loop_frame (f : Event -> bool) (rest : list PromptItem) :
  unobserved_by_provider f ->
  forall total i responses lastResponse this tr,
  mwp (Automator.processChain_loop total i rest responses lastResponse) this tr
    (fun tr' this' _ => this' = this /\ count f tr' = count f tr).
Proof.
  intros Hf. induction rest as [|promptItem rest IH];
    intros total i responses lastResponse this tr;
    cbn [Automator.processChain_loop].
  - by mwp_step.
  - cbv zeta. mwp_step. mwp_step. mwp_step. mwp_step. mwp_step.
    unfold Automator.processPrompt. mwp_step. mwp_step.
    destruct (Automator.provider this) as [prov|].
    + mwp_step. eapply mwp_mono; [apply (sendPrompt_frame f prov _ _ Hf)|].
      intros tr1 [] [err|response] H1; cbv beta iota.
      * split; [reflexivity|]. rewrite H1. provider_frame Hf.
      * eapply mwp_mono; [apply IH|]. intros tr2 this2 r [-> H2].
        split; [reflexivity|]. rewrite H2, H1. provider_frame Hf.
    + mwp_step. split; [reflexivity|]. provider_frame Hf.
Qed.

(** X12.  [login], [sendPrompt] and [processChain] work on the page only:
    none of them calls the file system, the browser launcher or the browser
    context, whether it returns or throws.  [processChain] also leaves the
    Automator's fields as they are, even when a prompt fails. *)
Theorem provider_stays_on_the_page (env : Env) (tr : trace) :
  (forall this c,
     count is_session_call (snd (run env tr (ChatGPTProvider.login this c tt)))
     = count is_session_call tr)
  /\ (forall this prompt,
        count is_session_call
          (snd (run env tr (ChatGPTProvider.sendPrompt this prompt tt)))
        = count is_session_call tr)
  /\ (forall this prompts,
        let out := run env tr (Automator.processChain prompts this) in
        fst (fst out) = this
        /\ count is_session_call (snd out) = count is_session_call tr).
Proof.
  split; [|split].
  - intros this c.
    exact (mwp_run env _ tt tr _ (login_frame _ this c tr unobserved_session_call)).
  - intros this prompt.
    exact (mwp_run env _ tt tr _
             (sendPrompt_frame _ this prompt tr unobserved_session_call)).
  - intros this prompts.
    exact (mwp_run env _ this tr _
             (processChain_loop_frame _ prompts unobserved_session_call
                (length prompts) 0 [] "" this tr)).
Qed.

Lemma unobserved_otp_before_polling : unobserved_before_polling is_otp_call.
Proof. by split. Qed.

Lemma pollLoop_supplier (this : ChatGPTProvider.t) (n : nat) :
  forall tr, mwp (ChatGPTProvider.pollLoop this n) tt tr (fun tr' _ r =>
    count is_otp_call tr' <= count is_otp_call tr + 1
    /\ (r = inr None -> count is_otp_call tr' = count is_otp_call tr)
    /\ (ChatGPTProvider.onOtpRequired this = None ->
        count is_otp_call tr' = count is_otp_call tr)).
Proof.
  induction n as [|n IH]; intros tr; cbn [ChatGPTProvider.pollLoop].
  - mwp_step. repeat split; auto; lia.
  - cbv zeta. unfold ChatGPTProvider.otpChallenge.
    mwp_step. mwp_step; [rewrite !count_app; cbn; repeat split; auto; lia|].
    mwp_step; [repeat mwp_step; rewrite !count_app; cbn;
               repeat split; try discriminate; auto; lia|].
    mwp_step. mwp_step; [rewrite !count_app; cbn; repeat split; auto; lia|].
    mwp_step.
    + repeat mwp_step.
      all: rewrite !count_app; cbn; repeat split; try discriminate; auto; lia.
    + mwp_step. mwp_step; [rewrite !count_app; cbn; repeat split; auto; lia|].
      eapply mwp_mono; [apply IH|]. intros tr' [] r (H1 & H2 & H3). cbv beta.
      rewrite !count_app in H1, H2, H3. cbn in H1, H2, H3.
      repeat split; [lia|intros Hr; specialize (H2 Hr); lia
                    |intros Hn; specialize (H3 Hn); lia].
Qed.

(** X13.  In one [login] the OTP supplier is asked at most once, and never
    when none was configured. *)
Theorem login_asks_supplier_at_most_once (env : Env) (this : ChatGPTProvider.t)
    (c : Credentials) (tr : trace) :
  let out := run env tr (ChatGPTProvider.login this c tt) in
  count is_otp_call (snd out) <= count is_otp_call tr + 1
  /\ (ChatGPTProvider.onOtpRequired this = None ->
      count is_otp_call (snd out) = count is_otp_call tr).
Proof.
  cbn zeta.
  apply (mwp_run env (ChatGPTProvider.login this c) tt tr
           (fun tr' _ _ =>
              count is_otp_call tr' <= count is_otp_call tr + 1
              /\ (ChatGPTProvider.onOtpRequired this = None ->
                  count is_otp_call tr' = count is_otp_call tr))).
  unfold ChatGPTProvider.login. mwp_step.
  eapply mwp_mono;
    [apply (reachCredentialEntry_frame is_otp_call this c tr),
       unobserved_otp_before_polling|].
  intros tr1 [] [err|[ok|]] H1; cbv beta iota;
    [split; [lia|auto]|mwp_step; split; [lia|auto]|].
  mwp_step. mwp_step.
  eapply mwp_mono;
    [apply (credentialEntry_frame is_otp_call), unobserved_otp_before_polling|].
  intros tr2 [] [err|[]] H2; cbv beta iota.
  - unfold ChatGPTProvider.loginFailed. repeat mwp_step.
    all: rewrite !count_app, H2, H1; cbn; split; [lia|intros _; lia].
  - unfold ChatGPTProvider.awaitResult. mwp_step. mwp_step. mwp_step.
    eapply mwp_mono; [apply (pollLoop_supplier this 30)|].
    intros tr3 [] r (H3 & H4 & H5). cbv beta.
    rewrite count_app, H2, H1 in H3, H4, H5. cbn in H3, H4, H5.
    destruct r as [err|[ok|]]; cbv beta iota;
      unfold ChatGPTProvider.loginFailed; repeat mwp_step.
    all: rewrite ?count_app; cbn; split; [|intros Hn; specialize (H5 Hn)];
      try specialize (H4 eq_refl); lia.
Qed.

Lemma login_asks_supplier_at_most_once_witness :
  count is_otp_call
    (snd (run (World.play World.otp_after_two_polls) []
            (ChatGPTProvider.login World.chatgpt Scenario.credentials tt)))
  = 0.
Proof.
  exact (proj2 (login_asks_supplier_at_most_once
                  (World.play World.otp_after_two_polls) World.chatgpt
                  Scenario.credentials []) eq_refl).
Defined.

Lemma reachCredentialEntry_fills (this : ChatGPTProvider.t) (c : Credentials)
    (tr : trace) :
  mwp (ChatGPTProvider.reachCredentialEntry this c) tt tr (fun tr' _ _ =>
    fills tr' = fills tr).
Proof.
  unfold ChatGPTProvider.reachCredentialEntry.
  mwp_step. mwp_step. mwp_step. mwp_step; [fills_frame; reflexivity|].
  mwp_step. eapply mwp_mono; [apply handleDialogs_fills|].
  intros tr' [] r [-> Hf]. cbv beta iota.
  repeat mwp_step.
  all: fills_frame; rewrite Hf; fills_frame; reflexivity.
Qed.

Lemma credentialEntry_fills (this : ChatGPTProvider.t) (email password : string)
    (method : option string) (tr : trace) :
  mwp (ChatGPTProvider.credentialEntry this email password method) tt tr
    (fun tr' _ r =>
       match r with
       | inr _ => fills tr' = fills tr ++ [email; password]
       | inl _ =>
           fills tr' = fills tr \/ fills tr' = fills tr ++ [email]
           \/ fills tr' = fills tr ++ [email; password]
       end).
Proof.
  unfold ChatGPTProvider.credentialEntry.
  repeat mwp_step.
  all: fills_frame; rewrite <- ?app_assoc; cbn [app]; auto.
Qed.

Ltac typed_frame :=
  rewrite ?fills_app, ?otp_codes_app; cbn [fills otp_codes flat_map];
  rewrite ?app_nil_r.

Lemma handleDialogs_codes (this : ChatGPTProvider.t) (tr : trace) :
  mwp (ChatGPTProvider.handleDialogs this) tt tr (fun tr' _ r =>
    r = inr tt /\ otp_codes tr' = otp_codes tr).
Proof.
  unfold ChatGPTProvider.handleDialogs.
  repeat mwp_step.
  all: repeat match goal with u : unit |- _ => destruct u end.
  all: split; [reflexivity|]; typed_frame; reflexivity.
Qed.

Lemma reachCredentialEntry_codes (this : ChatGPTProvider.t) (c : Credentials)
    (tr : trace) :
  mwp (ChatGPTProvider.reachCredentialEntry this c) tt tr (fun tr' _ _ =>
    otp_codes tr' = otp_codes tr).
Proof.
  unfold ChatGPTProvider.reachCredentialEntry.
  mwp_step. mwp_step. mwp_step. mwp_step; [typed_frame; reflexivity|].
  mwp_step. eapply mwp_mono; [apply handleDialogs_codes|].
  intros tr' [] r [-> Hf]. cbv beta iota.
  repeat mwp_step.
  all: typed_frame; rewrite Hf; typed_frame; reflexivity.
Qed.

Lemma credentialEntry_codes (this : ChatGPTProvider.t) (email password : string)
    (method : option string) (tr : trace) :
  mwp (ChatGPTProvider.credentialEntry this email password method) tt tr
    (fun tr' _ _ => otp_codes tr' = otp_codes tr).
Proof.
  unfold ChatGPTProvider.credentialEntry.
  repeat mwp_step.
  all: typed_frame; reflexivity.
Qed.

(** The polling loop types nothing, or the one passcode the supplier has
    just returned. *)
Lemma pollLoop_typed (this : ChatGPTProvider.t) (n : nat) :
  forall tr, mwp (ChatGPTProvider.pollLoop this n) tt tr (fun tr' _ _ =>
    (fills tr' = fills tr /\ otp_codes tr' = otp_codes tr)
    \/ exists code,
         fills tr' = fills tr ++ [code] /\ otp_codes tr' = otp_codes tr ++ [code]).
Proof.
  induction n as [|n IH]; intros tr; cbn [ChatGPTProvider.pollLoop].
  - mwp_step. by left.
  - cbv zeta. unfold ChatGPTProvider.otpChallenge.
    mwp_step. mwp_step; [left; typed_frame; by split|].
    mwp_step; [repeat mwp_step; left; typed_frame; by split|].
    mwp_step. mwp_step; [left; typed_frame; by split|].
    mwp_step.
    + repeat mwp_step.
      all: typed_frame;
        first [left; by split | right; eexists; by split].
    + mwp_step. mwp_step; [left; typed_frame; by split|].
      eapply mwp_mono; [apply IH|]. intros tr' [] r H. cbv beta.
      revert H. typed_frame. auto.
Qed.

(** X14.  Whatever the page does, [login] types at most three texts, in
    this order: the e-mail address, the password, and the passcode the OTP
    supplier returned in this call; it types a passcode exactly when the
    supplier has returned one. *)
Theorem login_types_only_credentials (env : Env) (this : ChatGPTProvider.t)
    (c : Credentials) (tr : trace) :
  login_typed c tr (snd (run env tr (ChatGPTProvider.login this c tt))).
Proof.
  apply (mwp_run env (ChatGPTProvider.login this c) tt tr
           (fun tr' _ _ => login_typed c tr tr')).
  unfold ChatGPTProvider.login, login_typed. mwp_step.
  eapply mwp_mono;
    [apply mwp_conj; [apply reachCredentialEntry_fills
                     |apply reachCredentialEntry_codes]|].
  intros tr1 [] [err|[ok|]] [H1 C1]; cbv beta iota.
  { exists [], []. rewrite !app_nil_r. auto 6. }
  { mwp_step. exists [], []. rewrite !app_nil_r. auto 6. }
  mwp_step. mwp_step.
  eapply mwp_mono;
    [apply mwp_conj; [apply credentialEntry_fills|apply credentialEntry_codes]|].
  fold (login_email c). fold (login_password c).
  intros tr2 [] [err|[]] [H2 C2]; cbv beta iota.
  - unfold ChatGPTProvider.loginFailed. repeat mwp_step.
    all: typed_frame; rewrite C2, C1; rewrite H1 in H2;
         destruct H2 as [-> | [-> | ->]].
    all: first
           [ exists [], []; rewrite ?app_nil_r; solve [repeat split; auto 6]
           | exists [login_email c], []; rewrite ?app_nil_r;
             solve [repeat split; auto 6]
           | exists [login_email c; login_password c], []; rewrite ?app_nil_r;
             solve [repeat split; auto 6] ].
  - unfold ChatGPTProvider.awaitResult. mwp_step. mwp_step. mwp_step.
    eapply mwp_mono; [apply (pollLoop_typed this 30)|].
    intros tr3 [] r H3. cbv beta. revert H3. typed_frame. rewrite H2, H1, C2, C1.
    intros H3.
    destruct r as [err|[ok|]]; cbv beta iota;
      unfold ChatGPTProvider.loginFailed; repeat mwp_step.
    all: typed_frame; destruct H3 as [[-> ->] | (code & -> & ->)].
    all: rewrite <- ?app_assoc; cbn [app].
    all: first
           [ exists [login_email c; login_password c], [];
             rewrite ?app_nil_r; solve [repeat split; auto 6]
           | exists [login_email c; login_password c; code], [code];
             split; [reflexivity|]; split; [reflexivity|]; right; by eexists ].
Qed.

(* ===================================================================== *)
(** * BrowserManager.start *)
(* ===================================================================== *)

Ltac start_frame H :=
  rewrite ?count_app; unfold count; cbn [List.filter];
  rewrite ?(us_log _ H), ?(us_dir _ H), ?(us_launch _ H), ?(us_exists _ H),
    ?(us_read _ H), ?(us_cookies _ H), ?(us_pages _ H), ?(us_new_page _ H);
  cbn [length List.filter]; rewrite ?Nat.add_0_r; try reflexivity.

Lemma start_wp (f : Event -> bool) (this : BrowserManager.t) (headless : bool)
    (sessionPath : option string) (tr : trace) :
  unobserved_by_start f ->
  mwp (BrowserManager.start headless sessionPath) this tr (fun tr' this' r =>
    count f tr' = count f tr
    /\ BrowserManager.userDataDir this' = BrowserManager.userDataDir this
    /\ BrowserManager.browser this' = BrowserManager.browser this
    /\ match r with
       | inr pg =>
           BrowserManager.page this' = Some pg
           /\ exists ctx, BrowserManager.context this' = Some ctx
       | inl _ => BrowserManager.page this' = BrowserManager.page this
       end).
Proof.
  intros Hf. unfold BrowserManager.start, BrowserManager.importSession.
  destruct this as [dir ctx0 pg0 b0].
  repeat mwp_step.
  all: cbn; repeat split; eauto.
  all: start_frame Hf.
Qed.

Lemma unobserved_start_page_call : unobserved_by_start is_page_call.
Proof. by split. Qed.

Lemma unobserved_start_storage : unobserved_by_start is_storage_state.
Proof. by split. Qed.

(** X15.  [start] never touches a page.  When it returns a page, the manager
    holds that page and a browser context; when it throws, the manager's
    page is the one it had before.  The data directory is never changed. *)
Theorem start_outcome (env : Env) (this : BrowserManager.t) (headless : bool)
    (sessionPath : option string) (tr : trace) :
  let out := run env tr (BrowserManager.start headless sessionPath this) in
  count is_page_call (snd out) = count is_page_call tr
  /\ BrowserManager.userDataDir (fst (fst out)) = BrowserManager.userDataDir this
  /\ match snd (fst out) with
     | inr pg =>
         BrowserManager.page (fst (fst out)) = Some pg
         /\ exists ctx, BrowserManager.context (fst (fst out)) = Some ctx
     | inl _ => BrowserManager.page (fst (fst out)) = BrowserManager.page this
     end.
Proof.
  cbn zeta.
  pose proof (mwp_run env _ this tr _
                (start_wp is_page_call this headless sessionPath tr
                   unobserved_start_page_call)) as (H1 & H2 & _ & H4).
  cbv beta in *. auto.
Qed.

(** X16.  When the browser cannot be launched, [start] logs the driver's
    error on the console and throws the error that tells the operator to
    install Playwright; the manager is left without a context. *)
Theorem start_launch_failure (env : Env) (this : BrowserManager.t)
    (headless : bool) (sessionPath : option string) (tr : trace) (e : JsError) :
  let dir := BrowserManager.userDataDir this in
  let launch :=
    LaunchPersistentContext dir
      (mkLaunchOptions headless BrowserManager.userAgent (1280, 720)
         BrowserManager.launchArgs) in
  env _ tr (EnsureDirSync dir) = inr tt ->
  env _ (tr ++ [EvCall (EnsureDirSync dir) (inr tt)]) launch = inl e ->
  run env tr (BrowserManager.start headless sessionPath this)
  = ((this,
      inl (Error "Failed to launch browser. Please ensure Playwright is installed via 'npx playwright install'.")),
     ((tr ++ [EvCall (EnsureDirSync dir) (inr tt)]) ++ [EvCall launch (inl e)])
       ++ [EvLog Console error ("Failed to launch browser: " +:+ toString e)]).
Proof.
  cbn zeta. intros Hdir Hlaunch. unfold BrowserManager.start.
  cbn. rewrite Hdir. cbn. rewrite Hlaunch. reflexivity.
Qed.

Lemma start_launch_failure_witness :
  snd (fst (run (World.play Scenario.no_browser) []
              (BrowserManager.start true None (BrowserManager.new World.linux))))
  = inl (Error "Failed to launch browser. Please ensure Playwright is installed via 'npx playwright install'.").
Proof.
  exact (f_equal (fun out => snd (fst out))
           (start_launch_failure (World.play Scenario.no_browser)
              (BrowserManager.new World.linux) true None [] World.TimeoutError
              eq_refl eq_refl)).
Defined.

(** X17.  Importing a saved session is best effort.  Without a session path
    [importSession] makes no call at all.  With one it asks whether the file
    exists and throws only if that check does; when the file is there it is
    read and, if it holds cookies, they are added to the context; an error
    of the read or of [addCookies] is logged on the console, as the last
    thing done, and swallowed.  The manager's fields are never changed. *)
Theorem importSession_is_best_effort (env : Env) (this : BrowserManager.t)
    (ctx : handle) (sessionPath : option string) (tr : trace) :
  let out := run env tr (BrowserManager.importSession ctx sessionPath this) in
  let path := default "" sessionPath in
  let present := ExistsSync path in
  let read := ReadJSON path in
  let failed e :=
    [EvLog Console error
       ("Failed to load session from " +:+ path +:+ ": " +:+ toString e)] in
  fst (fst out) = this
  /\ (if truthy sessionPath then
        let tr1 := tr ++ [EvCall present (env _ tr present)] in
        let tr2 := tr1 ++ [EvCall read (env _ tr1 read)] in
        snd (fst out)
        = match env _ tr present with
          | inl e => inl e
          | inr _ => inr tt
          end
        /\ snd out
           = match env _ tr present with
             | inr true =>
                 match env _ tr1 read with
                 | inl e => tr2 ++ failed e
                 | inr None => tr2
                 | inr (Some cookies) =>
                     let add := AddCookies ctx cookies in
                     (tr2 ++ [EvCall add (env _ tr2 add)])
                       ++ match env _ tr2 add with
                          | inl e => failed e
                          | inr _ => []
                          end
                 end
             | _ => tr1
             end
      else out = ((this, inr tt), tr)).
Proof.
  cbn zeta. unfold BrowserManager.importSession.
  destruct (truthy sessionPath); [|by split].
  cbn. destruct (env bool tr (ExistsSync _)) as [e|[|]]; cbn; [by split| |by split].
  destruct (env (option string) _ (ReadJSON _)) as [e|[cookies|]]; cbn;
    [by split| |by split].
  destruct (env unit _ (AddCookies ctx cookies)) as [e|[]]; cbn;
    rewrite ?app_nil_r; by split.
Qed.

(** X18.  With no session path, once the browser is launched [start] takes
    the first page the context already has and opens no new one; it opens a
    page only when the context has none. *)
Theorem start_reuses_open_page (env : Env) (this : BrowserManager.t)
    (headless : bool) (tr : trace) (ctx : handle) (pages : list handle) :
  let dir := BrowserManager.userDataDir this in
  let launch :=
    LaunchPersistentContext dir
      (mkLaunchOptions headless BrowserManager.userAgent (1280, 720)
         BrowserManager.launchArgs) in
  env _ tr (EnsureDirSync dir) = inr tt ->
  let tr1 := tr ++ [EvCall (EnsureDirSync dir) (inr tt)] in
  env _ tr1 launch = inr ctx ->
  let tr2 := tr1 ++ [EvCall launch (inr ctx)] in
  env _ tr2 (Pages ctx) = inr pages ->
  let tr3 := tr2 ++ [EvCall (Pages ctx) (inr pages)] in
  let out := run env tr (BrowserManager.start headless None this) in
  match pages with
  | first :: _ =>
      out = ((BrowserManager.set_page (Some first)
                (BrowserManager.set_context (Some ctx) this), inr first), tr3)
  | [] =>
      snd (fst out) = env _ tr3 (NewPage ctx)
      /\ snd out = tr3 ++ [EvCall (NewPage ctx) (env _ tr3 (NewPage ctx))]
  end.
Proof.
  cbn zeta. intros Hdir Hlaunch Hpages. unfold BrowserManager.start.
  cbn. rewrite Hdir. cbn. rewrite Hlaunch. cbn. rewrite Hpages. cbn.
  destruct pages as [|first others]; cbn; [|reflexivity].
  destruct (env handle _ (NewPage ctx)) as [e|pg]; cbn; by split.
Qed.

Lemma start_reuses_open_page_witness :
  snd (fst (run Scenario.saved_session []
              (BrowserManager.start true None (BrowserManager.new World.linux))))
  = inr 5.
Proof.
  exact (f_equal (fun out => snd (fst out))
           (start_reuses_open_page Scenario.saved_session
              (BrowserManager.new World.linux) true [] 1 [5; 6]
              eq_refl eq_refl eq_refl)).
Defined.

(* ===================================================================== *)
(** * Automator: construction, credentials, initialisation *)
(* ===================================================================== *)

(** X19.  A custom selector replaces the built-in one of the same name and
    no other; a built-in name that is not customised keeps its default; a
    name that is neither built in nor customised has no selector. *)
Theorem selectors_override (pg : handle) (custom : gmap string string)
    (logger : option Sink) (callback : option OtpCallback) (key : string) :
  ChatGPTProvider.selectors (ChatGPTProvider.new pg (Some custom) logger callback)
    !! key
  = match custom !! key with
    | Some selector => Some selector
    | None => ChatGPTProvider.DEFAULT_SELECTORS !! key
    end.
Proof.
  cbn [ChatGPTProvider.new ChatGPTProvider.selectors default]. unfold id.
  rewrite lookup_union.
  by destruct (custom !! key), (ChatGPTProvider.DEFAULT_SELECTORS !! key).
Qed.

(** X20.  Credentials: a non-empty constructor argument wins over the
    environment variable; an absent or empty one falls back to it; the
    method defaults to "email". *)
Theorem resolveCredentials_precedence (proc : NodeProcess) (this : Automator.t) :
  let explicit := Automator.credentials this in
  let resolved := Automator.resolveCredentials proc this in
  (forall c e, explicit = Some c -> email c = Some e -> e <> "" ->
     email resolved = Some e)
  /\ (forall c p, explicit = Some c -> password c = Some p -> p <> "" ->
        password resolved = Some p)
  /\ ((c ← explicit; email c) = None \/ (c ← explicit; email c) = Some "" ->
      email resolved = env_vars proc !! "CHATGPT_EMAIL")
  /\ ((c ← explicit; password c) = None \/ (c ← explicit; password c) = Some "" ->
      password resolved = env_vars proc !! "CHATGPT_PASSWORD")
  /\ ((c ← explicit; method c) = None -> method resolved = Some "email").
Proof.
  cbn zeta. unfold Automator.resolveCredentials, or_else. cbn [email password method].
  repeat split.
  - intros c e -> He Hne. cbn. rewrite He. cbn.
    apply String.eqb_neq in Hne. by rewrite Hne.
  - intros c p -> Hp Hne. cbn. rewrite Hp. cbn.
    apply String.eqb_neq in Hne. by rewrite Hne.
  - by intros [-> | ->].
  - by intros [-> | ->].
  - by intros ->.
Qed.

Lemma resolveCredentials_precedence_witness :
  email (Automator.resolveCredentials
           (mkNodeProcess "linux" "/home/user"
              {[ "CHATGPT_EMAIL" := "env@example.com" ]} (String.concat "/"))
           (Automator.new None None
              (Some (mkCredentials (Some "") (Some "password") None)) None None))
  = Some "env@example.com"
  /\ password (Automator.resolveCredentials
                 (mkNodeProcess "linux" "/home/user"
                    {[ "CHATGPT_EMAIL" := "env@example.com" ]} (String.concat "/"))
                 (Automator.new None None
                    (Some (mkCredentials (Some "") (Some "password") None)) None None))
     = Some "password".
Proof.
  pose proof (resolveCredentials_precedence
                (mkNodeProcess "linux" "/home/user"
                   {[ "CHATGPT_EMAIL" := "env@example.com" ]} (String.concat "/"))
                (Automator.new None None
                   (Some (mkCredentials (Some "") (Some "password") None)) None None))
    as (_ & Hp & He & _).
  split.
  - exact (He (or_intror eq_refl)).
  - refine (Hp _ "password" eq_refl eq_refl _). discriminate.
Defined.

(** X21.  Before [init()] has set a provider, [processChain] on a non-empty
    chain logs its first progress message and fails with
    [NotInitializedError] without any call to the driver; on the empty chain
    it returns the empty list without doing anything, initialised or not. *)
Theorem processChain_before_init (env : Env) (this : Automator.t) (tr : trace) :
  run env tr (Automator.processChain [] this) = ((this, inr []), tr)
  /\ (Automator.provider this = None ->
      forall item rest,
      let out := run env tr (Automator.processChain (item :: rest) this) in
      fst out = (this, inl NotInitializedError)
      /\ snd out = tr ++ [EvLog (Automator.logger this) info
                            ("Processing prompt 1/"
                             +:+ JsString.of_nat (S (length rest)) +:+ "...")]).
Proof.
  split; [reflexivity|]. intros Hnone item rest. cbn zeta.
  unfold Automator.processChain. cbn [Automator.processChain_loop length].
  rewrite run_mbind. cbn [get run]. rewrite run_mbind. cbn [log run].
  rewrite run_mbind, processPrompt_before_init by exact Hnone.
  split; reflexivity.
Qed.

Lemma processChain_before_init_witness :
  fst (run (World.play World.signed_in) []
         (Automator.processChain [Literal "Name a fruit."] World.bot))
  = (World.bot, inl NotInitializedError).
Proof.
  exact (proj1 (proj2 (processChain_before_init (World.play World.signed_in)
                         World.bot []) eq_refl (Literal "Name a fruit.") [])).
Defined.

Lemma unobserved_provider_storage : unobserved_by_provider is_storage_state.
Proof. by split. Qed.

Lemma init_wp (proc : NodeProcess) (this : Automator.t) :
  mwp (Automator.init proc) this [] (fun tr this' r =>
    (r = inr tt ->
     exists prov bm ctx,
       Automator.provider this' = Some prov
       /\ Automator.browserManager this' = Some bm
       /\ BrowserManager.context bm = Some ctx
       /\ BrowserManager.page bm = Some (ChatGPTProvider.page prov)
       /\ ChatGPTProvider.onOtpRequired prov
          = cfg_onOtpRequired (Automator.config this))
    /\ Automator.providerName this' = Automator.providerName this
    /\ Automator.credentials this' = Automator.credentials this
    /\ Automator.sessionPath this' = Automator.sessionPath this
    /\ count is_storage_state tr <= 1
    /\ (truthy (Automator.sessionPath this) = false -> count is_storage_state tr = 0)).
Proof.
  unfold Automator.init.
  destruct this as [bm0 prov0 name hl creds sp cfg lg].
  mwp_step. mwp_step. mwp_step. mwp_step. cbn [Automator.headless Automator.sessionPath
    Automator.set_browserManager].
  mwp_step. eapply mwp_onBrowserManager; [reflexivity|].
  eapply mwp_mono;
    [apply (start_wp is_storage_state _ hl sp [] unobserved_start_storage)|].
  intros tr1 bm1 [err|pg] (H1 & _ & _ & H4); cbv beta iota.
  { cbn. repeat split; try discriminate; rewrite ?H1; cbn; auto; lia. }
  destruct H4 as (Hpg & ctx & Hctx).
  unfold BrowserManager.isAuthenticated, BrowserManager.saveSession.
  repeat mwp_step.
  all: try lazymatch goal with
       | |- mwp (ChatGPTProvider.login _ _) _ _ _ =>
           eapply mwp_mono;
             [apply (login_frame is_storage_state _ _ _ unobserved_provider_storage)|];
           intros tr2 [] [err|ok] H2; cbv beta iota; repeat mwp_step
       end.
  all: cbn in *; try congruence.
  all: repeat split; try discriminate; try congruence.
  all: try (intros _; do 3 eexists; repeat split;
            first [reflexivity | eassumption | (cbn; congruence)]).
  all: try (intros; rewrite ?count_app, ?H2, ?count_app, ?H1; cbn;
            solve [congruence | lia]).
Qed.

(** X22.  When [init()] succeeds, the Automator has a provider, its session
    store holds a browser context, and the provider works on the session
    store's page, with the OTP supplier of the configuration.  Whether it
    succeeds or not, [init()] keeps the provider name, the credentials and
    the session path, writes the session file at most once, and never when
    no session path was given. *)
Theorem init_establishes_session (env : Env) (proc : NodeProcess)
    (this : Automator.t) :
  let out := run env [] (Automator.init proc this) in
  let this' := fst (fst out) in
  (snd (fst out) = inr tt ->
   exists prov bm ctx,
     Automator.provider this' = Some prov
     /\ Automator.browserManager this' = Some bm
     /\ BrowserManager.context bm = Some ctx
     /\ BrowserManager.page bm = Some (ChatGPTProvider.page prov)
     /\ ChatGPTProvider.onOtpRequired prov
        = cfg_onOtpRequired (Automator.config this))
  /\ Automator.providerName this' = Automator.providerName this
  /\ Automator.credentials this' = Automator.credentials this
  /\ Automator.sessionPath this' = Automator.sessionPath this
  /\ count is_storage_state (snd out) <= 1
  /\ (truthy (Automator.sessionPath this) = false ->
      count is_storage_state (snd out) = 0).
Proof. exact (mwp_run env _ _ _ _ (init_wp proc this)). Qed.

Lemma init_establishes_session_witness :
  let out := run (World.play Scenario.signs_in_after_two_polls) []
               (Automator.init World.linux Scenario.bot_with_session) in
  exists prov bm ctx,
    Automator.provider (fst (fst out)) = Some prov
    /\ Automator.browserManager (fst (fst out)) = Some bm
    /\ BrowserManager.context bm = Some ctx
    /\ BrowserManager.page bm = Some (ChatGPTProvider.page prov)
    /\ ChatGPTProvider.onOtpRequired prov = None.
Proof.
  exact (proj1 (init_establishes_session
                  (World.play Scenario.signs_in_after_two_polls) World.linux
                  Scenario.bot_with_session) eq_refl).
Defined.

(* ===================================================================== *)
(** * A chain that fails *)
(* ===================================================================== *)


(** Whether it returns or throws, [sendPrompt] types nothing but its
    prompt, and at most once. *)
Lemma sendPrompt_types (this : ChatGPTProvider.t) (prompt : string) (tr : trace) :
  mwp (ChatGPTProvider.sendPrompt this prompt) tt tr (fun tr' _ _ =>
    (fills tr' = fills tr \/ fills tr' = fills tr ++ [prompt])
    /\ count is_goto tr' = count is_goto tr
    /\ count is_screenshot tr' = count is_screenshot tr).
Proof.
  unfold ChatGPTProvider.sendPrompt. mwp_step.
  eapply mwp_mono;
    [apply mwp_conj;
       [apply handleDialogs_fills
       |apply mwp_conj;
          [apply (handleDialogs_wp this is_goto); reflexivity
          |apply (handleDialogs_wp this is_screenshot); reflexivity]]|].
  intros tr1 [] r ([-> Hfills] & [_ Hgoto] & [_ Hshot]). cbv beta iota.
  unfold ChatGPTProvider.submitPrompt, ChatGPTProvider.awaitCompletion,
    ChatGPTProvider.extractResponse.
  repeat mwp_step.
  all: repeat split.
  all: try (rewrite ?count_app, ?Hgoto, ?Hshot; cbn; lia).
  all: fills_frame; rewrite Hfills; auto.
Qed.


(** X23.  Whether it returns or throws, [sendPrompt] types nothing but its
    prompt, and at most once; it never reloads the page and takes no
    screenshot. *)
Theorem sendPrompt_types_at_most_once (env : Env) (this : ChatGPTProvider.t)
    (prompt : string) (tr : trace) :
  let out := run env tr (ChatGPTProvider.sendPrompt this prompt tt) in
  (fills (snd out) = fills tr \/ fills (snd out) = fills tr ++ [prompt])
  /\ count is_goto (snd out) = count is_goto tr
  /\ count is_screenshot (snd out) = count is_screenshot tr.
Proof. exact (mwp_run env _ _ _ _ (sendPrompt_types this prompt tr)). Qed.

(** X24.  [processChain] stops at the first item that fails: the items
    before it were processed in order as [chain_in_order] says and returned
    [responses]; the failing item, resolved against the last of them, was
    announced and sent; the error of its [processPrompt] is the error of
    [processChain], and nothing is done after it.  The responses gathered
    are not handed to the caller. *)
Theorem processChain_stops_at_first_failure (env : Env) (this : Automator.t)
    (prompts : list PromptItem) (tr : trace) (e : JsError) :
  let out := run env tr (Automator.processChain prompts this) in
  snd (fst out) = inl e ->
  exists done item rest responses,
    prompts = done ++ item :: rest
    /\ let before := chain_in_order env this (length prompts) 0 "" done tr in
       fst before = inr responses
       /\ length responses = length done
       /\ fills (snd before) = fills tr ++ zip_with resolvePrompt done ("" :: responses)
       /\ let failing :=
            run env
              (snd before
                 ++ [EvLog (Automator.logger this) info
                       ("Processing prompt " +:+ JsString.of_nat (length done + 1)
                        +:+ "/" +:+ JsString.of_nat (length prompts) +:+ "...")])
              (Automator.processPrompt
                 (resolvePrompt item (default "" (last responses))) this) in
          snd (fst failing) = inl e /\ snd out = snd failing.
Proof.
  cbv zeta. unfold Automator.processChain. rewrite processChain_loop_run.
  cbn [fst snd]. intros Hout.
  destruct (fst (chain_in_order env this (length prompts) 0 "" prompts tr))
    as [err|responses] eqn:Hspec; [|discriminate].
  injection Hout as ->.
  apply chain_in_order_fails in Hspec
    as (done & item & rest & responses & Hsplit & Hdone & Hfail & Htrace).
  exists done, item, rest, responses. cbn [Nat.add] in *.
  split; [exact Hsplit|]. split; [exact Hdone|].
  destruct (chain_in_order_returns _ _ _ _ _ _ _ _ Hdone) as [Hlen Hfills].
  by repeat split.
Qed.

Lemma processChain_stops_at_first_failure_witness :
  let env := World.play (Scenario.input_breaks_after 1) in
  let started := run env [] (Automator.init World.linux World.bot) in
  let chain := [Literal "Name a fruit."; Literal "What color is {}?";
                Literal "Why {}?"] in
  let out := run env (snd started) (Automator.processChain chain (fst (fst started))) in
  snd (fst out)
  = inl (Error ("Failed to send prompt: " +:+ toString World.TimeoutError))
  /\ fills (snd out) = fills (snd started) ++ ["Name a fruit."; "What color is mango?"]
  /\ exists done item rest responses,
       chain = done ++ item :: rest
       /\ let before :=
            chain_in_order env (fst (fst started)) (length chain) 0 "" done
              (snd started) in
          fst before = inr responses
          /\ length responses = length done
          /\ fills (snd before)
             = fills (snd started) ++ zip_with resolvePrompt done ("" :: responses)
          /\ let failing :=
               run env
                 (snd before
                    ++ [EvLog (Automator.logger (fst (fst started))) info
                          ("Processing prompt " +:+ JsString.of_nat (length done + 1)
                           +:+ "/" +:+ JsString.of_nat (length chain) +:+ "...")])
                 (Automator.processPrompt
                    (resolvePrompt item (default "" (last responses)))
                    (fst (fst started))) in
             snd (fst failing)
             = inl (Error ("Failed to send prompt: " +:+ toString World.TimeoutError))
             /\ snd out = snd failing.
Proof.
  split; [reflexivity|]. split; [reflexivity|].
  exact (processChain_stops_at_first_failure
           (World.play (Scenario.input_breaks_after 1))
           (fst (fst (run (World.play (Scenario.input_breaks_after 1)) []
                        (Automator.init World.linux World.bot))))
           [Literal "Name a fruit."; Literal "What color is {}?"; Literal "Why {}?"]
           (snd (run (World.play (Scenario.input_breaks_after 1)) []
                   (Automator.init World.linux World.bot)))
           (Error ("Failed to send prompt: " +:+ toString World.TimeoutError))
           eq_refl).
Defined.

(* ===================================================================== *)
(** * The browser that [init] starts, and [close] *)
(* ===================================================================== *)

Lemma unobserved_provider_close : unobserved_by_provider is_context_close.
Proof. by split. Qed.

Lemma unobserved_provider_launched : unobserved_by_provider is_launched.
Proof. split; intros; try reflexivity; by destruct res. Qed.

(** [start] on a manager without a context: the launch that resolves is the
    one that gives the manager its context. *)
Lemma start_launches (this : BrowserManager.t) (headless : bool)
    (sessionPath : option string) (tr : trace) :
  BrowserManager.context this = None ->
  mwp (BrowserManager.start headless sessionPath) this tr (fun tr' this' r =>
    count is_context_close tr' = count is_context_close tr
    /\ BrowserManager.browser this' = BrowserManager.browser this
    /\ count is_launched tr'
       = count is_launched tr + match BrowserManager.context this' with Some _ => 1 | None => 0 end
    /\ match r with
       | inr pg => BrowserManager.page this' = Some pg
       | inl _ => True
       end).
Proof.
  destruct this as [dir ctx0 pg0 b0]. cbn [BrowserManager.context BrowserManager.browser].
  intros ->.
  unfold BrowserManager.start, BrowserManager.importSession.
  repeat mwp_step.
  all: cbn; repeat split; eauto.
  all: rewrite ?count_app; cbn; lia.
Qed.

Lemma init_launch_wp (proc : NodeProcess) (this : Automator.t) :
  mwp (Automator.init proc) this [] (fun tr this' _ =>
    count is_context_close tr = 0
    /\ exists bm,
         Automator.browserManager this' = Some bm
         /\ BrowserManager.browser bm = None
         /\ count is_launched tr = match BrowserManager.context bm with Some _ => 1 | None => 0 end).
Proof.
  unfold Automator.init.
  destruct this as [bm0 prov0 name hl creds sp cfg lg].
  mwp_step. mwp_step. mwp_step. mwp_step. cbn [Automator.headless Automator.sessionPath
    Automator.set_browserManager].
  mwp_step. eapply mwp_onBrowserManager; [reflexivity|].
  eapply mwp_mono; [apply (start_launches _ hl sp []); reflexivity|].
  intros tr1 bm1 [err|pg] (H1 & Hb & Hl & Hpg); cbv beta iota.
  { cbn. split; [exact H1|]. exists bm1. by repeat split. }
  unfold BrowserManager.isAuthenticated, BrowserManager.saveSession.
  repeat mwp_step.
  all: lazymatch goal with
       | |- mwp (ChatGPTProvider.login _ _) _ _ _ =>
           eapply mwp_mono;
             [apply mwp_conj;
                [apply (login_frame is_context_close _ _ _ unobserved_provider_close)
                |apply (login_frame is_launched _ _ _ unobserved_provider_launched)]|];
           intros tr2 [] [err|ok] [H2 H3]; cbv beta iota; repeat mwp_step
       | |- _ => idtac
       end.
  all: cbn in *; try congruence.
  all: split; [|eexists; split; [reflexivity|]; split; [assumption|]].
  all: rewrite ?count_app, ?H2, ?H3, ?count_app, ?H1, ?Hl;
       repeat match goal with
              | H : BrowserManager.context _ = _ |- _ => rewrite H
              end;
       cbn; try lia; try reflexivity.
Qed.

(** X25.  [init()] never closes the browser context: when it throws after
    the browser was launched, the browser stays open.  A [close()] after
    [init()], successful or not, closes the context [init()] launched, once,
    and does nothing when the launch had failed. *)
Theorem close_after_init (env : Env) (proc : NodeProcess) (this : Automator.t) :
  driver_close_resolves env ->
  let started := run env [] (Automator.init proc this) in
  let closed := run env (snd started) (Automator.close (fst (fst started))) in
  count is_context_close (snd started) = 0
  /\ count is_launched (snd started) <= 1
  /\ snd (fst closed) = inr tt
  /\ count is_context_close (snd closed) = count is_launched (snd started).
Proof.
  intros Hdriver. cbv zeta.
  pose proof (mwp_run env _ _ _ _ (init_launch_wp proc this))
    as (Hopen & bm & Hbm & Hbrowser & Hlaunched).
  cbv beta in *. rewrite close_once by exact Hdriver. cbn [fst snd].
  unfold close_calls. rewrite Hbm, Hbrowser, count_app, Hopen, Hlaunched.
  destruct (BrowserManager.context bm); cbn; repeat split; lia.
Qed.

Lemma close_after_init_witness :
  let env := World.play World.signed_out in
  let started := run env [] (Automator.init World.linux World.bot) in
  let closed := run env (snd started) (Automator.close (fst (fst started))) in
  snd (fst started) = inl ConfigurationError_credentials
  /\ count is_context_close (snd started) = 0
  /\ count is_launched (snd started) <= 1
  /\ snd (fst closed) = inr tt
  /\ count is_context_close (snd closed) = count is_launched (snd started).
Proof.
  split; [reflexivity|].
  exact (close_after_init (World.play World.signed_out) World.linux World.bot
           (conj (fun _ _ => eq_refl) (fun _ _ => eq_refl))).
Defined.

(* ===================================================================== *)
(** * Automator.init: the order of its steps *)
(* ===================================================================== *)

Lemma run_onBrowserManager {A : Type} (env : Env) (m : M BrowserManager.t A)
    (this : Automator.t) (bm : BrowserManager.t) (tr : trace) :
  Automator.browserManager this = Some bm ->
  run env tr (Automator.onBrowserManager m this)
  = ((Automator.set_browserManager (Some (fst (fst (run env tr (m bm))))) this,
      snd (fst (run env tr (m bm)))),
     snd (run env tr (m bm))).
Proof.
  intros Hbm. unfold Automator.onBrowserManager. rewrite Hbm, run_bind.
  by destruct (run env tr (m bm)) as [[bm' r] tr'].
Qed.

(** [start] on a new manager: when it returns, the manager holds the page
    and a context, the browser was launched once, and no page was touched. *)
Lemma start_from_new (env : Env) (proc : NodeProcess) (headless : bool)
    (sessionPath : option string) :
  let started :=
    run env [] (BrowserManager.start headless sessionPath (BrowserManager.new proc)) in
  count is_page_call (snd started) = 0
  /\ BrowserManager.browser (fst (fst started)) = None
  /\ forall pg, snd (fst started) = inr pg ->
       BrowserManager.page (fst (fst started)) = Some pg
       /\ count is_launched (snd started) = 1
       /\ exists ctx, BrowserManager.context (fst (fst started)) = Some ctx.
Proof.
  cbv zeta.
  pose proof (mwp_run env _ _ _ _
                (start_wp is_page_call (BrowserManager.new proc) headless sessionPath
                   [] unobserved_start_page_call)) as (Hpage & _ & Hbrowser & Hout).
  pose proof (mwp_run env _ _ _ _
                (start_launches (BrowserManager.new proc) headless sessionPath []
                   eq_refl)) as (_ & _ & Hlaunched & _).
  cbv beta in *.
  destruct (run env [] _) as [[bm r] tr]. cbn [fst snd] in *.
  split; [exact Hpage|]. split; [exact Hbrowser|].
  intros pg ->. destruct Hout as [Hpg [ctx Hctx]].
  split; [exact Hpg|]. rewrite Hctx in Hlaunched. split; [exact Hlaunched|].
  by exists ctx.
Qed.

Lemma unobserved_start_goto : unobserved_by_start is_goto.
Proof. by split. Qed.

(** [isAuthenticated] on a manager with a page: one navigation, a boolean,
    and no assignment. *)
Lemma isAuthenticated_frame (this : BrowserManager.t) (pg : handle)
    (url selector : string) (tr : trace) :
  BrowserManager.page this = Some pg ->
  mwp (BrowserManager.isAuthenticated url selector) this tr (fun tr' this' r =>
    this' = this
    /\ count is_goto tr' = count is_goto tr + 1
    /\ count is_input tr' = count is_input tr
    /\ exists b, r = inr b).
Proof.
  intros Hpg. unfold BrowserManager.isAuthenticated.
  mwp_step. mwp_step. rewrite Hpg.
  repeat mwp_step.
  all: split; [reflexivity|]; rewrite ?count_app; cbn; split; [lia|].
  all: split; [lia|]; by eexists.
Qed.

(** C4, as stated, fails: with the provider name "gemini" the browser
    context and the page have been created by the time the error is
    thrown. *)
Lemma unknown_provider_after_start :
  let out := run (World.play World.signed_in) []
               (Automator.init World.linux World.gemini_bot) in
  snd (fst out) = inl (UnknownProviderError "gemini")
  /\ (bm ← Automator.browserManager (fst (fst out)); BrowserManager.context bm) = Some 1
  /\ (bm ← Automator.browserManager (fst (fst out)); BrowserManager.page bm) = Some 2
  /\ count is_launched (snd out) = 1.
Proof. vm_compute. repeat split. Qed.

(** C4, amended.  With an unknown provider name [init()] always fails,
    constructs no provider and makes no call on the page.  The name is looked
    at only after the session store has been started and the clipboard
    permissions granted: the run of [init()] begins with the whole run of
    [start]; when [start] throws, [init()] throws its error; when it
    returns, the browser has been launched, the session store holds the
    context and the page, and the grant is called; [init()] then throws the
    grant's error when it rejects and [UnknownProviderError] when it
    resolves. *)
Theorem init_unknown_provider (env : Env) (proc : NodeProcess) (this : Automator.t) :
  Automator.providerName this <> "chatgpt" ->
  let out := run env [] (Automator.init proc this) in
  let started :=
    run env []
      (BrowserManager.start (Automator.headless this) (Automator.sessionPath this)
         (BrowserManager.new proc)) in
  let bm := fst (fst started) in
  (exists e, snd (fst out) = inl e)
  /\ Automator.provider (fst (fst out)) = Automator.provider this
  /\ count is_page_call (snd out) = 0
  /\ fst (fst out) = Automator.set_browserManager (Some bm) this
  /\ match snd (fst started) with
     | inl e => snd (fst out) = inl e /\ snd out = snd started
     | inr pg =>
         exists ctx,
           BrowserManager.context bm = Some ctx
           /\ BrowserManager.page bm = Some pg
           /\ count is_launched (snd started) = 1
           /\ let grant :=
                GrantPermissions ctx ["clipboard-read"; "clipboard-write"] in
              snd out = snd started ++ [EvCall grant (env _ (snd started) grant)]
              /\ snd (fst out)
                 = match env _ (snd started) grant with
                   | inl e => inl e
                   | inr _ => inl (UnknownProviderError (Automator.providerName this))
                   end
     end.
Proof.
  intros Hname. apply String.eqb_neq in Hname. cbv zeta.
  pose proof (start_from_new env proc (Automator.headless this)
                (Automator.sessionPath this)) as (Hpage & _ & Hstarted).
  cbv zeta in Hpage, Hstarted.
  destruct this as [bm0 prov name hl creds sp cfg lg].
  cbn [Automator.providerName Automator.headless Automator.sessionPath
       Automator.provider] in *.
  unfold Automator.init.
  rewrite run_mbind. cbn [modify run].
  rewrite run_mbind. cbn [get run].
  rewrite run_mbind.
  rewrite (run_onBrowserManager env _ _ (BrowserManager.new proc)) by reflexivity.
  cbn [Automator.headless Automator.sessionPath Automator.set_browserManager
       Automator.provider Automator.providerName Automator.credentials
       Automator.config Automator.logger].
  destruct (run env [] (BrowserManager.start hl sp (BrowserManager.new proc)))
    as [[bm1 [e|pg]] tr1]. 
  { cbn [fst snd] in *. repeat split; eauto. }
  cbn [fst snd] in *.
  destruct (Hstarted pg eq_refl) as (Hpg & Hlaunched & ctx & Hctx).
  rewrite run_mbind.
  rewrite (run_onBrowserManager env _ _ bm1) by reflexivity.
  cbn [get run fst snd Automator.set_browserManager
       Automator.provider Automator.providerName Automator.credentials
       Automator.headless Automator.sessionPath
       Automator.config Automator.logger].
  rewrite run_mbind, Hctx. cbn [await run].
  rewrite Hname.
  destruct (env unit tr1 (GrantPermissions ctx ["clipboard-read"; "clipboard-write"]))
    as [e|[]] eqn:Hgrant; cbn [fst snd].
  all: rewrite ?run_mbind; cbn [throw run fst snd].
  all: split; [by eexists|]. 
  all: split; [reflexivity|].
  all: split; [rewrite count_app, Hpage; reflexivity|].
  all: split; [reflexivity|].
  all: exists ctx; rewrite Hgrant; by repeat split.
Qed.

Lemma init_unknown_provider_witness :
  let env := World.play World.signed_in in
  let out := run env [] (Automator.init World.linux World.gemini_bot) in
  let started :=
    run env []
      (BrowserManager.start true None (BrowserManager.new World.linux)) in
  exists ctx,
    BrowserManager.context (fst (fst started)) = Some ctx
    /\ BrowserManager.page (fst (fst started)) = Some 2
    /\ count is_launched (snd started) = 1
    /\ snd out
       = snd started
           ++ [EvCall (GrantPermissions ctx ["clipboard-read"; "clipboard-write"])
                 (inr tt)]
    /\ snd (fst out) = inl (UnknownProviderError "gemini").
Proof.
  refine (proj2 (proj2 (proj2 (proj2
            (init_unknown_provider (World.play World.signed_in) World.linux
               World.gemini_bot _))))).
  discriminate.
Defined.

(** C2, as stated, fails twice: in a signed-out session the credentials
    error is thrown after the authentication check has navigated to the
    application; and in a session that is already signed in [init()]
    succeeds without credentials. *)
Lemma missing_credentials_after_navigation :
  let out := run (World.play World.signed_out) []
               (Automator.init World.linux World.bot) in
  let out' := run (World.play World.signed_in) []
                (Automator.init World.linux World.bot) in
  credentials_missing World.linux World.bot = true
  /\ snd (fst out) = inl ConfigurationError_credentials
  /\ count is_goto (snd out) = 1
  /\ snd (fst out') = inr tt.
Proof. vm_compute. repeat split. Qed.

(** C2, amended.  When neither source supplies both email and password,
    [init()] never starts the login flow: no click, no fill, at most the one
    navigation of the authentication check.  The credentials are looked at
    only after the session store has been started, the clipboard
    permissions granted and the authentication check made, and only when
    that check reports the session as not authenticated.  With the provider
    "chatgpt": the run of [init()] begins with the whole run of [start] and
    the grant, and a failure of either is thrown as it is; then
    [isAuthenticated] navigates to the application; when it answers [true],
    [init()] logs "Session authenticated." and succeeds without
    credentials; when it answers [false], [init()] logs "Not authenticated.
    Initiating login..." and throws the credentials error. *)
Theorem init_missing_credentials (env : Env) (proc : NodeProcess)
    (this : Automator.t) :
  credentials_missing proc this = true ->
  let out := run env [] (Automator.init proc this) in
  count is_input (snd out) = 0
  /\ count is_goto (snd out) <= 1
  /\ (Automator.providerName this = "chatgpt" ->
      let started :=
        run env []
          (BrowserManager.start (Automator.headless this)
             (Automator.sessionPath this) (BrowserManager.new proc)) in
      let bm := fst (fst started) in
      match snd (fst started) with
      | inl e =>
          out = ((Automator.set_browserManager (Some bm) this, inl e), snd started)
      | inr pg =>
          exists ctx,
            BrowserManager.context bm = Some ctx
            /\ BrowserManager.page bm = Some pg
            /\ let grant :=
                 GrantPermissions ctx ["clipboard-read"; "clipboard-write"] in
               match env _ (snd started) grant with
               | inl e =>
                   out = ((Automator.set_browserManager (Some bm) this, inl e),
                          snd started ++ [EvCall grant (inl e)])
               | inr _ =>
                   let prov :=
                     ChatGPTProvider.new pg
                       (cfg_selectors (Automator.config this))
                       (Some (Automator.logger this))
                       (cfg_onOtpRequired (Automator.config this)) in
                   let this' :=
                     Automator.set_provider (Some prov)
                       (Automator.set_browserManager (Some bm) this) in
                   let check :=
                     run env (snd started ++ [EvCall grant (inr tt)])
                       (BrowserManager.isAuthenticated ChatGPTProvider.URL
                          (ChatGPTProvider.SEL_PROFILE_BTN prov) bm) in
                   count is_goto (snd check) = 1
                   /\ out
                      = match snd (fst check) with
                        | inr true =>
                            ((this', inr tt),
                             snd check
                               ++ [EvLog (Automator.logger this) info
                                     "Session authenticated."])
                        | _ =>
                            ((this', inl ConfigurationError_credentials),
                             snd check
                               ++ [EvLog (Automator.logger this) info
                                     "Not authenticated. Initiating login..."])
                        end
               end
      end).
Proof.
  intros Hmiss. cbv zeta.
  pose proof (mwp_run env _ _ _ _ (init_missing_credentials_wp proc this Hmiss))
    as (Hinput & Hgoto & _).
  split; [exact Hinput|]. split; [exact Hgoto|]. clear Hinput Hgoto.
  intros Hname.
  pose proof (start_from_new env proc (Automator.headless this)
                (Automator.sessionPath this)) as (_ & _ & Hstarted).
  pose proof (mwp_run env _ _ _ _
                (start_wp is_goto (BrowserManager.new proc) (Automator.headless this)
                   (Automator.sessionPath this) [] unobserved_start_goto))
    as (Hnav & _).
  cbv zeta beta in Hstarted, Hnav.
  destruct this as [bm0 prov0 name hl creds sp cfg lg].
  unfold credentials_missing in Hmiss.
  cbn [Automator.providerName Automator.headless Automator.sessionPath
       Automator.provider Automator.config Automator.logger] in *.
  subst name. unfold Automator.init.
  rewrite run_mbind. cbn [modify run].
  rewrite run_mbind. cbn [get run].
  rewrite run_mbind.
  rewrite (run_onBrowserManager env _ _ (BrowserManager.new proc)) by reflexivity.
  cbn [Automator.headless Automator.sessionPath Automator.set_browserManager
       Automator.provider Automator.providerName Automator.credentials
       Automator.config Automator.logger].
  destruct (run env [] (BrowserManager.start hl sp (BrowserManager.new proc)))
    as [[bm1 [e|pg]] tr1]; cbn [fst snd] in *; [reflexivity|].
  destruct (Hstarted pg eq_refl) as (Hpg & _ & ctx & Hctx).
  exists ctx. split; [exact Hctx|]. split; [exact Hpg|].
  rewrite run_mbind.
  rewrite (run_onBrowserManager env _ _ bm1) by reflexivity.
  cbn [get run fst snd Automator.set_browserManager
       Automator.provider Automator.providerName Automator.credentials
       Automator.headless Automator.sessionPath
       Automator.config Automator.logger].
  rewrite run_mbind, Hctx. cbn [await run].
  destruct (env unit tr1 (GrantPermissions ctx ["clipboard-read"; "clipboard-write"]))
    as [e|[]] eqn:Hgrant; cbn [fst snd]; [reflexivity|].
  rewrite String.eqb_refl.
  rewrite run_mbind. cbn [modify run].
  rewrite run_mbind. cbn [get run Automator.set_provider
       Automator.provider Automator.providerName Automator.credentials
       Automator.headless Automator.sessionPath Automator.browserManager
       Automator.config Automator.logger].
  rewrite run_mbind.
  rewrite (run_onBrowserManager env _ _ bm1) by reflexivity.
  pose proof (mwp_run env _ _ _ _
                (isAuthenticated_frame bm1 pg ChatGPTProvider.URL
                   (ChatGPTProvider.SEL_PROFILE_BTN
                      (ChatGPTProvider.new pg (cfg_selectors cfg) (Some lg)
                         (cfg_onOtpRequired cfg)))
                   (tr1 ++ [EvCall (GrantPermissions ctx
                                      ["clipboard-read"; "clipboard-write"])
                              (inr tt)])
                   Hpg)) as (Hsame & Hchecked & _ & answer & Hanswer).
  cbv beta in Hsame, Hchecked, Hanswer.
  destruct (run env _ (BrowserManager.isAuthenticated _ _ bm1))
    as [[bm2 r] tr2]. cbn [fst snd] in *. subst bm2 r.
  split; [rewrite Hchecked, count_app, Hnav; reflexivity|].
  destruct answer; cbn [negb].
  - cbn [log run Automator.logger Automator.set_browserManager
         Automator.set_provider Automator.provider Automator.providerName
         Automator.credentials Automator.headless Automator.sessionPath
         Automator.browserManager Automator.config]. reflexivity.
  - rewrite run_mbind.
    cbn [log run Automator.logger Automator.set_browserManager
         Automator.set_provider Automator.provider Automator.providerName
         Automator.credentials Automator.headless Automator.sessionPath
         Automator.browserManager Automator.config].
    cbv zeta. unfold Automator.resolveCredentials in Hmiss |- *.
    cbn [Automator.set_browserManager Automator.set_provider Automator.provider
         Automator.providerName Automator.credentials Automator.headless
         Automator.sessionPath Automator.browserManager Automator.config
         Automator.logger email password] in Hmiss |- *.
    rewrite Hmiss. reflexivity.
Qed.

Lemma init_missing_credentials_witness :
  let out := run (World.play World.signed_out) []
               (Automator.init World.linux World.bot) in
  let out' := run (World.play World.signed_in) []
                (Automator.init World.linux World.bot) in
  (snd (fst out) = inl ConfigurationError_credentials
   /\ count is_goto (snd out) = 1
   /\ count is_launched (snd out) = 1)
  /\ snd (fst out') = inr tt.
Proof.
  destruct (proj2 (proj2 (init_missing_credentials
                            (World.play World.signed_out) World.linux World.bot
                            eq_refl)) eq_refl)
    as (ctx & _ & _ & _ & Hout).
  destruct (proj2 (proj2 (init_missing_credentials
                            (World.play World.signed_in) World.linux World.bot
                            eq_refl)) eq_refl)
    as (ctx' & _ & _ & _ & Hout').
  cbv zeta. split.
  - rewrite Hout. vm_compute. by repeat split.
  - rewrite Hout'. reflexivity.
Defined.
